(** * Occlusmart backend: the scan record store of [main.py]

    A shallow embedding of the scan store of [src/main.py]: the global
    [scans_db], its snapshot file [scans_db.json], the upload directory and
    the four request handlers [get_scans], [get_scan], [delete_scan] and
    [analyze_occlusion], together with the part of Python's [json] and
    [os.path] modules that these handlers call.

    Conventions of the embedding.
    - A Python [str] is the list of its code points ([pystr]).
    - A value that [json.load] can build, or that the handlers build
      themselves, is a [json] term; dictionaries keep insertion order.
    - A handler is a computation in the monad [M]: it threads the process
      state (the global, the files on disk) and may raise a Python exception;
      the state reached when the exception is raised is kept, as it is in
      Python.
    - What the operating system decides (whether an [open] or a [write]
      succeeds, the random identifier, the clock) is read from an explicit
      environment. *)

From Stdlib Require Import String Ascii NArith ZArith Lia List Decimal DecimalFacts DecimalN.
From stdpp Require Import base option list gmap.

Import ListNotations.
Local Open Scope list_scope.
Set Warnings "-register-all".

(** ** Python strings *)

(** A [str] is a sequence of Unicode code points, each below [0x110000]. *)
Definition pystr : Type := list N.

(** The code point of an ASCII character of the source text. *)
Definition ch (a : ascii) : N := N_of_ascii a.

(** A string literal of the source text. *)
Fixpoint py (s : string) : pystr :=
  match s with
  | EmptyString => []
  | String a r => ch a :: py r
  end.

(** [sep.join(parts)] *)
Fixpoint join (sep : pystr) (parts : list pystr) : pystr :=
  match parts with
  | [] => []
  | [p] => p
  | p :: rest => p ++ sep ++ join sep rest
  end.

(** [s.startswith(prefix)], returning what follows the prefix. *)
Fixpoint strip_prefix (prefix s : pystr) : option pystr :=
  match prefix, s with
  | [], _ => Some s
  | p :: prefix', c :: s' => if (p =? c)%N then strip_prefix prefix' s' else None
  | _ :: _, [] => None
  end.

(** ** Python exceptions *)

(** The exceptions the handlers can meet.  [HTTPException] is what FastAPI
    turns into a response; its [detail] is kept structured: [ScanNotFound]
    is the text "Scan not found", [AnalysisFailed e] is the text
    "An error occurred during analysis: " followed by [str(e)]. *)
Inductive exn : Type :=
| TypeError
| AttributeError
| KeyError (key : pystr)
| ValueError
| JSONDecodeError
| UnicodeDecodeError
| OSError (errno : Z)
| HTTPException (status_code : Z) (detail : http_detail)
with http_detail : Type :=
| ScanNotFound
| AnalysisFailed (cause : exn).

Inductive result (A : Type) : Type :=
| Ok (a : A)
| Raise (e : exn).
Arguments Ok {A} a.
Arguments Raise {A} e.

Definition rbind {A B} (r : result A) (k : A -> result B) : result B :=
  match r with
  | Ok a => k a
  | Raise e => Raise e
  end.

Declare Scope result_scope.
Delimit Scope result_scope with result.
Notation "'let?' x ':=' r 'in' k" := (rbind r (fun x => k))
  (at level 10, x pattern, r at level 100, k at level 200) : result_scope.

(** ** JSON-shaped Python values *)

(** [JFloat lit]: a Python float, carried by the text [float.__repr__] (or
    the encoder, for the non-finite ones) writes for it; the store never
    computes with a float, it only stores, prints and reloads it. *)
Inductive json : Type :=
| JNull
| JBool (b : bool)
| JInt (z : Z)
| JFloat (lit : pystr)
| JStr (s : pystr)
| JArr (items : list json)
| JObj (fields : list (pystr * json)).

(** A Python [dict] with [str] keys, in insertion order. *)
Definition pydict : Type := list (pystr * json).

Definition pystr_eqb (a b : pystr) : bool := bool_decide (a = b).

(** [d.get(key)]: [None] stands for Python's [None] default. *)
Fixpoint dict_get (key : pystr) (d : pydict) : option json :=
  match d with
  | [] => None
  | (k, v) :: rest => if pystr_eqb k key then Some v else dict_get key rest
  end.

(** [d[key] = value]: an existing key keeps its position, a new key goes
    last. *)
Fixpoint dict_set (key : pystr) (value : json) (d : pydict) : pydict :=
  match d with
  | [] => [(key, value)]
  | (k, v) :: rest =>
      if pystr_eqb k key then (k, value) :: rest else (k, v) :: dict_set key value rest
  end.

(** [key in d] *)
Definition dict_mem (key : pystr) (d : pydict) : bool :=
  match dict_get key d with Some _ => true | None => false end.

(** [value == s] for a [str] [s]: only an equal [str] compares equal. *)
Definition eq_str (value : option json) (s : pystr) : bool :=
  match value with
  | Some (JStr t) => pystr_eqb t s
  | _ => false
  end.

(** [scan.get(key)] on an arbitrary value: only a [dict] has [get]. *)
Definition py_get (scan : json) (key : pystr) : result (option json) :=
  match scan with
  | JObj d => Ok (dict_get key d)
  | _ => Raise AttributeError
  end.

(** [for x in value]: the items the iteration yields. *)
Definition py_iter (value : json) : result (list json) :=
  match value with
  | JArr items => Ok items
  | JObj d => Ok (map (fun kv => JStr (fst kv)) d)
  | JStr s => Ok (map (fun c => JStr [c]) s)
  | _ => Raise TypeError
  end.

(** [len(value)] *)
Definition py_len (value : json) : result nat :=
  match value with
  | JArr items => Ok (length items)
  | JObj d => Ok (length d)
  | JStr s => Ok (length s)
  | _ => Raise TypeError
  end.

(** ** [json.dump] *)

Definition hex_digit (n : N) : N :=
  if (n <? 10)%N then (48 + n)%N else (87 + n)%N.

(** ['\\u{0:04x}'.format(n)] *)
Definition escape_u (n : N) : pystr :=
  [ch "\"; ch "u";
   hex_digit (N.shiftr n 12 mod 16); hex_digit (N.shiftr n 8 mod 16);
   hex_digit (N.shiftr n 4 mod 16); hex_digit (n mod 16)].

(** The replacement of one character under [ensure_ascii=True]. *)
Definition escape_char (c : N) : pystr :=
  if (c =? 34)%N then [92; 34]%N
  else if (c =? 92)%N then [92; 92]%N
  else if (c =? 10)%N then py "\n"
  else if (c =? 13)%N then py "\r"
  else if (c =? 9)%N then py "\t"
  else if (c =? 8)%N then py "\b"
  else if (c =? 12)%N then py "\f"
  else if ((32 <=? c) && (c <=? 126))%N then [c]
  else if (c <? 65536)%N then escape_u c
  else
    let n := (c - 65536)%N in
    escape_u (N.lor 55296 (N.land (N.shiftr n 10) 1023))
      ++ escape_u (N.lor 56320 (N.land n 1023)).

(** [py_encode_basestring_ascii]: the quoted, escaped form of a string. *)
Definition encode_str (s : pystr) : pystr :=
  34%N :: flat_map escape_char s ++ [34%N].

Fixpoint uint_chars (d : uint) : pystr :=
  match d with
  | Nil => []
  | D0 r => 48%N :: uint_chars r
  | D1 r => 49%N :: uint_chars r
  | D2 r => 50%N :: uint_chars r
  | D3 r => 51%N :: uint_chars r
  | D4 r => 52%N :: uint_chars r
  | D5 r => 53%N :: uint_chars r
  | D6 r => 54%N :: uint_chars r
  | D7 r => 55%N :: uint_chars r
  | D8 r => 56%N :: uint_chars r
  | D9 r => 57%N :: uint_chars r
  end.

(** [int.__repr__] *)
Definition int_str (z : Z) : pystr :=
  (if (z <? 0)%Z then [45%N] else []) ++ uint_chars (N.to_uint (Z.abs_N z)).

(** [json.dumps(value)] with the default options of [json.dump]:
    [ensure_ascii=True], separators [", "] and [": "], no indentation. *)
Fixpoint json_dumps (value : json) : pystr :=
  match value with
  | JNull => py "null"
  | JBool true => py "true"
  | JBool false => py "false"
  | JInt z => int_str z
  | JFloat lit => lit
  | JStr s => encode_str s
  | JArr items => 91%N :: join (py ", ") (map json_dumps items) ++ [93%N]
  | JObj fields =>
      123%N :: join (py ", ")
                 (map (fun kv => encode_str (fst kv) ++ py ": " ++ json_dumps (snd kv)) fields)
        ++ [125%N]
  end.

(** ** [json.load]

    The scanner of CPython's [_json] module, which [json.load] uses.  Two
    limits of the interpreter are left out: the bound on the depth of
    nested calls and the bound on the number of digits of an integer. *)

Definition is_ws (c : N) : bool :=
  ((c =? 32) || (c =? 9) || (c =? 10) || (c =? 13))%N.

Fixpoint skip_ws (s : pystr) : pystr :=
  match s with
  | c :: r => if is_ws c then skip_ws r else s
  | [] => []
  end.

Definition is_digit (c : N) : bool := ((48 <=? c) && (c <=? 57))%N.

Definition hex_value (c : N) : option N :=
  if is_digit c then Some (c - 48)%N
  else if ((97 <=? c) && (c <=? 102))%N then Some (c - 87)%N
  else if ((65 <=? c) && (c <=? 70))%N then Some (c - 55)%N
  else None.

Definition hex4 (a b c d : N) : option N :=
  match hex_value a, hex_value b, hex_value c, hex_value d with
  | Some a', Some b', Some c', Some d' => Some (4096 * a' + 256 * b' + 16 * c' + d')%N
  | _, _, _, _ => None
  end.

(** What one position of a string literal denotes: a character given
    literally or by a short escape, or the value of a [\uXXXX] escape. *)
Inductive str_item : Type :=
| Lit (c : N)
| Esc (u : N).

Definition simple_escape (e : N) : option N :=
  if (e =? 34)%N then Some 34%N
  else if (e =? 92)%N then Some 92%N
  else if (e =? 47)%N then Some 47%N
  else if (e =? 98)%N then Some 8%N
  else if (e =? 102)%N then Some 12%N
  else if (e =? 110)%N then Some 10%N
  else if (e =? 114)%N then Some 13%N
  else if (e =? 116)%N then Some 9%N
  else None.

Definition cons_item (i : str_item) (r : option (list str_item * pystr))
  : option (list str_item * pystr) :=
  match r with
  | Some (items, rest) => Some (i :: items, rest)
  | None => None
  end.

(** The body of a string literal, read after its opening quote up to and
    including the closing quote ([scanstring] with [strict=True]). *)
Fixpoint scan_items (s : pystr) : option (list str_item * pystr) :=
  match s with
  | [] => None
  | c :: r =>
      if (c =? 34)%N then Some ([], r)
      else if (c =? 92)%N then
        match r with
        | [] => None
        | e :: r1 =>
            if (e =? 117)%N then
              match r1 with
              | a :: b :: c' :: d :: r2 =>
                  match hex4 a b c' d with
                  | Some u => cons_item (Esc u) (scan_items r2)
                  | None => None
                  end
              | _ => None
              end
            else
              match simple_escape e with
              | Some x => cons_item (Lit x) (scan_items r1)
              | None => None
              end
        end
      else if (c <? 32)%N then None
      else cons_item (Lit c) (scan_items r)
  end.

Definition is_high_surrogate (u : N) : bool := ((55296 <=? u) && (u <=? 56319))%N.
Definition is_low_surrogate (u : N) : bool := ((56320 <=? u) && (u <=? 57343))%N.

(** [Py_UNICODE_JOIN_SURROGATES] *)
Definition join_surrogate_pair (hi lo : N) : N :=
  (65536 + (N.lor (N.shiftl (N.land hi 1023) 10) (N.land lo 1023)))%N.

(** A [\uXXXX] escape of a high surrogate directly followed by one of a low
    surrogate is one character; every other escape stands for itself. *)
Fixpoint join_surrogates (items : list str_item) : pystr :=
  match items with
  | [] => []
  | Lit c :: r => c :: join_surrogates r
  | Esc u :: r =>
      match r with
      | Esc v :: r' =>
          if is_high_surrogate u && is_low_surrogate v
          then join_surrogate_pair u v :: join_surrogates r'
          else u :: join_surrogates r
      | _ => u :: join_surrogates r
      end
  end.

Definition scan_string (s : pystr) : option (pystr * pystr) :=
  match scan_items s with
  | Some (items, rest) => Some (join_surrogates items, rest)
  | None => None
  end.

(** The longest run of decimal digits at the head of [s]. *)
Fixpoint span_digits (s : pystr) : pystr * pystr :=
  match s with
  | c :: r =>
      if is_digit c then let (ds, rest) := span_digits r in (c :: ds, rest)
      else ([], s)
  | [] => ([], [])
  end.

Definition digit_cons (c : N) (r : uint) : uint :=
  match (c - 48)%N with
  | 0%N => D0 r
  | 1%N => D1 r
  | 2%N => D2 r
  | 3%N => D3 r
  | 4%N => D4 r
  | 5%N => D5 r
  | 6%N => D6 r
  | 7%N => D7 r
  | 8%N => D8 r
  | _ => D9 r
  end.

Definition chars_uint (ds : pystr) : uint := fold_right digit_cons Nil ds.

(** The integer part of a number: ["0"], or a non-zero digit and the digits
    that follow it. *)
Definition scan_int_part (s : pystr) : option (pystr * pystr) :=
  match s with
  | d :: r =>
      if is_digit d then
        if (d =? 48)%N then Some ([d], r)
        else let (ds, rest) := span_digits r in Some (d :: ds, rest)
      else None
  | [] => None
  end.

(** The fraction [\.\d+], when there is one. *)
Definition scan_frac (s : pystr) : pystr * pystr :=
  match s with
  | dot :: d :: r =>
      if ((dot =? 46)%N && is_digit d)%bool
      then let (ds, rest) := span_digits r in (dot :: d :: ds, rest)
      else ([], s)
  | _ => ([], s)
  end.

(** The exponent [[eE][-+]?\d+], when there is one. *)
Definition scan_exp (s : pystr) : pystr * pystr :=
  match s with
  | e :: r =>
      if ((e =? 101) || (e =? 69))%N then
        let (sign, r1) :=
          match r with
          | c :: r' => if ((c =? 45) || (c =? 43))%N then ([c], r') else ([], r)
          | [] => ([], r)
          end in
        match span_digits r1 with
        | ([], _) => ([], s)
        | (ds, rest) => (e :: sign ++ ds, rest)
        end
      else ([], s)
  | [] => ([], s)
  end.

(** A number: an [int] when it has neither fraction nor exponent, a [float]
    otherwise. *)
Definition scan_number (s : pystr) : option (json * pystr) :=
  let (neg, s1) :=
    match s with
    | c :: r => if (c =? 45)%N then (true, r) else (false, s)
    | [] => (false, s)
    end in
  match scan_int_part s1 with
  | None => None
  | Some (ipart, r1) =>
      let (frac, r2) := scan_frac r1 in
      let (exp, r3) := scan_exp r2 in
      match frac, exp with
      | [], [] =>
          let n := Z.of_N (N.of_uint (chars_uint ipart)) in
          Some (JInt (if neg then (- n)%Z else n), r3)
      | _, _ => Some (JFloat ((if neg then [45%N] else []) ++ ipart ++ frac ++ exp), r3)
      end
  end.

(** A keyword of the grammar at the head of the text. *)
Definition scan_constant (word : string) (value : json) (s : pystr)
  : option (json * pystr) :=
  match strip_prefix (py word) s with
  | Some rest => Some (value, rest)
  | None => None
  end.

(** The dictionary built from the pairs of an object, taken in order: a
    repeated name keeps its first position and its last value. *)
Definition dict_of_pairs (pairs : list (pystr * json)) : pydict :=
  fold_left (fun d kv => dict_set (fst kv) (snd kv) d) pairs [].

(** [scan_once]: the value at the head of the text and the text after it.
    [parse_items] reads the elements of an array after its first position
    up to the closing bracket, [parse_members] the members of an object up
    to the closing brace.  [fuel] bounds the number of nested calls; the
    length of the text is always enough. *)
Fixpoint parse_value (fuel : nat) (s : pystr) : option (json * pystr) :=
  match fuel with
  | O => None
  | S n =>
      match s with
      | [] => None
      | c :: r =>
          if (c =? 34)%N then
            match scan_string r with
            | Some (str, rest) => Some (JStr str, rest)
            | None => None
            end
          else if (c =? 123)%N then
            match skip_ws r with
            | c1 :: r1 =>
                if (c1 =? 125)%N then Some (JObj [], r1)
                else
                  match parse_members n (c1 :: r1) with
                  | Some (pairs, rest) => Some (JObj (dict_of_pairs pairs), rest)
                  | None => None
                  end
            | [] => None
            end
          else if (c =? 91)%N then
            match skip_ws r with
            | c1 :: r1 =>
                if (c1 =? 93)%N then Some (JArr [], r1)
                else
                  match parse_items n (c1 :: r1) with
                  | Some (items, rest) => Some (JArr items, rest)
                  | None => None
                  end
            | [] => None
            end
          else if (c =? 110)%N then scan_constant "null" JNull s
          else if (c =? 116)%N then scan_constant "true" (JBool true) s
          else if (c =? 102)%N then scan_constant "false" (JBool false) s
          else if (c =? 78)%N then scan_constant "NaN" (JFloat (py "NaN")) s
          else if (c =? 73)%N then scan_constant "Infinity" (JFloat (py "Infinity")) s
          else
            match scan_constant "-Infinity" (JFloat (py "-Infinity")) s with
            | Some found => Some found
            | None => scan_number s
            end
      end
  end
with parse_items (fuel : nat) (s : pystr) : option (list json * pystr) :=
  match fuel with
  | O => None
  | S n =>
      match parse_value n s with
      | None => None
      | Some (v, r) =>
          match skip_ws r with
          | c :: r1 =>
              if (c =? 93)%N then Some ([v], r1)
              else if (c =? 44)%N then
                match parse_items n (skip_ws r1) with
                | Some (vs, rest) => Some (v :: vs, rest)
                | None => None
                end
              else None
          | [] => None
          end
      end
  end
with parse_members (fuel : nat) (s : pystr) : option (list (pystr * json) * pystr) :=
  match fuel with
  | O => None
  | S n =>
      match s with
      | q :: r =>
          if (q =? 34)%N then
            match scan_string r with
            | None => None
            | Some (key, r1) =>
                match skip_ws r1 with
                | colon :: r2 =>
                    if (colon =? 58)%N then
                      match parse_value n (skip_ws r2) with
                      | None => None
                      | Some (v, r3) =>
                          match skip_ws r3 with
                          | c :: r4 =>
                              if (c =? 125)%N then Some ([(key, v)], r4)
                              else if (c =? 44)%N then
                                match parse_members n (skip_ws r4) with
                                | Some (kvs, rest) => Some ((key, v) :: kvs, rest)
                                | None => None
                                end
                              else None
                          | [] => None
                          end
                      end
                    else None
                | [] => None
                end
            end
          else None
      | [] => None
      end
  end.

(** [json.loads(text)]: one value, surrounded by optional white space and
    nothing else.  Every failure is a [JSONDecodeError]. *)
Definition json_loads (text : pystr) : result json :=
  match parse_value (S (length text)) (skip_ws text) with
  | Some (value, rest) =>
      match skip_ws rest with
      | [] => Ok value
      | _ :: _ => Raise JSONDecodeError
      end
  | None => Raise JSONDecodeError
  end.

(** ** Paths: [os.path.splitext] and [pathlib.Path] *)

(** [s.rfind(c)]: the index of the last [c] in [s], or [-1]. *)
Fixpoint rfind_from (i last : Z) (c : N) (s : pystr) : Z :=
  match s with
  | [] => last
  | x :: r => rfind_from (i + 1) (if (x =? c)%N then i else last) c r
  end.

Definition rfind (c : N) (s : pystr) : Z := rfind_from 0 (-1) c s.

(** [s[i:j]] for [0 <= i]. *)
Definition slice (i j : Z) (s : pystr) : pystr :=
  take (Z.to_nat (j - i)) (drop (Z.to_nat i) s).

(** The loop of [genericpath._splitext] over [p[filenameIndex:dotIndex]]:
    does it meet a character that is not a dot? *)
Fixpoint meets_non_dot (between : pystr) : bool :=
  match between with
  | [] => false
  | c :: r => if (c =? 46)%N then meets_non_dot r else true
  end.

(** [os.path.splitext(p)] on POSIX: the extension starts at the last dot
    of the last path component, unless that component has only dots before
    it. *)
Definition splitext (p : pystr) : pystr * pystr :=
  let sepIndex := rfind 47 p in
  let dotIndex := rfind 46 p in
  if ((sepIndex <? dotIndex)%Z && meets_non_dot (slice (sepIndex + 1) dotIndex p))%bool
  then (take (Z.to_nat dotIndex) p, drop (Z.to_nat dotIndex) p)
  else (p, []).

Fixpoint split_on (sep : N) (s : pystr) : list pystr :=
  match s with
  | [] => [[]]
  | c :: r =>
      if (c =? sep)%N then [] :: split_on sep r
      else
        match split_on sep r with
        | h :: t => (c :: h) :: t
        | [] => [[c]]
        end
  end.

(** A [PurePosixPath]: whether it starts at the root, and its components. *)
Record Path : Type := { anchored : bool; parts : list pystr }.

(** The components pathlib keeps of a segment: empty ones and ["."] go. *)
Definition segment_parts (s : pystr) : list pystr :=
  List.filter (fun part => negb (pystr_eqb part [] || pystr_eqb part [46%N]))
    (split_on 47 s).

(** [Path(s)].  A segment that starts with exactly two slashes, which
    pathlib keeps apart from one that starts with one, does not arise
    here. *)
Definition path_of (s : pystr) : Path :=
  {| anchored := match s with c :: _ => (c =? 47)%N | [] => false end;
     parts := segment_parts s |}.

(** [p / s]: an absolute segment replaces [p]. *)
Definition path_div (p : Path) (s : pystr) : Path :=
  if anchored (path_of s) then path_of s
  else {| anchored := anchored p; parts := parts p ++ segment_parts s |}.

(** [str(p)] *)
Definition path_str (p : Path) : pystr :=
  match anchored p, parts p with
  | false, [] => [46%N]
  | false, ps => join [47%N] ps
  | true, ps => 47%N :: join [47%N] ps
  end.

Fixpoint strip_parts (base ps : list pystr) : option (list pystr) :=
  match base, ps with
  | [], _ => Some ps
  | b :: base', q :: ps' => if pystr_eqb b q then strip_parts base' ps' else None
  | _ :: _, [] => None
  end.

(** [p.relative_to(base)] *)
Definition relative_to (p base : Path) : result Path :=
  if Bool.eqb (anchored p) (anchored base) then
    match strip_parts (parts base) (parts p) with
    | Some rest => Ok {| anchored := false; parts := rest |}
    | None => Raise ValueError
    end
  else Raise ValueError.

(** ** The process state and its environment *)

(** The module global [scans_db] and the regular files on disk, each under
    the text of its path with its contents (bytes, or the characters of an
    ASCII text). *)
Record state : Type := {
  scans_db : json;
  files : gmap pystr (list N)
}.

Definition set_scans_db (db : json) (st : state) : state :=
  {| scans_db := db; files := files st |}.

Definition set_files (fs : gmap pystr (list N)) (st : state) : state :=
  {| scans_db := scans_db st; files := fs |}.

(** What happens when a file is opened for writing and written: all of it
    is written; or [open] fails and the file is left as it was; or [open]
    truncates the file and the write stops after [written] items. *)
Inductive io_outcome : Type :=
| IoDone
| IoOpenFails (errno : Z)
| IoWriteFails (errno : Z) (written : nat).

(** What the program reads from outside: the identifier [uuid.uuid4()]
    draws, the text of the clock, how the locale's encoding decodes the
    bytes of a text file, whether [mkdir] fails at a path, and the outcome
    of writing a file at a path. *)
Record env : Type := {
  uuid4 : pystr;
  now_isoformat : pystr;
  locale_decode : list N -> result pystr;
  mkdir_errno : Path -> option Z;
  write_outcome : pystr -> io_outcome
}.

(** A handler: from a state to a result or an exception, and the state
    reached. *)
Definition M (A : Type) : Type := state -> result A * state.

Definition ret {A} (a : A) : M A := fun st => (Ok a, st).

Definition raise {A} (e : exn) : M A := fun st => (Raise e, st).

Definition bind {A B} (m : M A) (k : A -> M B) : M B :=
  fun st =>
    match m st with
    | (Ok a, st') => k a st'
    | (Raise e, st') => (Raise e, st')
    end.

Definition lift {A} (r : result A) : M A := fun st => (r, st).

Definition read_db : M json := fun st => (Ok (scans_db st), st).

Definition assign_db (db : json) : M unit := fun st => (Ok tt, set_scans_db db st).

Declare Scope monad_scope.
Delimit Scope monad_scope with monad.
Notation "'do' x <- m ;; k" := (bind m (fun x => k))
  (at level 20, x pattern, m at level 99, k at level 200) : monad_scope.
Notation "'run' m ;; k" := (bind m (fun _ => k))
  (at level 20, m at level 99, k at level 200) : monad_scope.

Local Open Scope monad_scope.

(** [with open(path, mode) as f: <write content to f>] *)
Definition write_file (e : env) (path : pystr) (content : list N) : M unit :=
  fun st =>
    match write_outcome e path with
    | IoDone => (Ok tt, set_files (<[path := content]> (files st)) st)
    | IoOpenFails errno => (Raise (OSError errno), st)
    | IoWriteFails errno written =>
        (Raise (OSError errno), set_files (<[path := take written content]> (files st)) st)
    end.

(** [path.exists()] *)
Definition path_exists (p : Path) : M bool :=
  fun st => (Ok (bool_decide (is_Some (files st !! path_str p))), st).

(** [path.unlink()] of a file that exists. *)
Definition unlink (p : Path) : M unit :=
  fun st => (Ok tt, set_files (delete (path_str p) (files st)) st).

(** [scan_dir.mkdir(exist_ok=True)] *)
Definition mkdir (e : env) (p : Path) : M unit :=
  match mkdir_errno e p with
  | Some errno => raise (OSError errno)
  | None => ret tt
  end.

(** ** The store: lines 22-37 and 59-60 *)

Definition SNAPSHOT : pystr := py "scans_db.json".

Definition UPLOAD_DIR : Path := path_of (py "uploads").

(** [scans_db.append(scan_data)]: only a list has [append]. *)
Definition list_append (item : json) : M unit :=
  fun st =>
    match scans_db st with
    | JArr items => (Ok tt, set_scans_db (JArr (items ++ [item])) st)
    | _ => (Raise AttributeError, st)
    end.

(** [with open('scans_db.json', 'w') as f: json.dump(scans_db, f)] *)
Definition dump_snapshot (e : env) : M unit :=
  do db <- read_db ;;
  write_file e SNAPSHOT (json_dumps db).

Definition save_scan_to_db (e : env) (scan_data : json) : M unit :=
  run list_append scan_data ;;
  dump_snapshot e.

(** Lines 32-37.  A file that exists is taken to be readable: what can
    fail is the decoding of its bytes and the parsing of its text. *)
Definition load_scans_from_db (e : env) : M json :=
  fun st =>
    match files st !! SNAPSHOT with
    | Some bytes => ((let? text := locale_decode e bytes in json_loads text)%result, st)
    | None => (Ok (JArr []), st)
    end.

(** Line 60, [scans_db = load_scans_from_db()], run when the module is
    imported: an exception here ends the start of the server.  The other
    statements of the module body (the application object, the static
    files, the creation of the upload directory) are not part of the
    store. *)
Definition startup (e : env) : M unit :=
  do loaded <- load_scans_from_db e ;;
  assign_db loaded.

(** ** The handlers *)

(** The list comprehension [[scan for scan in items if <test on
    scan.get(key)>]]. *)
Fixpoint select (keep : option json -> bool) (key : pystr) (items : list json)
  : result (list json) :=
  match items with
  | [] => Ok []
  | scan :: rest =>
      (let? field := py_get scan key in
       let? kept := select keep key rest in
       Ok (if keep field then scan :: kept else kept))%result
  end.

(** [get_scans], lines 71-78.  [if patient_id:] is false for [None] and for
    the empty string. *)
Definition get_scans (patient_id : option pystr) : M json :=
  do db <- read_db ;;
  match patient_id with
  | Some ((_ :: _) as wanted) =>
      lift (let? items := py_iter db in
            let? kept := select (fun field => eq_str field wanted) (py "patient_id") items in
            Ok (JArr kept))%result
  | _ => ret db
  end.

Definition base_url : pystr := py "http://your-server-ip:8000".

(** [d[key]] *)
Definition subscript (d : pydict) (key : pystr) : result json :=
  match dict_get key d with
  | Some v => Ok v
  | None => Raise (KeyError key)
  end.

Section Formatting.

(** [str(value)] for a value that is not a [str]; the store only ever
    formats the path fields, which it creates as strings. *)
Variable str_other : json -> pystr.

(** [f"{value}"] *)
Definition format_value (value : json) : pystr :=
  match value with
  | JStr s => s
  | other => str_other other
  end.

(** [f"{base_url}/uploads/{path}"] *)
Definition file_url (path : json) : json :=
  JStr (base_url ++ py "/uploads/" ++ format_value path).

(** Lines 88-101, on the copy [scan_data] of the record found. *)
Definition with_urls (scan_data : pydict) : result pydict :=
  (let? pre_op := subscript scan_data (py "pre_op_path") in
   let scan_data := dict_set (py "pre_op_url") (file_url pre_op) scan_data in
   let? during_op := subscript scan_data (py "during_op_path") in
   let scan_data := dict_set (py "during_op_url") (file_url during_op) scan_data in
   if dict_mem (py "result_path") scan_data then
     let? outcome := subscript scan_data (py "result_path") in
     Ok (dict_set (py "result_url") (file_url outcome) scan_data)
   else Ok scan_data)%result.

(** The loop of lines 85-102 over the items of [scans_db]. *)
Fixpoint find_scan (scan_id : pystr) (items : list json) : result json :=
  match items with
  | [] => Raise (HTTPException 404 ScanNotFound)
  | scan :: rest =>
      (let? field := py_get scan (py "id") in
       if eq_str field scan_id then
         match scan with
         | JObj d => let? scan_data := with_urls d in Ok (JObj scan_data)
         | _ => Raise AttributeError
         end
       else find_scan scan_id rest)%result
  end.

(** [get_scan], lines 80-102. *)
Definition get_scan (scan_id : pystr) : M json :=
  do db <- read_db ;;
  lift (let? items := py_iter db in find_scan scan_id items)%result.

End Formatting.

(** [delete_scan], lines 104-120. *)
Definition delete_scan (e : env) (scan_id : pystr) : M json :=
  do db <- read_db ;;
  do initial_length <- lift (py_len db) ;;
  do kept <- lift (let? items := py_iter db in
                   select (fun field => negb (eq_str field scan_id)) (py "id") items)%result ;;
  run assign_db (JArr kept) ;;
  if Nat.eqb (length kept) initial_length
  then raise (HTTPException 404 ScanNotFound)
  else
    run dump_snapshot e ;;
    ret (JObj [(py "status", JStr (py "success")); (py "message", JStr (py "Scan deleted"))]).

(** An [UploadFile]: the file name the client sent, if any, and the bytes
    of the stream. *)
Record upload : Type := { filename : option pystr; contents : list N }.

(** Lines 140-141: [os.path.splitext(name)[1] if name else '.jpg']. *)
Definition extension (u : upload) : pystr :=
  match filename u with
  | Some ((_ :: _) as name) => snd (splitext name)
  | _ => py ".jpg"
  end.

(** The local variables the [except] block may look at. *)
Record locals : Type := {
  scan_id : pystr;
  scan_dir : Path;
  pre_op_path : Path;
  during_op_path : Path
}.

(** Lines 133-147. *)
Definition allocate (e : env) (pre_op_image during_op_image : upload) : M locals :=
  let scan_id := uuid4 e in
  let scan_dir := path_div UPLOAD_DIR scan_id in
  run mkdir e scan_dir ;;
  let pre_op_filename := py "pre_op" ++ extension pre_op_image in
  let during_op_filename := py "during_op" ++ extension during_op_image in
  ret {| scan_id := scan_id;
         scan_dir := scan_dir;
         pre_op_path := path_div scan_dir pre_op_filename;
         during_op_path := path_div scan_dir during_op_filename |}.

(** Lines 158-173, the mock analysis. *)
Definition mock_analysis (scan_id : pystr) : json :=
  JObj [
    (py "status", JStr (py "success"));
    (py "scan_id", JStr scan_id);
    (py "analysis", JObj [
      (py "occlusion_score", JFloat (py "0.85"));
      (py "alignment_score", JFloat (py "0.92"));
      (py "findings", JArr [
        JStr (py "Good overall occlusion");
        JStr (py "Slight misalignment on lower right molars")]);
      (py "recommendations", JArr [
        JStr (py "Consider minor adjustment to lower right molars");
        JStr (py "Schedule follow-up in 2 weeks")])])].

(** [str(path.relative_to(UPLOAD_DIR))] *)
Definition relative_str (p : Path) : result json :=
  (let? rel := relative_to p UPLOAD_DIR in Ok (JStr (path_str rel)))%result.

(** Lines 149-195. *)
Definition store_scan (e : env) (l : locals) (pre_op_image during_op_image : upload)
    (patient_id : pystr) : M json :=
  run write_file e (path_str (pre_op_path l)) (contents pre_op_image) ;;
  run write_file e (path_str (during_op_path l)) (contents during_op_image) ;;
  let analysis_results := mock_analysis (scan_id l) in
  let result_path := path_div (scan_dir l) (py "analysis_results.json") in
  run write_file e (path_str result_path) (json_dumps analysis_results) ;;
  do pre_op_rel <- lift (relative_str (pre_op_path l)) ;;
  do during_op_rel <- lift (relative_str (during_op_path l)) ;;
  do result_rel <- lift (relative_str result_path) ;;
  let scan_data :=
    JObj [
      (py "id", JStr (scan_id l));
      (py "patient_id", JStr patient_id);
      (py "pre_op_path", pre_op_rel);
      (py "during_op_path", during_op_rel);
      (py "result_path", result_rel);
      (py "created_at", JStr (now_isoformat e));
      (py "analysis_results", analysis_results)] in
  run save_scan_to_db e scan_data ;;
  ret analysis_results.

(** [if path.exists(): path.unlink()] *)
Definition remove_if_exists (p : Path) : M unit :=
  do found <- path_exists p ;;
  if found then unlink p else ret tt.

(** Lines 197-207: the [except] block.  [known] is [None] when the
    exception came before [pre_op_path] was bound. *)
Definition cleanup {A} (known : option locals) (cause : exn) : M A :=
  run match known with
      | Some l =>
          run remove_if_exists (pre_op_path l) ;;
          remove_if_exists (during_op_path l)
      | None => ret tt
      end ;;
  raise (HTTPException 500 (AnalysisFailed cause)).

(** [try: body except Exception as e: handler(e)] *)
Definition try_except {A} (body : M A) (handler : exn -> M A) : M A :=
  fun st =>
    match body st with
    | (Ok a, st') => (Ok a, st')
    | (Raise e, st') => handler e st'
    end.

(** [analyze_occlusion], lines 122-207. *)
Definition analyze_occlusion (e : env) (pre_op_image during_op_image : upload)
    (patient_id : pystr) : M json :=
  do l <- try_except (allocate e pre_op_image during_op_image) (cleanup None) ;;
  try_except (store_scan e l pre_op_image during_op_image patient_id) (cleanup (Some l)).

(** ** [get_scan] on the object graph

    In Python [scans_db] holds references to [dict] objects, and a [dict]
    is updated in place.  [Refs] models [get_scan] at that level: [cells]
    maps the address of an object to its value, the list [refs] is what
    [scans_db] holds. *)
Module Refs.

Definition loc : Type := nat.

(** [scan.copy()]: a new [dict] object with the same items. *)
Definition copy_dict (d : pydict) (cells : gmap loc json) : loc * gmap loc json :=
  let new := fresh (dom cells) in (new, <[new := JObj d]> cells).

(** [obj[key] = value], in place. *)
Definition store_item (obj : loc) (key : pystr) (value : json) (cells : gmap loc json)
  : gmap loc json :=
  alter (fun v => match v with
                  | JObj d => JObj (dict_set key value d)
                  | other => other
                  end) obj cells.

(** [obj[key]] *)
Definition load_item (obj : loc) (key : pystr) (cells : gmap loc json) : result json :=
  match cells !! obj with
  | Some (JObj d) => subscript d key
  | _ => Raise TypeError
  end.

(** [key in obj] *)
Definition has_item (obj : loc) (key : pystr) (cells : gmap loc json) : bool :=
  match cells !! obj with
  | Some (JObj d) => dict_mem key d
  | _ => false
  end.

Section Formatting.

Variable str_other : json -> pystr.

(** Lines 90-101 on the object [scan_data]. *)
Definition add_urls (scan_data : loc) (cells : gmap loc json)
  : result unit * gmap loc json :=
  match load_item scan_data (py "pre_op_path") cells with
  | Raise e => (Raise e, cells)
  | Ok pre_op =>
      let cells := store_item scan_data (py "pre_op_url") (file_url str_other pre_op) cells in
      match load_item scan_data (py "during_op_path") cells with
      | Raise e => (Raise e, cells)
      | Ok during_op =>
          let cells :=
            store_item scan_data (py "during_op_url") (file_url str_other during_op) cells in
          if has_item scan_data (py "result_path") cells then
            match load_item scan_data (py "result_path") cells with
            | Raise e => (Raise e, cells)
            | Ok outcome =>
                (Ok tt,
                 store_item scan_data (py "result_url") (file_url str_other outcome) cells)
            end
          else (Ok tt, cells)
      end
  end.

(** Lines 85-102: the address of the object returned, and the cells
    after the call.  An address with no object does not arise in
    Python; it is given the behaviour of an object without [get]. *)
Fixpoint get_scan (scan_id : pystr) (refs : list loc) (cells : gmap loc json)
  : result loc * gmap loc json :=
  match refs with
  | [] => (Raise (HTTPException 404 ScanNotFound), cells)
  | scan :: rest =>
      match cells !! scan with
      | Some (JObj d) =>
          if eq_str (dict_get (py "id") d) scan_id then
            let (scan_data, cells) := copy_dict d cells in
            match add_urls scan_data cells with
            | (Ok _, cells) => (Ok scan_data, cells)
            | (Raise e, cells) => (Raise e, cells)
            end
          else get_scan scan_id rest cells
      | _ => (Raise AttributeError, cells)
      end
  end.

End Formatting.

(** The values a list of references stands for. *)
Definition deref (cells : gmap loc json) (refs : list loc) : list json :=
  map (fun r => default JNull (cells !! r)) refs.

End Refs.

(** ** Vocabulary of the properties *)

(** A [dict] object. *)
Definition is_dict (value : json) : bool :=
  match value with
  | JObj _ => true
  | _ => false
  end.

(** [scan.get(key) == s] for a value known to be a [dict]; [false] on
    anything else. *)
Definition field_is (key s : pystr) (scan : json) : bool :=
  match scan with
  | JObj d => eq_str (dict_get key d) s
  | _ => false
  end.

(** The record carries the identifier [scan_id]. *)
Definition has_id (scan_id : pystr) (scan : json) : bool :=
  field_is (py "id") scan_id scan.

(** The record belongs to the patient [patient_id]. *)
Definition has_patient (patient_id : pystr) (scan : json) : bool :=
  field_is (py "patient_id") patient_id scan.

(** The state in which [scans_db] is the list [items]. *)
Definition store_of (items : list json) (fs : gmap pystr (list N)) : state :=
  {| scans_db := JArr items; files := fs |}.

(** ** Sample data for the concrete instances *)

(** An environment in which nothing fails. *)
Definition calm_env : env :=
  {| uuid4 := py "3f2b8c1e-0d4a-4e6b-9c7a-5a1d2e3f4a5b";
     now_isoformat := py "2024-05-01T10:00:00+00:00";
     locale_decode := fun bytes =>
       if forallb (fun b => (b <? 128)%N) bytes then Ok bytes else Raise UnicodeDecodeError;
     mkdir_errno := fun _ => None;
     write_outcome := fun _ => IoDone |}.

(** The same environment with a disk on which [scans_db.json] cannot be
    opened for writing ([EACCES]). *)
Definition readonly_snapshot_env : env :=
  {| uuid4 := uuid4 calm_env;
     now_isoformat := now_isoformat calm_env;
     locale_decode := locale_decode calm_env;
     mkdir_errno := fun _ => None;
     write_outcome := fun path =>
       if pystr_eqb path SNAPSHOT then IoOpenFails 13 else IoDone |}.

Definition photo (name : string) : upload :=
  {| filename := Some (py name); contents := [255; 216; 255; 224]%N |}.

Definition empty_store : state := store_of [] ∅.

(** The store after one scan of patient ["P1"] was created in the empty
    store. *)
Definition one_scan_store : state :=
  snd (analyze_occlusion calm_env (photo "before.png") (photo "during.jpeg") (py "P1")
         empty_store).

(** The records of a state whose [scans_db] is a list. *)
Definition records (st : state) : list json :=
  match scans_db st with
  | JArr items => items
  | _ => []
  end.

(** The text of a UUID as [str(uuid.uuid4())] prints it: 36 characters,
    lower-case hexadecimal digits and hyphens. *)
Definition uuid_text (s : pystr) : bool :=
  (length s =? 36)%nat
  && forallb (fun c => is_digit c || ((97 <=? c) && (c <=? 102))%N || (c =? 45)%N) s.

(** A segment that is one path component: not empty, not ["."], without a
    slash. *)
Definition plain_name (s : pystr) : bool :=
  negb (pystr_eqb s []) && negb (pystr_eqb s [46%N])
  && forallb (fun c => negb (c =? 47)%N) s.

(** The name under which an upload is stored in the directory of its scan:
    the logical name and the extension. *)
Definition stored_name (logical : string) (u : upload) : pystr :=
  py logical ++ extension u.

(** The value of a path field of the record of a new scan. *)
Definition path_field (e : env) (name : pystr) : pystr :=
  uuid4 e ++ [47%N] ++ name.

(** The path, from the working directory, of a file of the new scan. *)
Definition blob_file (e : env) (name : pystr) : pystr :=
  py "uploads/" ++ path_field e name.

(** The record [analyze_occlusion] builds for a new scan. *)
Definition new_record (e : env) (pre_op_image during_op_image : upload)
    (patient_id : pystr) : json :=
  JObj [
    (py "id", JStr (uuid4 e));
    (py "patient_id", JStr patient_id);
    (py "pre_op_path", JStr (path_field e (stored_name "pre_op" pre_op_image)));
    (py "during_op_path", JStr (path_field e (stored_name "during_op" during_op_image)));
    (py "result_path", JStr (path_field e (py "analysis_results.json")));
    (py "created_at", JStr (now_isoformat e));
    (py "analysis_results", mock_analysis (uuid4 e))].

(** No step of a create request fails in [e]: the directory is made and
    the four files are written. *)
Definition io_succeeds (e : env) (pre_op_image during_op_image : upload) : Prop :=
  mkdir_errno e (path_div UPLOAD_DIR (uuid4 e)) = None
  /\ write_outcome e (blob_file e (stored_name "pre_op" pre_op_image)) = IoDone
  /\ write_outcome e (blob_file e (stored_name "during_op" during_op_image)) = IoDone
  /\ write_outcome e (blob_file e (py "analysis_results.json")) = IoDone
  /\ write_outcome e SNAPSHOT = IoDone.


(** An upload whose stream is empty. *)
Definition empty_upload (name : string) : upload :=
  {| filename := Some (py name); contents := [] |}.

(** What [load_scans_from_db] makes of the bytes of the snapshot file:
    decoded as text, then parsed. *)
Definition parse_snapshot (e : env) (bytes : list N) : result json :=
  (let? text := locale_decode e bytes in json_loads text)%result.

(** The record has the three path fields of a scan. *)
Definition has_path_fields (d : pydict) : bool :=
  dict_mem (py "pre_op_path") d && dict_mem (py "during_op_path") d
  && dict_mem (py "result_path") d.

(** The fields [get_scan] adds to the copy it returns. *)
Definition url_keys : list pystr :=
  [py "pre_op_url"; py "during_op_url"; py "result_url"].

(** A snapshot file cut short, and one that is not text. *)
Definition truncated_snapshot : list N := py "[{".
Definition binary_snapshot : list N := [255; 254; 0]%N.

(** ** Well-formed values *)

(** A string Python can hold that reads back as itself: code points below
    [0x110000], and no high surrogate directly before a low one (text
    decoded from a request or a file has no surrogate at all). *)
Fixpoint no_surrogate_pair (s : pystr) : bool :=
  match s with
  | c :: rest =>
      match rest with
      | d :: _ => negb (is_high_surrogate c && is_low_surrogate d)
      | [] => true
      end && no_surrogate_pair rest
  | [] => true
  end.

Definition str_ok (s : pystr) : bool :=
  forallb (fun c => (c <? 1114112)%N) s && no_surrogate_pair s.

(** The text of a float: a number with a fraction or an exponent, all of
    which the number grammar reads, or one of the three names of the
    non-finite floats. *)
Definition float_text (lit : pystr) : bool :=
  match scan_number lit with
  | Some (JFloat l, []) => pystr_eqb l lit
  | _ => false
  end
  || pystr_eqb lit (py "NaN") || pystr_eqb lit (py "Infinity")
  || pystr_eqb lit (py "-Infinity").

(** A value as Python holds it: valid strings and floats, and no name
    twice in a dictionary. *)
Fixpoint json_ok (v : json) : bool :=
  match v with
  | JNull | JBool _ | JInt _ => true
  | JFloat lit => float_text lit
  | JStr s => str_ok s
  | JArr items => forallb json_ok items
  | JObj fields =>
      forallb (fun kv => str_ok (fst kv) && json_ok (snd kv)) fields
      && bool_decide (NoDup (map fst fields))
  end.

(** The number of calls [parse_value] needs to read back a value. *)
Fixpoint weight (v : json) : nat :=
  match v with
  | JArr items => S (list_sum (map (fun x => S (weight x)) items))
  | JObj fields => S (list_sum (map (fun kv => S (weight (snd kv))) fields))
  | _ => 1
  end.

(** What may follow a value in the text [json.dump] writes: nothing, a
    comma, a closing bracket or a closing brace. *)
Definition ends_value (rest : pystr) : bool :=
  match rest with
  | [] => true
  | c :: _ => ((c =? 44) || (c =? 93) || (c =? 125))%N
  end.

(** The items the escaped form of one character stands for. *)
Definition char_items (c : N) : list str_item :=
  if ((c =? 34) || (c =? 92) || (c =? 10) || (c =? 13) || (c =? 9) || (c =? 8)
      || (c =? 12))%N then [Lit c]
  else if ((32 <=? c) && (c <=? 126))%N then [Lit c]
  else if (c <? 65536)%N then [Esc c]
  else
    let n := (c - 65536)%N in
    [Esc (N.lor 55296 (N.land (N.shiftr n 10) 1023)); Esc (N.lor 56320 (N.land n 1023))].

(** The induction principle of [json], with the hypothesis for every item
    of a list and every value of a dictionary. *)
Fixpoint json_induction (P : json -> Prop)
    (Hnull : P JNull) (Hbool : forall b, P (JBool b)) (Hint : forall z, P (JInt z))
    (Hfloat : forall lit, P (JFloat lit)) (Hstr : forall s, P (JStr s))
    (Harr : forall items, Forall P items -> P (JArr items))
    (Hobj : forall fields, Forall (fun kv => P (snd kv)) fields -> P (JObj fields))
    (v : json) {struct v} : P v :=
  match v with
  | JNull => Hnull
  | JBool b => Hbool b
  | JInt z => Hint z
  | JFloat lit => Hfloat lit
  | JStr s => Hstr s
  | JArr items =>
      Harr items
        ((fix all (l : list json) : Forall P l :=
            match l with
            | [] => @List.Forall_nil _ P
            | x :: r =>
                @List.Forall_cons _ P x r
                  (json_induction P Hnull Hbool Hint Hfloat Hstr Harr Hobj x) (all r)
            end) items)
  | JObj fields =>
      Hobj fields
        ((fix all (l : list (pystr * json)) : Forall (fun kv => P (snd kv)) l :=
            match l with
            | [] => @List.Forall_nil _ _
            | kv :: r =>
                @List.Forall_cons _ (fun kv => P (snd kv)) kv r
                  (json_induction P Hnull Hbool Hint Hfloat Hstr Harr Hobj (snd kv)) (all r)
            end) fields)
  end.

(** What may follow a number without being read as part of it. *)
Definition ends_number (rest : pystr) : bool :=
  match rest with
  | [] => true
  | c :: _ =>
      negb (is_digit c || (c =? 46) || (c =? 101) || (c =? 69) || (c =? 43) || (c =? 45))%N
  end.

(** The numbers below [n], for the checks done by enumeration. *)
Definition below (n : N) : list N :=
  N.peano_rect (fun _ => list N) [] (fun k smaller => k :: smaller) n.

(** The four digits [escape_u] writes for [c] read back as [c]. *)
Definition hex_reads_back (c : N) : bool :=
  match hex4 (hex_digit (N.shiftr c 12 mod 16)) (hex_digit (N.shiftr c 8 mod 16))
          (hex_digit (N.shiftr c 4 mod 16)) (hex_digit (c mod 16)) with
  | Some c' => (c' =? c)%N
  | None => false
  end.

(** The surrogates written for the [n]-th character above the basic plane
    are a high and a low one, and join back to the character. *)
Definition pair_reads_back (n : N) : bool :=
  let hi := N.lor 55296 (N.land (N.shiftr n 10) 1023) in
  let lo := N.lor 56320 (N.land n 1023) in
  is_high_surrogate hi && is_low_surrogate lo
  && (join_surrogate_pair hi lo =? 65536 + n)%N.

(** The same for every character of the block of 1024 that starts at
    [1024 * a]. *)
Definition block_reads_back (a : N) : bool :=
  forallb (fun b => pair_reads_back (1024 * a + b)) (below 1024).

(** A character a value can start with: not white space, and neither of
    the closing brackets. *)
Definition value_start (c : N) : bool :=
  negb (is_ws c) && negb (c =? 93)%N && negb (c =? 125)%N.

(** The text of [v], followed by what may follow a value, is read back as
    [v] by any call with enough fuel. *)
Definition reads_back (v : json) : Prop :=
  json_ok v = true ->
  forall (fuel : nat) (rest : pystr),
    weight v <= fuel -> ends_value rest = true ->
    parse_value fuel (json_dumps v ++ rest) = Some (v, rest).

(** The text [json.dump] writes for one member of an object. *)
Definition member_text (kv : pystr * json) : pystr :=
  encode_str (fst kv) ++ py ": " ++ json_dumps (snd kv).

Definition is_surrogate (c : N) : bool := is_high_surrogate c || is_low_surrogate c.

(** Text as a decoder or a request parser produces it: Unicode scalar
    values, so no surrogate at all. *)
Definition text_ok (s : pystr) : bool :=
  forallb (fun c => (c <? 1114112)%N && negb (is_surrogate c)) s.

(** Bytes that are ASCII characters. *)
Definition is_ascii (bytes : list N) : bool := forallb (fun b => (b <? 128)%N) bytes.

(** No digit at the head of the text. *)
Definition no_digit_ahead (t : pystr) : bool :=
  match t with
  | [] => true
  | c :: _ => negb (is_digit c)
  end.

(** Joining a high and a low surrogate, by their offsets in their blocks. *)
Definition joins_block (a : N) : bool :=
  forallb (fun b => (join_surrogate_pair (55296 + a) (56320 + b) =? 65536 + 1024 * a + b)%N)
    (below 1024).

(** An item the scanner can produce from text without surrogates: a
    scalar value given literally, or the 16-bit value of an escape. *)
Definition item_ok (i : str_item) : bool :=
  match i with
  | Lit c => (c <? 1114112)%N && negb (is_surrogate c)
  | Esc u => (u <? 65536)%N
  end.

(** The first character of [join_surrogates items] is not a low surrogate,
    unless it is the value of an escape that stands first in [items]. *)
Definition head_ok (items : list str_item) : Prop :=
  match join_surrogates items with
  | [] => True
  | y :: _ =>
      match items with
      | Esc u :: _ => y = u \/ is_low_surrogate y = false
      | _ => is_low_surrogate y = false
      end
  end.

(** ** Reachable states *)

(** An environment as a running system provides it: the identifier is the
    text of a UUID, the clock prints text, and what the locale's decoder
    returns is text. *)
Definition env_ok (e : env) : Prop :=
  uuid_text (uuid4 e) = true
  /\ text_ok (now_isoformat e) = true
  /\ forall bytes text, locale_decode e bytes = Ok text -> text_ok text = true.

(** The locale's encoding is an extension of ASCII. *)
Definition decodes_ascii (e : env) : Prop :=
  forall bytes, is_ascii bytes = true -> locale_decode e bytes = Ok bytes.

(** An upload whose file name, when there is one, is text. *)
Definition upload_ok (u : upload) : Prop :=
  match filename u with
  | Some name => text_ok name = true
  | None => True
  end.

(** The states the process can be in: after a startup that completed,
    whatever the files on disk were, and after any handler ran on a
    reachable state, whether it returned or raised. *)
Inductive reachable : state -> Prop :=
| reach_startup (e : env) (st st' : state) :
    env_ok e ->
    startup e st = (Ok tt, st') ->
    reachable st'
| reach_create (e : env) (pre_op_image during_op_image : upload) (patient_id : pystr)
    (st st' : state) (r : result json) :
    reachable st ->
    env_ok e -> upload_ok pre_op_image -> upload_ok during_op_image ->
    text_ok patient_id = true ->
    analyze_occlusion e pre_op_image during_op_image patient_id st = (r, st') ->
    reachable st'
| reach_delete (e : env) (scan_id : pystr) (st st' : state) (r : result json) :
    reachable st ->
    delete_scan e scan_id st = (r, st') ->
    reachable st'
| reach_list (patient_id : option pystr) (st st' : state) (r : result json) :
    reachable st ->
    get_scans patient_id st = (r, st') ->
    reachable st'
| reach_get (str_other : json -> pystr) (scan_id : pystr) (st st' : state) (r : result json) :
    reachable st ->
    get_scan str_other scan_id st = (r, st') ->
    reachable st'.

(** ** The model [ScanResult], lines 13-20 *)

(** The two annotations the model uses, [str] and [dict]. *)
Inductive annotation : Type :=
| Str
| Dict.

(** The fields of the class [ScanResult], in the order of its body. *)
Definition ScanResult : list (pystr * annotation) :=
  [(py "id", Str); (py "patient_id", Str); (py "pre_op_path", Str);
   (py "during_op_path", Str); (py "result_path", Str); (py "created_at", Str);
   (py "analysis_results", Dict)].

(** [isinstance(value, str)] and [isinstance(value, dict)] *)
Definition is_instance (value : json) (a : annotation) : bool :=
  match a, value with
  | Str, JStr _ => true
  | Dict, JObj _ => true
  | _, _ => false
  end.

(** A [dict] that has every field of the model, each with a value of the
    annotated type; nothing is converted. *)
Definition conforms (model : list (pystr * annotation)) (value : json) : bool :=
  match value with
  | JObj d =>
      forallb (fun field => match dict_get (fst field) d with
                            | Some v => is_instance v (snd field)
                            | None => false
                            end) model
  | _ => false
  end.

(** [scans_db] is a list, and each of its items conforms to [ScanResult]. *)
Definition scan_store (st : state) : bool :=
  match scans_db st with
  | JArr items => forallb (conforms ScanResult) items
  | _ => false
  end.

(** A [list] object. *)
Definition is_list (value : json) : bool :=
  match value with
  | JArr _ => true
  | _ => false
  end.

(** ** Files a computation leaves alone *)

(** The computation creates, rewrites or removes no file outside [paths],
    whether it returns or raises. *)
Definition touches_only {A} (paths : list pystr) (m : M A) : Prop :=
  forall st path, path ∉ paths -> files (snd (m st)) !! path = files st !! path.

(** The four files a create request can write. *)
Definition scan_files (e : env) (pre_op_image during_op_image : upload) : list pystr :=
  [blob_file e (stored_name "pre_op" pre_op_image);
   blob_file e (stored_name "during_op" during_op_image);
   blob_file e (py "analysis_results.json");
   SNAPSHOT].

(** The link [get_scan] gives for the file at [path], a path from the
    working directory: the static mount serves [uploads/] under
    [/uploads]. *)
Definition served_at (path : pystr) : json := JStr (base_url ++ py "/" ++ path).

(** The records a create request for [patient_id] adds to what
    [get_scans] returns for the argument [wanted]. *)
Definition listed_for (wanted : option pystr) (patient_id : pystr) (record : json)
  : list json :=
  match wanted with
  | Some ((_ :: _) as q) => if pystr_eqb q patient_id then [record] else []
  | _ => [record]
  end.

(** The three links [get_scan] adds to the record of a new scan. *)
Definition scan_links (e : env) (pre_op_image during_op_image : upload) : pydict :=
  [(py "pre_op_url", served_at (blob_file e (stored_name "pre_op" pre_op_image)));
   (py "during_op_url", served_at (blob_file e (stored_name "during_op" during_op_image)));
   (py "result_url", served_at (blob_file e (py "analysis_results.json")))].

(** The local variables of a create request whose directory was made. *)
Definition scan_locals (e : env) (pre_op_image during_op_image : upload) : locals :=
  {| scan_id := uuid4 e;
     scan_dir := path_div UPLOAD_DIR (uuid4 e);
     pre_op_path := path_div (path_div UPLOAD_DIR (uuid4 e)) (stored_name "pre_op" pre_op_image);
     during_op_path :=
       path_div (path_div UPLOAD_DIR (uuid4 e)) (stored_name "during_op" during_op_image) |}.

(** The files once the two uploads and the analysis of a scan are
    written. *)
Definition with_blobs (e : env) (pre_op_image during_op_image : upload)
    (fs : gmap pystr (list N)) : gmap pystr (list N) :=
  <[blob_file e (py "analysis_results.json") := json_dumps (mock_analysis (uuid4 e))]>
    (<[blob_file e (stored_name "during_op" during_op_image) := contents during_op_image]>
       (<[blob_file e (stored_name "pre_op" pre_op_image) := contents pre_op_image]> fs)).

(** The three files of a scan can be written. *)
Definition blobs_succeed (e : env) (pre_op_image during_op_image : upload) : Prop :=
  mkdir_errno e (path_div UPLOAD_DIR (uuid4 e)) = None
  /\ write_outcome e (blob_file e (stored_name "pre_op" pre_op_image)) = IoDone
  /\ write_outcome e (blob_file e (stored_name "during_op" during_op_image)) = IoDone
  /\ write_outcome e (blob_file e (py "analysis_results.json")) = IoDone.

(** ** More sample data *)

(** The calm environment with an upload directory in which no directory
    can be made ([EACCES]). *)
Definition locked_uploads_env : env :=
  {| uuid4 := uuid4 calm_env;
     now_isoformat := now_isoformat calm_env;
     locale_decode := locale_decode calm_env;
     mkdir_errno := fun _ => Some 13%Z;
     write_outcome := fun _ => IoDone |}.

(** The calm environment at a later request: another identifier is
    drawn. *)
Definition later_env : env :=
  {| uuid4 := py "9a8b7c6d-5e4f-4a3b-8c2d-1e0f9a8b7c6d";
     now_isoformat := py "2024-05-02T09:30:00+00:00";
     locale_decode := locale_decode calm_env;
     mkdir_errno := fun _ => None;
     write_outcome := fun _ => IoDone |}.

(** The state after a startup that found the snapshot [{}]: [scans_db]
    is a [dict]. *)
Definition object_snapshot_store : state :=
  snd (startup calm_env (store_of [] {[SNAPSHOT := py "{}"]})).

(** A store loaded from the snapshot [[null]]. *)
Definition null_item_store : state :=
  snd (startup calm_env (store_of [] {[SNAPSHOT := py "[null]"]})).

(** A record with an identifier and nothing else. *)
Definition bare_record : pydict := [(py "id", JStr (py "a1"))].

(** ** Text read from the head of a longer text *)

(** The value read at the head of [s], leaving [r], does not depend on
    what follows [r]: a value that starts like a number was stopped by a
    character of [r] that cannot continue a number. *)
Definition settled (s r : pystr) : bool :=
  match s with
  | c :: _ =>
      if (is_digit c || (c =? 45)%N)%bool
      then match r with
           | [] => false
           | _ :: _ => ends_number r
           end
      else true
  | [] => true
  end.

(** The store after a second scan, of patient ["P2"], was created. *)
Definition two_scan_store : state :=
  snd (analyze_occlusion later_env (photo "left.png") (photo "right.png") (py "P2")
         one_scan_store).

(** An upload whose file name is only a suffix. *)
Definition suffix_only_upload : upload :=
  {| filename := Some (py ".png"); contents := [137; 80; 78; 71]%N |}.

(** The calm environment with a disk on which the write of the snapshot
    stops after one character ([ENOSPC]). *)
Definition torn_snapshot_env : env :=
  {| uuid4 := uuid4 calm_env;
     now_isoformat := now_isoformat calm_env;
     locale_decode := locale_decode calm_env;
     mkdir_errno := fun _ => None;
     write_outcome := fun path =>
       if pystr_eqb path SNAPSHOT then IoWriteFails 28 1 else IoDone |}.

(** * Properties *)

(** ** Strings and dictionaries *)

Lemma pystr_eqb_eq (a b : pystr) : pystr_eqb a b = true <-> a = b.
Proof. unfold pystr_eqb. apply bool_decide_eq_true. Qed.

Lemma pystr_eqb_refl (a : pystr) : pystr_eqb a a = true.
Proof. by apply pystr_eqb_eq. Qed.

Lemma pystr_eqb_neq (a b : pystr) : pystr_eqb a b = false <-> a <> b.
Proof. unfold pystr_eqb. apply bool_decide_eq_false. Qed.

(** ** The list comprehensions *)

(** On a list of [dict] objects the comprehension is a filter. *)
Lemma select_dicts (keep : option json -> bool) (key : pystr) (items : list json) :
  Forall (fun scan => is_dict scan = true) items ->
  select keep key items
  = Ok (List.filter (fun scan => match scan with
                                 | JObj d => keep (dict_get key d)
                                 | _ => false
                                 end) items).
Proof.
  induction 1 as [|scan rest Hscan _ IH]; [reflexivity|].
  destruct scan; try discriminate Hscan.
  cbn [select py_get rbind List.filter]. rewrite IH. cbn [rbind].
  by destruct (keep _).
Qed.

(** A comprehension that succeeds ran over [dict] objects only, and is the
    filter of them. *)
Lemma select_ok (keep : option json -> bool) (key : pystr) (items kept : list json) :
  select keep key items = Ok kept ->
  Forall (fun scan => is_dict scan = true) items
  /\ kept = List.filter (fun scan => match scan with
                                     | JObj d => keep (dict_get key d)
                                     | _ => false
                                     end) items.
Proof.
  revert kept. induction items as [|scan rest IH]; intros kept Hsel.
  - injection Hsel as <-. by split.
  - cbn [select] in Hsel. destruct scan; try discriminate Hsel.
    cbn [py_get rbind] in Hsel.
    destruct (select keep key rest) as [kept'|] eqn:Hrest; [|discriminate Hsel].
    cbn [rbind] in Hsel. injection Hsel as <-.
    destruct (IH kept' eq_refl) as [Hall ->].
    split; [by constructor|]. cbn [List.filter]. by destruct (keep _).
Qed.

(** The loop of [get_scan] finds nothing in a list of records none of which
    carries the identifier. *)
Lemma find_scan_absent (str_other : json -> pystr) (scan_id : pystr) (items : list json) :
  Forall (fun scan => is_dict scan = true) items ->
  Forall (fun scan => has_id scan_id scan = false) items ->
  find_scan str_other scan_id items = Raise (HTTPException 404 ScanNotFound).
Proof.
  induction 1 as [|scan rest Hscan _ IH]; intros Hids; [reflexivity|].
  inversion Hids as [|? ? Hid Hrest]; subst.
  destruct scan; try discriminate Hscan.
  cbn [find_scan py_get rbind]. unfold has_id, field_is in Hid. rewrite Hid.
  by apply IH.
Qed.

(** ** C4: listing, with and without a patient *)

(** C4, as the code has it.  In a store that holds the records [items],
    [get_scans] with a non-empty patient identifier returns the records
    whose [patient_id] field equals it, in the order of [items]; with no
    identifier, and also with the empty identifier, it returns all of
    [items] in order.  The state is left as it was. *)
Theorem get_scans_filters (items : list json) (fs : gmap pystr (list N)) (wanted : pystr) :
  Forall (fun scan => is_dict scan = true) items ->
  wanted <> [] ->
  get_scans (Some wanted) (store_of items fs)
  = (Ok (JArr (List.filter (has_patient wanted) items)), store_of items fs)
  /\ get_scans None (store_of items fs) = (Ok (JArr items), store_of items fs)
  /\ get_scans (Some []) (store_of items fs) = (Ok (JArr items), store_of items fs).
Proof.
  intros Hdicts Hwanted. split; [|by split].
  destruct wanted as [|c wanted]; [done|].
  unfold get_scans, bind, read_db, lift. cbn [scans_db store_of py_iter rbind].
  rewrite (select_dicts _ _ _ Hdicts). reflexivity.
Qed.

(** C4 as stated fails for the empty identifier: the store holds one
    record of patient ["P1"], none of the patient [""], and
    [get_scans] with [patient_id=""] returns the record of ["P1"]. *)
Lemma get_scans_empty_patient_counterexample :
  List.filter (has_patient []) (records one_scan_store) = []
  /\ fst (get_scans (Some []) one_scan_store) = Ok (JArr (records one_scan_store))
  /\ records one_scan_store <> [].
Proof. vm_compute. by repeat split. Qed.

Lemma get_scans_filters_witness :
  get_scans (Some (py "P1")) (store_of (records one_scan_store) ∅)
  = (Ok (JArr (List.filter (has_patient (py "P1")) (records one_scan_store))),
     store_of (records one_scan_store) ∅)
  /\ get_scans None (store_of (records one_scan_store) ∅)
     = (Ok (JArr (records one_scan_store)), store_of (records one_scan_store) ∅)
  /\ get_scans (Some []) (store_of (records one_scan_store) ∅)
     = (Ok (JArr (records one_scan_store)), store_of (records one_scan_store) ∅).
Proof.
  apply (get_scans_filters (records one_scan_store) ∅ (py "P1")).
  - vm_compute. by repeat constructor.
  - discriminate.
Defined.

(** ** C6 and C7: deleting *)

(** A filter that shortens a list rejected one of its elements. *)
Lemma filter_drops {A} (f : A -> bool) (l : list A) :
  length (List.filter f l) <> length l -> Exists (fun x => f x = false) l.
Proof.
  induction l as [|x l IH]; cbn [List.filter]; [done|].
  destruct (f x) eqn:Hx; cbn [length]; intros Hlen.
  - apply Exists_cons_tl, IH. lia.
  - by apply Exists_cons_hd.
Qed.

(** The comprehension of [delete_scan] on a list of [dict] objects. *)
Lemma select_other_ids (scan_id : pystr) (items : list json) :
  Forall (fun scan => is_dict scan = true) items ->
  select (fun field => negb (eq_str field scan_id)) (py "id") items
  = Ok (List.filter (fun scan => negb (has_id scan_id scan)) items).
Proof.
  intros Hdicts. rewrite (select_dicts _ _ _ Hdicts). f_equal.
  apply filter_ext_in. intros scan Hin.
  rewrite List.Forall_forall in Hdicts. specialize (Hdicts scan Hin).
  by destruct scan.
Qed.

(** A [delete_scan] that returns: [scans_db] was a list of [dict] objects,
    at least one of them carried the identifier, the list is now the list
    of the others, and the snapshot file holds its text. *)
Lemma delete_scan_ok_inv (e : env) (scan_id : pystr) (st st' : state) (v : json) :
  delete_scan e scan_id st = (Ok v, st') ->
  exists items,
    scans_db st = JArr items
    /\ Forall (fun scan => is_dict scan = true) items
    /\ Exists (fun scan => has_id scan_id scan = true) items
    /\ scans_db st' = JArr (List.filter (fun scan => negb (has_id scan_id scan)) items)
    /\ files st' = <[SNAPSHOT := json_dumps (scans_db st')]> (files st).
Proof.
  intros Hrun.
  unfold delete_scan, bind, read_db, lift, assign_db in Hrun.
  destruct (py_len (scans_db st)) as [n|err] eqn:Hlen; [|discriminate Hrun].
  destruct (py_iter (scans_db st)) as [items|err] eqn:Hiter; cbn [rbind] in Hrun;
    [|discriminate Hrun].
  destruct (select _ (py "id") items) as [kept|err] eqn:Hsel; [|discriminate Hrun].
  destruct (select_ok _ _ _ _ Hsel) as [Hdicts _].
  rewrite (select_other_ids _ _ Hdicts) in Hsel. injection Hsel as <-.
  destruct (Nat.eqb _ n) eqn:Hsame; [discriminate Hrun|].
  apply Nat.eqb_neq in Hsame.
  assert (Hdb : scans_db st = JArr items).
  { destruct (scans_db st) as [| | | |s|items0|d]; try discriminate Hiter;
      cbn [py_iter py_len] in Hiter, Hlen; injection Hiter as <-; injection Hlen as <-.
    - destruct s as [|c s]; [by cbn in Hsame|].
      inversion Hdicts as [|? ? Hc _]. discriminate Hc.
    - reflexivity.
    - destruct d as [|kv d]; [by cbn in Hsame|].
      inversion Hdicts as [|? ? Hc _]. discriminate Hc. }
  rewrite Hdb in Hlen. cbn [py_len] in Hlen. injection Hlen as <-.
  exists items. split; [assumption|]. split; [assumption|].
  unfold dump_snapshot, bind, read_db, write_file, ret in Hrun.
  cbn [scans_db set_scans_db files set_files] in Hrun.
  destruct (write_outcome e SNAPSHOT); [|discriminate Hrun..].
  injection Hrun as _ <-. cbn [scans_db files set_files set_scans_db].
  split; [|by split].
  apply filter_drops in Hsame.
  eapply Exists_impl; [exact Hsame|]. intros scan Hscan. by apply negb_false_iff.
Qed.

(** C6.  After a [delete_scan] of an identifier that returned, [get_scan]
    of the same identifier raises the 404 "Scan not found" exception (the
    code's [NotFoundError]), and leaves the state as it is. *)
Theorem delete_then_get_not_found (str_other : json -> pystr) (e : env)
    (scan_id : pystr) (st st' : state) (v : json) :
  delete_scan e scan_id st = (Ok v, st') ->
  get_scan str_other scan_id st' = (Raise (HTTPException 404 ScanNotFound), st').
Proof.
  intros Hdel.
  destruct (delete_scan_ok_inv _ _ _ _ _ Hdel) as (items & _ & Hdicts & _ & Hdb' & _).
  unfold get_scan, bind, read_db, lift. rewrite Hdb'. cbn [py_iter rbind].
  f_equal. apply find_scan_absent.
  - apply List.Forall_forall. intros scan Hin. apply filter_In in Hin as [Hin _].
    rewrite List.Forall_forall in Hdicts. by apply Hdicts.
  - apply List.Forall_forall. intros scan Hin. apply filter_In in Hin as [_ Hid].
    by apply negb_true_iff.
Qed.

Lemma delete_then_get_not_found_witness :
  delete_scan calm_env (uuid4 calm_env) one_scan_store
  = (Ok (JObj [(py "status", JStr (py "success")); (py "message", JStr (py "Scan deleted"))]),
     snd (delete_scan calm_env (uuid4 calm_env) one_scan_store))
  /\ get_scan (fun _ => []) (uuid4 calm_env)
       (snd (delete_scan calm_env (uuid4 calm_env) one_scan_store))
     = (Raise (HTTPException 404 ScanNotFound),
        snd (delete_scan calm_env (uuid4 calm_env) one_scan_store)).
Proof.
  assert (Hdel : delete_scan calm_env (uuid4 calm_env) one_scan_store
    = (Ok (JObj [(py "status", JStr (py "success")); (py "message", JStr (py "Scan deleted"))]),
       snd (delete_scan calm_env (uuid4 calm_env) one_scan_store))).
  { vm_compute. reflexivity. }
  split; [exact Hdel|].
  exact (delete_then_get_not_found (fun _ => []) calm_env (uuid4 calm_env) one_scan_store
           _ _ Hdel).
Defined.

(** C7.  In a store of records none of which carries the identifier,
    [delete_scan] raises the 404 "Scan not found" exception, and the state
    after it, the list in memory and every file, the snapshot among them,
    is the state before it. *)
Theorem delete_absent_changes_nothing (e : env) (scan_id : pystr)
    (items : list json) (fs : gmap pystr (list N)) :
  Forall (fun scan => is_dict scan = true) items ->
  Forall (fun scan => has_id scan_id scan = false) items ->
  delete_scan e scan_id (store_of items fs)
  = (Raise (HTTPException 404 ScanNotFound), store_of items fs).
Proof.
  intros Hdicts Hids.
  unfold delete_scan, bind, read_db, lift, assign_db.
  cbn [scans_db store_of py_len py_iter rbind].
  rewrite (select_other_ids _ _ Hdicts).
  assert (Hkept : List.filter (fun scan => negb (has_id scan_id scan)) items = items).
  { apply forallb_filter_id, forallb_forall. intros scan Hin.
    rewrite List.Forall_forall in Hids. by rewrite (Hids scan Hin). }
  rewrite Hkept, Nat.eqb_refl. reflexivity.
Qed.

Lemma delete_absent_changes_nothing_witness :
  delete_scan calm_env (py "no-such-scan")
    (store_of (records one_scan_store) (files one_scan_store))
  = (Raise (HTTPException 404 ScanNotFound),
     store_of (records one_scan_store) (files one_scan_store)).
Proof.
  apply (delete_absent_changes_nothing calm_env (py "no-such-scan")
           (records one_scan_store) (files one_scan_store)).
  - vm_compute. by repeat constructor.
  - vm_compute. by repeat constructor.
Defined.

(** ** Paths *)

(** Nothing after the index [rfind] returns is the character sought. *)
Lemma rfind_from_after (c : N) (s : pystr) (i last : Z) :
  (last < i)%Z ->
  (last <= rfind_from i last c s)%Z
  /\ Forall (fun x => x <> c) (drop (Z.to_nat (rfind_from i last c s + 1 - i)) s).
Proof.
  revert i last. induction s as [|x r IH]; intros i last Hlt; cbn [rfind_from].
  - split; [lia|]. rewrite drop_nil. constructor.
  - set (last' := if (x =? c)%N then i else last).
    assert (Hlast' : (last' < i + 1)%Z) by (subst last'; destruct (x =? c)%N; lia).
    destruct (IH (i + 1)%Z last' Hlast') as [Hle Hafter].
    split; [subst last'; destruct (x =? c)%N; lia|].
    destruct (Z_lt_le_dec (rfind_from (i + 1) last' c r) i) as [Hbefore|Hfrom].
    + assert (Hx : (x =? c)%N = false).
      { subst last'. destruct (x =? c)%N; [lia|reflexivity]. }
      replace (Z.to_nat (rfind_from (i + 1) last' c r + 1 - i)) with 0%nat by lia.
      replace (Z.to_nat (rfind_from (i + 1) last' c r + 1 - (i + 1))) with 0%nat in Hafter
        by lia.
      cbn [drop] in *. constructor; [by apply N.eqb_neq|assumption].
    + replace (Z.to_nat (rfind_from (i + 1) last' c r + 1 - i))
        with (S (Z.to_nat (rfind_from (i + 1) last' c r + 1 - (i + 1)))) by lia.
      exact Hafter.
Qed.

Lemma rfind_after (c : N) (s : pystr) :
  (-1 <= rfind c s)%Z /\ Forall (fun x => x <> c) (drop (Z.to_nat (rfind c s + 1)) s).
Proof.
  destruct (rfind_from_after c s 0 (-1) ltac:(lia)) as [Hle Hafter].
  split; [exact Hle|]. unfold rfind.
  by replace (rfind_from 0 (-1) c s + 1)%Z with (rfind_from 0 (-1) c s + 1 - 0)%Z by lia.
Qed.

(** The two halves [splitext] returns make up the name. *)
Lemma splitext_app (p : pystr) : fst (splitext p) ++ snd (splitext p) = p.
Proof.
  unfold splitext. destruct (_ && _); cbn [fst snd].
  - apply take_drop.
  - apply app_nil_r.
Qed.

(** The extension has no slash: it lies in the last component. *)
Lemma splitext_no_sep (p : pystr) : Forall (fun c => c <> 47%N) (snd (splitext p)).
Proof.
  unfold splitext.
  destruct ((rfind 47 p <? rfind 46 p)%Z && _) eqn:Hcond; cbn [snd]; [|constructor].
  apply andb_true_iff in Hcond as [Hlt _]. apply Z.ltb_lt in Hlt.
  destruct (rfind_after 47 p) as [Hsep Hafter].
  replace (Z.to_nat (rfind 46 p))
    with (Z.to_nat (rfind 47 p + 1) + Z.to_nat (rfind 46 p - (rfind 47 p + 1)))%nat by lia.
  rewrite <- drop_drop. by apply Forall_drop.
Qed.

Lemma split_on_plain (sep : N) (s : pystr) :
  Forall (fun c => c <> sep) s -> split_on sep s = [s].
Proof.
  induction 1 as [|c r Hc _ IH]; [reflexivity|].
  cbn [split_on]. apply N.eqb_neq in Hc. by rewrite Hc, IH.
Qed.

Lemma plain_name_spec (s : pystr) :
  plain_name s = true <-> s <> [] /\ s <> [46%N] /\ Forall (fun c => c <> 47%N) s.
Proof.
  unfold plain_name. rewrite !andb_true_iff, !negb_true_iff, !pystr_eqb_neq.
  rewrite forallb_forall, List.Forall_forall.
  split.
  - intros [[? ?] Hall]. do 2 (split; [assumption|]).
    intros c Hin. specialize (Hall c Hin).
    apply negb_true_iff in Hall. by apply N.eqb_neq.
  - intros (? & ? & Hall). split; [by split|].
    intros c Hin. specialize (Hall c Hin).
    apply negb_true_iff. by apply N.eqb_neq.
Qed.

(** Dividing a path by a plain name adds one component. *)
Lemma path_div_plain (p : Path) (s : pystr) :
  plain_name s = true ->
  path_div p s = {| anchored := anchored p; parts := parts p ++ [s] |}.
Proof.
  intros Hplain. apply plain_name_spec in Hplain as (Hne & Hdot & Hsep).
  assert (Hparts : segment_parts s = [s]).
  { unfold segment_parts. rewrite (split_on_plain _ _ Hsep). cbn [List.filter].
    apply pystr_eqb_neq in Hne, Hdot. by rewrite Hne, Hdot. }
  unfold path_div, path_of. cbn [anchored]. rewrite Hparts.
  destruct s as [|c s]; [done|].
  inversion Hsep as [|? ? Hc _]. apply N.eqb_neq in Hc. by rewrite Hc.
Qed.

Lemma uuid_text_plain (s : pystr) : uuid_text s = true -> plain_name s = true.
Proof.
  unfold uuid_text. rewrite andb_true_iff, Nat.eqb_eq, forallb_forall.
  intros [Hlen Hall]. apply plain_name_spec.
  split; [by destruct s|]. split; [by destruct s as [|? [|? ?]]|].
  apply List.Forall_forall. intros c Hin Hc. specialize (Hall c Hin). by subst c.
Qed.

(** The name of a stored upload is a plain name. *)
Lemma stored_name_plain (logical : string) (u : upload) :
  plain_name (py logical) = true -> plain_name (stored_name logical u) = true.
Proof.
  intros Hlogical. apply plain_name_spec in Hlogical as (Hne & Hdot & Hsep).
  assert (Hext : Forall (fun c => c <> 47%N) (extension u)).
  { unfold extension. destruct (filename u) as [[|c name]|].
    - by repeat constructor.
    - apply splitext_no_sep.
    - by repeat constructor. }
  apply plain_name_spec. unfold stored_name.
  destruct (py logical) as [|c l] eqn:Hl; [done|].
  split; [done|]. split.
  - cbn [app]. intros Heq. injection Heq as -> Happ.
    apply app_eq_nil in Happ as [-> _]. by apply Hdot.
  - by apply Forall_app.
Qed.

(** Where the files of a new scan are, and what their path fields read. *)
Lemma scan_paths (e : env) (name : pystr) :
  uuid_text (uuid4 e) = true ->
  plain_name name = true ->
  path_str (path_div (path_div UPLOAD_DIR (uuid4 e)) name) = blob_file e name
  /\ relative_str (path_div (path_div UPLOAD_DIR (uuid4 e)) name)
     = Ok (JStr (path_field e name)).
Proof.
  intros Huuid Hname. apply uuid_text_plain in Huuid as Hplain.
  rewrite (path_div_plain _ _ Hplain), (path_div_plain _ _ Hname).
  apply plain_name_spec in Hplain as (Hne & _ & _).
  split.
  - unfold path_str, blob_file, path_field. cbn.
    destruct (uuid4 e); [done|]. reflexivity.
  - unfold relative_str, relative_to, path_str, path_field. cbn.
    destruct (uuid4 e); [done|]. reflexivity.
Qed.

Lemma analysis_results_plain : plain_name (py "analysis_results.json") = true.
Proof. reflexivity. Qed.

Lemma pre_op_plain : plain_name (py "pre_op") = true.
Proof. reflexivity. Qed.

Lemma during_op_plain : plain_name (py "during_op") = true.
Proof. reflexivity. Qed.

(** ** Creating a scan *)

(** A create request in which no step fails: the three files are written,
    the record is appended, the snapshot is rewritten with the text of the
    new list, and the analysis is returned. *)
Lemma analyze_occlusion_ok (e : env) (pre_op_image during_op_image : upload)
    (patient_id : pystr) (items : list json) (fs : gmap pystr (list N)) :
  uuid_text (uuid4 e) = true ->
  io_succeeds e pre_op_image during_op_image ->
  analyze_occlusion e pre_op_image during_op_image patient_id (store_of items fs)
  = (Ok (mock_analysis (uuid4 e)),
     store_of (items ++ [new_record e pre_op_image during_op_image patient_id])
       (<[SNAPSHOT :=
            json_dumps (JArr (items ++ [new_record e pre_op_image during_op_image patient_id]))]>
          (<[blob_file e (py "analysis_results.json") := json_dumps (mock_analysis (uuid4 e))]>
             (<[blob_file e (stored_name "during_op" during_op_image) := contents during_op_image]>
                (<[blob_file e (stored_name "pre_op" pre_op_image) := contents pre_op_image]>
                   fs))))).
Proof.
  intros Huuid (Hmkdir & Hpre & Hduring & Hresult & Hsnap).
  destruct (scan_paths e _ Huuid (stored_name_plain "pre_op" pre_op_image pre_op_plain))
    as [Hpre_str Hpre_rel].
  destruct (scan_paths e _ Huuid (stored_name_plain "during_op" during_op_image during_op_plain))
    as [Hduring_str Hduring_rel].
  destruct (scan_paths e _ Huuid analysis_results_plain) as [Hres_str Hres_rel].
  unfold analyze_occlusion, allocate, store_scan, try_except, bind, mkdir, ret, raise, lift,
    save_scan_to_db, dump_snapshot, list_append, read_db, write_file.
  rewrite Hmkdir. cbn [pre_op_path during_op_path scan_dir scan_id].
  fold (stored_name "pre_op" pre_op_image). fold (stored_name "during_op" during_op_image).
  rewrite Hpre_str, Hduring_str, Hres_str, Hpre_rel, Hduring_rel, Hres_rel.
  rewrite Hpre. cbn [set_files files scans_db store_of].
  rewrite Hduring. cbn [set_files files scans_db].
  rewrite Hresult. cbn [set_files files scans_db set_scans_db].
  rewrite Hsnap. reflexivity.
Qed.

(** After the [except] block the two upload files are gone; nothing else
    changes. *)
Lemma cleanup_spec {A} (l : locals) (cause : exn) (st : state) :
  exists st',
    cleanup (A := A) (Some l) cause st = (Raise (HTTPException 500 (AnalysisFailed cause)), st')
    /\ scans_db st' = scans_db st
    /\ files st' !! path_str (pre_op_path l) = None
    /\ files st' !! path_str (during_op_path l) = None.
Proof.
  unfold cleanup, remove_if_exists, bind, path_exists, unlink, ret, raise.
  cbn [files set_files].
  destruct (bool_decide (is_Some (files st !! path_str (pre_op_path l)))) eqn:Hpre;
    cbn [files set_files];
    match goal with
    | |- context [bool_decide (is_Some (?fs !! path_str (during_op_path l)))] =>
        destruct (bool_decide (is_Some (fs !! path_str (during_op_path l)))) eqn:Hduring
    end;
    eexists; (split; [reflexivity|]); cbn [files set_files scans_db];
    (split; [reflexivity|]);
    try apply bool_decide_eq_false in Hpre; try apply bool_decide_eq_false in Hduring;
    rewrite <- ?eq_None_not_Some in *.
  - split; [|apply lookup_delete_eq].
    rewrite lookup_delete. case_decide; [reflexivity|]. apply lookup_delete_eq.
  - split; [apply lookup_delete_eq|assumption].
  - split; [|apply lookup_delete_eq].
    rewrite lookup_delete. case_decide; [reflexivity|assumption].
  - by split.
Qed.

(** What [store_scan] does to [scans_db]: nothing, unless it reaches
    [save_scan_to_db], which appends the record before it writes the
    snapshot. *)
Lemma store_scan_db (e : env) (l : locals) (pre_op_image during_op_image : upload)
    (patient_id : pystr) (st st' : state) (r : result json) :
  store_scan e l pre_op_image during_op_image patient_id st = (r, st') ->
  (scans_db st' = scans_db st /\ (exists err, r = Raise err))
  \/ (exists items record,
        scans_db st = JArr items
        /\ scans_db st' = JArr (items ++ [record])
        /\ write_outcome e (path_str (pre_op_path l)) = IoDone
        /\ write_outcome e (path_str (during_op_path l)) = IoDone
        /\ write_outcome e (path_str (path_div (scan_dir l) (py "analysis_results.json")))
           = IoDone
        /\ (r = Ok (mock_analysis (scan_id l)) /\ write_outcome e SNAPSHOT = IoDone
            \/ (exists errno, r = Raise (OSError errno)) /\ write_outcome e SNAPSHOT <> IoDone)).
Proof.
  unfold store_scan, save_scan_to_db, dump_snapshot, list_append, read_db, write_file,
    lift, ret, bind.
  destruct (write_outcome e (path_str (pre_op_path l))) eqn:Hpre;
    cbn [set_files files scans_db];
    [|intros [= <- <-]; left; split; [reflexivity|eauto]..].
  destruct (write_outcome e (path_str (during_op_path l))) eqn:Hduring;
    cbn [set_files files scans_db];
    [|intros [= <- <-]; left; split; [reflexivity|eauto]..].
  destruct (write_outcome e (path_str (path_div _ _))) eqn:Hresult;
    cbn [set_files files scans_db];
    [|intros [= <- <-]; left; split; [reflexivity|eauto]..].
  destruct (relative_str (pre_op_path l)); cbn [set_files files scans_db];
    [|intros [= <- <-]; left; split; [reflexivity|eauto]].
  destruct (relative_str (during_op_path l)); cbn [set_files files scans_db];
    [|intros [= <- <-]; left; split; [reflexivity|eauto]].
  destruct (relative_str (path_div _ _)); cbn [set_files files scans_db];
    [|intros [= <- <-]; left; split; [reflexivity|eauto]].
  destruct (scans_db st) as [| | | | |items|] eqn:Hdb;
    cbn [set_scans_db set_files files scans_db];
    try (intros [= <- <-]; left; split; [exact Hdb|eauto]).
  destruct (write_outcome e SNAPSHOT) eqn:Hsnap; intros [= <- <-];
    right; eexists _, _; cbn [set_scans_db set_files files scans_db];
    (split; [reflexivity|]); (split; [reflexivity|]); do 3 (split; [reflexivity|]).
  - left. by split.
  - right. split; [eauto|discriminate].
  - right. split; [eauto|discriminate].
Qed.

(** The local variables after lines 133-147, when [mkdir] succeeds. *)
Lemma allocate_ok (e : env) (pre_op_image during_op_image : upload) (st : state) :
  mkdir_errno e (path_div UPLOAD_DIR (uuid4 e)) = None ->
  allocate e pre_op_image during_op_image st
  = (Ok {| scan_id := uuid4 e;
           scan_dir := path_div UPLOAD_DIR (uuid4 e);
           pre_op_path :=
             path_div (path_div UPLOAD_DIR (uuid4 e)) (stored_name "pre_op" pre_op_image);
           during_op_path :=
             path_div (path_div UPLOAD_DIR (uuid4 e))
               (stored_name "during_op" during_op_image) |}, st).
Proof. intros Hmkdir. unfold allocate, mkdir, bind. by rewrite Hmkdir. Qed.

(** ** C3: a create request that fails *)




(** ** C2: a snapshot that cannot be rewritten *)

Lemma filter_shortens {A} (f : A -> bool) (l : list A) :
  Exists (fun x => f x = false) l -> length (List.filter f l) <> length l.
Proof.
  intros Hex Hlen. apply Exists_exists in Hex as (x & Hin & Hx).
  assert (Hall : forallb f l = true).
  { apply forallb_forall. intros y Hy.
    assert (Hy' : In y (List.filter f l)).
    { assert (Heq : List.filter f l = l); [|by rewrite Heq].
      clear -Hlen. induction l as [|z l IH]; [reflexivity|].
      cbn [List.filter] in *. destruct (f z); cbn [length] in Hlen.
      - f_equal. apply IH. lia.
      - pose proof (filter_length_le f l). lia. }
    by apply filter_In in Hy' as [_ ?]. }
  rewrite forallb_forall in Hall. apply list_elem_of_In in Hin.
  rewrite (Hall x Hin) in Hx. discriminate Hx.
Qed.

(** With the three files of the scan written, a snapshot that cannot be
    rewritten makes [store_scan] raise with the record appended. *)
Lemma store_scan_snapshot_fails (e : env) (pre_op_image during_op_image : upload)
    (patient_id : pystr) (items : list json) (fs : gmap pystr (list N)) :
  uuid_text (uuid4 e) = true ->
  write_outcome e (blob_file e (stored_name "pre_op" pre_op_image)) = IoDone ->
  write_outcome e (blob_file e (stored_name "during_op" during_op_image)) = IoDone ->
  write_outcome e (blob_file e (py "analysis_results.json")) = IoDone ->
  write_outcome e SNAPSHOT <> IoDone ->
  exists errno st2,
    store_scan e
      {| scan_id := uuid4 e;
         scan_dir := path_div UPLOAD_DIR (uuid4 e);
         pre_op_path :=
           path_div (path_div UPLOAD_DIR (uuid4 e)) (stored_name "pre_op" pre_op_image);
         during_op_path :=
           path_div (path_div UPLOAD_DIR (uuid4 e))
             (stored_name "during_op" during_op_image) |}
      pre_op_image during_op_image patient_id (store_of items fs)
    = (Raise (OSError errno), st2)
    /\ scans_db st2
       = JArr (items ++ [new_record e pre_op_image during_op_image patient_id]).
Proof.
  intros Huuid Hpre Hduring Hresult Hsnap.
  destruct (scan_paths e _ Huuid (stored_name_plain "pre_op" pre_op_image pre_op_plain))
    as [Hpre_str Hpre_rel].
  destruct (scan_paths e _ Huuid (stored_name_plain "during_op" during_op_image during_op_plain))
    as [Hduring_str Hduring_rel].
  destruct (scan_paths e _ Huuid analysis_results_plain) as [Hres_str Hres_rel].
  unfold store_scan, save_scan_to_db, dump_snapshot, list_append, read_db, write_file,
    lift, ret, bind.
  cbn [pre_op_path during_op_path scan_dir scan_id].
  rewrite Hpre_str, Hduring_str, Hres_str, Hpre_rel, Hduring_rel, Hres_rel.
  rewrite Hpre. cbn [set_files files scans_db store_of].
  rewrite Hduring. cbn [set_files files scans_db].
  rewrite Hresult. cbn [set_files files scans_db set_scans_db].
  destruct (write_outcome e SNAPSHOT) as [|errno|errno written]; [done|..];
    by exists errno; eexists.
Qed.

(** C2 as stated fails: [scans_db.json] holds the one record of the store
    and cannot be opened for writing; [delete_scan] of that record raises,
    the file still holds the record, and [scans_db] is the empty list, not
    the list the file holds. *)
Lemma no_rollback_counterexample :
  fst (delete_scan readonly_snapshot_env (uuid4 calm_env) one_scan_store)
  = Raise (OSError 13)
  /\ files (snd (delete_scan readonly_snapshot_env (uuid4 calm_env) one_scan_store))
       !! SNAPSHOT
     = Some (json_dumps (scans_db one_scan_store))
  /\ json_loads (json_dumps (scans_db one_scan_store)) = Ok (scans_db one_scan_store)
  /\ scans_db (snd (delete_scan readonly_snapshot_env (uuid4 calm_env) one_scan_store))
     = JArr []
  /\ scans_db one_scan_store <> JArr [].
Proof. vm_compute. by repeat split. Qed.

(** C2, as the code has it.  When the snapshot cannot be rewritten, a
    [delete_scan] of a record of the store and an [analyze_occlusion] whose
    earlier steps succeed both end with an exception, and [scans_db] keeps
    the change made before the write: the record deleted is gone from it,
    the record created is in it.  Nothing rolls the list back. *)
Theorem snapshot_failure_keeps_mutation (e : env) (items : list json)
    (fs : gmap pystr (list N)) :
  write_outcome e SNAPSHOT <> IoDone ->
  (forall scan_id,
      Forall (fun scan => is_dict scan = true) items ->
      Exists (fun scan => has_id scan_id scan = true) items ->
      exists errno st',
        delete_scan e scan_id (store_of items fs) = (Raise (OSError errno), st')
        /\ scans_db st' = JArr (List.filter (fun scan => negb (has_id scan_id scan)) items))
  /\ (forall pre_op_image during_op_image patient_id,
        uuid_text (uuid4 e) = true ->
        mkdir_errno e (path_div UPLOAD_DIR (uuid4 e)) = None ->
        write_outcome e (blob_file e (stored_name "pre_op" pre_op_image)) = IoDone ->
        write_outcome e (blob_file e (stored_name "during_op" during_op_image)) = IoDone ->
        write_outcome e (blob_file e (py "analysis_results.json")) = IoDone ->
        exists errno st',
          analyze_occlusion e pre_op_image during_op_image patient_id (store_of items fs)
          = (Raise (HTTPException 500 (AnalysisFailed (OSError errno))), st')
          /\ scans_db st'
             = JArr (items ++ [new_record e pre_op_image during_op_image patient_id])).
Proof.
  intros Hsnap. split.
  - intros scan_id Hdicts Hex.
    unfold delete_scan, bind, read_db, lift, assign_db.
    cbn [scans_db store_of py_len py_iter rbind].
    rewrite (select_other_ids _ _ Hdicts).
    assert (Hlen : length (List.filter (fun scan => negb (has_id scan_id scan)) items)
                   <> length items).
    { apply filter_shortens. eapply Exists_impl; [exact Hex|].
      intros scan Hscan. by rewrite Hscan. }
    apply Nat.eqb_neq in Hlen. rewrite Hlen.
    unfold dump_snapshot, bind, read_db, write_file.
    cbn [scans_db set_scans_db files set_files].
    destruct (write_outcome e SNAPSHOT) as [|errno|errno written]; [done|..];
      by exists errno; eexists.
  - intros pre_op_image during_op_image patient_id Huuid Hmkdir Hpre Hduring Hresult.
    destruct (store_scan_snapshot_fails e pre_op_image during_op_image patient_id items fs
                Huuid Hpre Hduring Hresult Hsnap) as (errno & st2 & Hstore & Hdb).
    unfold analyze_occlusion, bind, try_except.
    rewrite (allocate_ok _ _ _ _ Hmkdir), Hstore.
    match goal with
    | |- context [cleanup (Some ?l) _ _] =>
        destruct (cleanup_spec (A := json) l (OSError errno) st2)
          as (st3 & Hclean & Hdb3 & _)
    end.
    rewrite Hclean. exists errno, st3. split; [reflexivity|]. by rewrite Hdb3.
Qed.

Lemma snapshot_failure_keeps_mutation_witness :
  write_outcome readonly_snapshot_env SNAPSHOT <> IoDone
  /\ exists errno st',
       delete_scan readonly_snapshot_env (uuid4 calm_env)
         (store_of (records one_scan_store) (files one_scan_store))
       = (Raise (OSError errno), st')
       /\ scans_db st'
          = JArr (List.filter (fun scan => negb (has_id (uuid4 calm_env) scan))
                    (records one_scan_store)).
Proof.
  assert (Hsnap : write_outcome readonly_snapshot_env SNAPSHOT <> IoDone)
    by (vm_compute; discriminate).
  split; [exact Hsnap|].
  apply (proj1 (snapshot_failure_keeps_mutation readonly_snapshot_env
                  (records one_scan_store) (files one_scan_store) Hsnap)).
  - vm_compute. by repeat constructor.
  - vm_compute. by repeat constructor.
Defined.

(** ** C8 and C9: what is stored for an upload *)

(** A character that is nowhere in the string is not found. *)
Lemma rfind_from_absent (c : N) (s : pystr) (i last : Z) :
  Forall (fun x => x <> c) s -> rfind_from i last c s = last.
Proof.
  intros Hall. revert i last.
  induction Hall as [|x r Hx _ IH]; intros i last; cbn [rfind_from]; [reflexivity|].
  apply N.eqb_neq in Hx. by rewrite Hx, IH.
Qed.

(** A name without a dot has the empty extension. *)
Lemma splitext_no_dot (p : pystr) :
  Forall (fun x => x <> 46%N) p -> snd (splitext p) = [].
Proof.
  intros Hall. unfold splitext, rfind at 2. rewrite (rfind_from_absent _ _ _ _ Hall).
  destruct (rfind_after 47 p) as [Hsep _].
  assert (Hlt : (rfind 47 p <? -1)%Z = false) by (apply Z.ltb_ge; lia).
  by rewrite Hlt.
Qed.

(** The paths of the files of a scan and of the snapshot are all
    different. *)
Lemma blob_file_inj (e : env) (a b : pystr) : blob_file e a = blob_file e b -> a = b.
Proof.
  unfold blob_file, path_field. intros Heq.
  by repeat (apply app_inv_head in Heq).
Qed.

Lemma blob_file_not_snapshot (e : env) (name : pystr) : blob_file e name <> SNAPSHOT.
Proof. discriminate. Qed.

Lemma stored_names_differ (u v : upload) :
  stored_name "pre_op" u <> stored_name "during_op" v
  /\ stored_name "pre_op" u <> py "analysis_results.json"
  /\ stored_name "during_op" v <> py "analysis_results.json".
Proof. by repeat split. Qed.

(** The files of a new scan after a create request in which no step
    fails. *)
Lemma analyze_occlusion_files (e : env) (pre_op_image during_op_image : upload)
    (patient_id : pystr) (items : list json) (fs : gmap pystr (list N)) :
  uuid_text (uuid4 e) = true ->
  io_succeeds e pre_op_image during_op_image ->
  files (snd (analyze_occlusion e pre_op_image during_op_image patient_id (store_of items fs)))
    !! blob_file e (stored_name "pre_op" pre_op_image) = Some (contents pre_op_image)
  /\ files (snd (analyze_occlusion e pre_op_image during_op_image patient_id
                   (store_of items fs)))
       !! blob_file e (stored_name "during_op" during_op_image)
     = Some (contents during_op_image).
Proof.
  intros Huuid Hio. rewrite (analyze_occlusion_ok _ _ _ _ _ _ Huuid Hio).
  cbn [snd files store_of].
  destruct (stored_names_differ pre_op_image during_op_image) as (Hpd & Hpa & Hda).
  pose proof (blob_file_not_snapshot e (stored_name "pre_op" pre_op_image)).
  pose proof (blob_file_not_snapshot e (stored_name "during_op" during_op_image)).
  assert (blob_file e (py "analysis_results.json")
          <> blob_file e (stored_name "pre_op" pre_op_image))
    by (intros Heq; by apply blob_file_inj in Heq).
  assert (blob_file e (py "analysis_results.json")
          <> blob_file e (stored_name "during_op" during_op_image))
    by (intros Heq; by apply blob_file_inj in Heq).
  assert (blob_file e (stored_name "during_op" during_op_image)
          <> blob_file e (stored_name "pre_op" pre_op_image))
    by (intros Heq; by apply blob_file_inj in Heq).
  split.
  - rewrite !lookup_insert_ne by done. apply lookup_insert_eq.
  - rewrite !lookup_insert_ne by done. apply lookup_insert_eq.
Qed.

(** C8 as stated fails: both uploads are empty streams and the request
    succeeds, with two empty files stored. *)
Lemma empty_upload_counterexample :
  fst (analyze_occlusion calm_env (empty_upload "before.png") (empty_upload "during.jpeg")
         (py "P1") empty_store)
  = Ok (mock_analysis (uuid4 calm_env))
  /\ files (snd (analyze_occlusion calm_env (empty_upload "before.png")
                   (empty_upload "during.jpeg") (py "P1") empty_store))
       !! blob_file calm_env (py "pre_op.png")
     = Some [].
Proof. vm_compute. by split. Qed.

(** C8, as the code has it.  A create request with an empty upload stream
    does not fail for it: when no step of the request fails, the analysis
    is returned, the record is appended, and the file stored for the empty
    stream is the empty file. *)
Theorem empty_upload_is_stored (e : env) (pre_op_image during_op_image : upload)
    (patient_id : pystr) (items : list json) (fs : gmap pystr (list N)) :
  uuid_text (uuid4 e) = true ->
  io_succeeds e pre_op_image during_op_image ->
  contents pre_op_image = [] \/ contents during_op_image = [] ->
  fst (analyze_occlusion e pre_op_image during_op_image patient_id (store_of items fs))
  = Ok (mock_analysis (uuid4 e))
  /\ scans_db (snd (analyze_occlusion e pre_op_image during_op_image patient_id
                      (store_of items fs)))
     = JArr (items ++ [new_record e pre_op_image during_op_image patient_id])
  /\ (contents pre_op_image = [] ->
      files (snd (analyze_occlusion e pre_op_image during_op_image patient_id
                    (store_of items fs)))
        !! blob_file e (stored_name "pre_op" pre_op_image) = Some [])
  /\ (contents during_op_image = [] ->
      files (snd (analyze_occlusion e pre_op_image during_op_image patient_id
                    (store_of items fs)))
        !! blob_file e (stored_name "during_op" during_op_image) = Some []).
Proof.
  intros Huuid Hio _.
  destruct (analyze_occlusion_files e pre_op_image during_op_image patient_id items fs
              Huuid Hio) as [Hpre Hduring].
  split; [|split; [|split]].
  - by rewrite (analyze_occlusion_ok _ _ _ _ _ _ Huuid Hio).
  - by rewrite (analyze_occlusion_ok _ _ _ _ _ _ Huuid Hio).
  - intros Hempty. by rewrite Hpre, Hempty.
  - intros Hempty. by rewrite Hduring, Hempty.
Qed.

Lemma calm_io_succeeds (pre_op_image during_op_image : upload) :
  io_succeeds calm_env pre_op_image during_op_image.
Proof. by repeat split. Qed.

Lemma empty_upload_is_stored_witness :
  fst (analyze_occlusion calm_env (empty_upload "before.png") (photo "during.jpeg") (py "P1")
         (store_of [] ∅))
  = Ok (mock_analysis (uuid4 calm_env))
  /\ files (snd (analyze_occlusion calm_env (empty_upload "before.png") (photo "during.jpeg")
                   (py "P1") (store_of [] ∅)))
       !! blob_file calm_env (stored_name "pre_op" (empty_upload "before.png"))
     = Some [].
Proof.
  destruct (empty_upload_is_stored calm_env (empty_upload "before.png") (photo "during.jpeg")
              (py "P1") [] ∅ eq_refl (calm_io_succeeds _ _) (or_introl eq_refl))
    as (Hok & _ & Hpre & _).
  split; [exact Hok|exact (Hpre eq_refl)].
Defined.

(** C9 as stated fails for a file name without an extension: the upload
    named ["scan"] is stored as ["pre_op"], not as ["pre_op.jpg"]. *)
Lemma no_extension_counterexample :
  stored_name "pre_op" (photo "scan") = py "pre_op"
  /\ files (snd (analyze_occlusion calm_env (photo "scan") (photo "during.jpeg") (py "P1")
                   empty_store))
       !! blob_file calm_env (py "pre_op")
     = Some (contents (photo "scan"))
  /\ files (snd (analyze_occlusion calm_env (photo "scan") (photo "during.jpeg") (py "P1")
                   empty_store))
       !! blob_file calm_env (py "pre_op.jpg")
     = None.
Proof. vm_compute. by repeat split. Qed.

(** C9, as the code has it.  After a create request in which no step
    fails, each upload is stored under [uploads/<id>/] with the logical
    name followed by the extension [os.path.splitext] finds in the file name
    the client sent, and the path field of the record is that path without
    [uploads/].  The extension is [".jpg"] when the client sent no file
    name or an empty one; a file name without a dot has the empty
    extension, and the file is then stored under the bare logical name. *)
Theorem upload_name_and_path (e : env) (pre_op_image during_op_image : upload)
    (patient_id : pystr) (items : list json) (fs : gmap pystr (list N)) :
  uuid_text (uuid4 e) = true ->
  io_succeeds e pre_op_image during_op_image ->
  (exists record,
      scans_db (snd (analyze_occlusion e pre_op_image during_op_image patient_id
                       (store_of items fs)))
      = JArr (items ++ [JObj record])
      /\ dict_get (py "pre_op_path") record
         = Some (JStr (uuid4 e ++ py "/" ++ py "pre_op" ++ extension pre_op_image))
      /\ dict_get (py "during_op_path") record
         = Some (JStr (uuid4 e ++ py "/" ++ py "during_op" ++ extension during_op_image)))
  /\ files (snd (analyze_occlusion e pre_op_image during_op_image patient_id
                   (store_of items fs)))
       !! (py "uploads/" ++ uuid4 e ++ py "/" ++ py "pre_op" ++ extension pre_op_image)
     = Some (contents pre_op_image)
  /\ files (snd (analyze_occlusion e pre_op_image during_op_image patient_id
                   (store_of items fs)))
       !! (py "uploads/" ++ uuid4 e ++ py "/" ++ py "during_op" ++ extension during_op_image)
     = Some (contents during_op_image)
  /\ (forall u : upload,
        match filename u with
        | Some (c :: name) =>
            extension u = snd (splitext (c :: name))
            /\ (Forall (fun x => x <> 46%N) (c :: name) -> extension u = [])
        | _ => extension u = py ".jpg"
        end).
Proof.
  intros Huuid Hio.
  destruct (analyze_occlusion_files e pre_op_image during_op_image patient_id items fs
              Huuid Hio) as [Hpre Hduring].
  split; [|split; [exact Hpre|split; [exact Hduring|]]].
  - rewrite (analyze_occlusion_ok _ _ _ _ _ _ Huuid Hio). cbn [snd scans_db store_of].
    eexists. split; [reflexivity|]. by split.
  - intros u. unfold extension. destruct (filename u) as [[|c name]|]; try reflexivity.
    split; [reflexivity|]. apply splitext_no_dot.
Qed.

Lemma upload_name_and_path_witness :
  files (snd (analyze_occlusion calm_env (photo "before.png") (photo "during") (py "P1")
                (store_of [] ∅)))
    !! (py "uploads/" ++ uuid4 calm_env ++ py "/" ++ py "pre_op" ++ py ".png")
  = Some (contents (photo "before.png"))
  /\ files (snd (analyze_occlusion calm_env (photo "before.png") (photo "during") (py "P1")
                   (store_of [] ∅)))
       !! (py "uploads/" ++ uuid4 calm_env ++ py "/" ++ py "during_op" ++ [])
     = Some (contents (photo "during")).
Proof.
  destruct (upload_name_and_path calm_env (photo "before.png") (photo "during") (py "P1")
              [] ∅ eq_refl (calm_io_succeeds _ _)) as (_ & Hpre & Hduring & _).
  split; [exact Hpre|exact Hduring].
Defined.

(** ** C1: the snapshot at startup *)

(** The parser has one way to fail. *)
Lemma json_loads_raises (text : pystr) (err : exn) :
  json_loads text = Raise err -> err = JSONDecodeError.
Proof.
  unfold json_loads. destruct (parse_value _ _) as [[value rest]|].
  - destruct (skip_ws rest); [discriminate|]. by intros [= <-].
  - by intros [= <-].
Qed.

(** C1.  At startup, when there is no snapshot file [scans_db] becomes the
    empty list.  When there is one and its bytes do not decode or do not
    parse, the exception of the decoder or of the parser (a
    [JSONDecodeError] for text that is not JSON) leaves
    [load_scans_from_db] and ends the startup: [scans_db] is not bound to
    an empty list.  A startup that completes with a snapshot file present
    has the value the file's text denotes. *)
Theorem startup_reads_snapshot (e : env) (st : state) :
  (files st !! SNAPSHOT = None -> startup e st = (Ok tt, set_scans_db (JArr []) st))
  /\ (forall bytes err,
        files st !! SNAPSHOT = Some bytes ->
        parse_snapshot e bytes = Raise err ->
        startup e st = (Raise err, st)
        /\ (forall text, locale_decode e bytes = Ok text -> err = JSONDecodeError))
  /\ (forall bytes st',
        files st !! SNAPSHOT = Some bytes ->
        startup e st = (Ok tt, st') ->
        parse_snapshot e bytes = Ok (scans_db st')).
Proof.
  unfold startup, load_scans_from_db, bind, assign_db, parse_snapshot.
  split; [|split].
  - by intros ->.
  - intros bytes err -> Hfail. rewrite Hfail. split; [reflexivity|].
    intros text Htext. rewrite Htext in Hfail. cbn [rbind] in Hfail.
    by apply json_loads_raises in Hfail.
  - intros bytes st' ->.
    destruct (rbind (locale_decode e bytes) _) as [value|err]; [|discriminate].
    by intros [= <-].
Qed.

Lemma startup_reads_snapshot_witness :
  startup calm_env (store_of [JNull] {[SNAPSHOT := truncated_snapshot]})
  = (Raise JSONDecodeError, store_of [JNull] {[SNAPSHOT := truncated_snapshot]})
  /\ startup calm_env (store_of [JNull] {[SNAPSHOT := binary_snapshot]})
     = (Raise UnicodeDecodeError, store_of [JNull] {[SNAPSHOT := binary_snapshot]})
  /\ startup calm_env (store_of [JNull] ∅) = (Ok tt, store_of [] ∅).
Proof.
  split; [|split].
  - apply (proj1 (proj2 (startup_reads_snapshot calm_env
                           (store_of [JNull] {[SNAPSHOT := truncated_snapshot]})))
             truncated_snapshot JSONDecodeError); by vm_compute.
  - apply (proj1 (proj2 (startup_reads_snapshot calm_env
                           (store_of [JNull] {[SNAPSHOT := binary_snapshot]})))
             binary_snapshot UnicodeDecodeError); by vm_compute.
  - apply (proj1 (startup_reads_snapshot calm_env (store_of [JNull] ∅))). by vm_compute.
Defined.

(** ** Dictionaries *)

Lemma dict_get_set_eq (key : pystr) (value : json) (d : pydict) :
  dict_get key (dict_set key value d) = Some value.
Proof.
  induction d as [|[k v] d IH]; cbn [dict_set dict_get].
  - by rewrite pystr_eqb_refl.
  - destruct (pystr_eqb k key) eqn:Hk; cbn [dict_get]; by rewrite Hk.
Qed.

Lemma dict_get_set_ne (key key' : pystr) (value : json) (d : pydict) :
  key <> key' -> dict_get key' (dict_set key value d) = dict_get key' d.
Proof.
  intros Hne. induction d as [|[k v] d IH]; cbn [dict_set dict_get].
  - apply pystr_eqb_neq in Hne. by rewrite Hne.
  - destruct (pystr_eqb k key) eqn:Hk; cbn [dict_get]; [|by rewrite IH].
    apply pystr_eqb_eq in Hk as ->. apply pystr_eqb_neq in Hne. by rewrite Hne.
Qed.

Lemma dict_mem_get (key : pystr) (d : pydict) :
  dict_mem key d = true -> exists value, dict_get key d = Some value.
Proof. unfold dict_mem. destruct (dict_get key d); [eauto|discriminate]. Qed.

(** ** C10: [get_scan] returns a copy *)

(** The record with the three links, for a record with the three paths. *)
Lemma with_urls_ok (str_other : json -> pystr) (d : pydict) :
  has_path_fields d = true ->
  exists pre_op during_op outcome,
    dict_get (py "pre_op_path") d = Some pre_op
    /\ dict_get (py "during_op_path") d = Some during_op
    /\ dict_get (py "result_path") d = Some outcome
    /\ with_urls str_other d
       = Ok (dict_set (py "result_url") (file_url str_other outcome)
               (dict_set (py "during_op_url") (file_url str_other during_op)
                  (dict_set (py "pre_op_url") (file_url str_other pre_op) d))).
Proof.
  unfold has_path_fields. rewrite !andb_true_iff. intros [[Hpre Hduring] Hres].
  apply dict_mem_get in Hpre as [pre_op Hpre].
  apply dict_mem_get in Hduring as [during_op Hduring].
  apply dict_mem_get in Hres as [outcome Hres].
  exists pre_op, during_op, outcome. do 3 (split; [assumption|]).
  unfold with_urls, subscript, dict_mem. rewrite Hpre. cbn [rbind].
  rewrite dict_get_set_ne by discriminate. rewrite Hduring. cbn [rbind].
  rewrite !dict_get_set_ne by discriminate. by rewrite Hres.
Qed.

(** On a new object that holds the items of [d], the updates of lines
    90-101 leave it holding what [with_urls] computes from [d], and touch
    no other object. *)
Lemma add_urls_new (str_other : json -> pystr) (new : Refs.loc) (d d' : pydict)
    (cells : gmap Refs.loc json) :
  with_urls str_other d = Ok d' ->
  Refs.add_urls str_other new (<[new := JObj d]> cells) = (Ok tt, <[new := JObj d']> cells).
Proof.
  unfold with_urls, Refs.add_urls, Refs.load_item, Refs.has_item, Refs.store_item.
  rewrite lookup_insert_eq.
  destruct (subscript d (py "pre_op_path")) as [pre_op|]; [|discriminate].
  cbn [rbind]. rewrite alter_insert_eq, lookup_insert_eq.
  destruct (subscript _ (py "during_op_path")) as [during_op|]; [|discriminate].
  cbn [rbind]. rewrite alter_insert_eq, lookup_insert_eq.
  destruct (dict_mem (py "result_path") _).
  - destruct (subscript _ (py "result_path")) as [outcome|]; [|discriminate].
    cbn [rbind]. intros [= <-]. by rewrite alter_insert_eq.
  - by intros [= <-].
Qed.

(** In a store whose list holds references to scan records, one of which
    carries the identifier, [get_scan] returns a new object: its address
    was not in use, it holds the items of the first record with the
    identifier together with the three links computed from the path
    fields, every other field reads as in the record, and every object
    that existed before the call, the stored record among them, holds
    what it held.  The value is the one the handler [get_scan] computes on
    the values of the list. *)
Lemma get_scan_copy (str_other : json -> pystr) (cells : gmap Refs.loc json)
    (refs : list Refs.loc) (scan_id : pystr) :
  Forall (fun r => exists d, cells !! r = Some (JObj d) /\ has_path_fields d = true) refs ->
  Exists (fun r => exists d, cells !! r = Some (JObj d) /\ has_id scan_id (JObj d) = true)
    refs ->
  exists r d new d' pre_op during_op outcome,
    r ∈ refs
    /\ cells !! r = Some (JObj d)
    /\ has_id scan_id (JObj d) = true
    /\ dict_get (py "pre_op_path") d = Some pre_op
    /\ dict_get (py "during_op_path") d = Some during_op
    /\ dict_get (py "result_path") d = Some outcome
    /\ Refs.get_scan str_other scan_id refs cells = (Ok new, <[new := JObj d']> cells)
    /\ cells !! new = None
    /\ dict_get (py "pre_op_url") d' = Some (file_url str_other pre_op)
    /\ dict_get (py "during_op_url") d' = Some (file_url str_other during_op)
    /\ dict_get (py "result_url") d' = Some (file_url str_other outcome)
    /\ (forall key, key ∉ url_keys -> dict_get key d' = dict_get key d)
    /\ (forall l, is_Some (cells !! l) -> <[new := JObj d']> cells !! l = cells !! l)
    /\ find_scan str_other scan_id (Refs.deref cells refs) = Ok (JObj d').
Proof.
  induction refs as [|r refs IH]; intros Hrecords Hfound.
  - by apply Exists_nil in Hfound.
  - apply Forall_cons in Hrecords as [(d & Hr & Hpaths) Hrecords].
    cbn [Refs.get_scan Refs.deref map]. rewrite Hr.
    cbn [find_scan default from_option id py_get rbind]. fold (Refs.deref cells refs).
    destruct (eq_str (dict_get (py "id") d) scan_id) eqn:Hid.
    + destruct (with_urls_ok str_other d Hpaths)
        as (pre_op & during_op & outcome & Hpre & Hduring & Hres & Hurls).
      assert (Hfresh : cells !! fresh (dom cells) = None)
        by apply not_elem_of_dom, is_fresh.
      unfold Refs.copy_dict. cbn [rbind]. rewrite (add_urls_new _ _ _ _ _ Hurls), Hurls.
      cbn [rbind].
      eexists r, d, _, _, pre_op, during_op, outcome.
      split; [by left|]. do 5 (split; [assumption|]). split; [reflexivity|].
      split; [assumption|].
      split; [by rewrite dict_get_set_ne, dict_get_set_ne, dict_get_set_eq by discriminate|].
      split; [by rewrite dict_get_set_ne, dict_get_set_eq by discriminate|].
      split; [by rewrite dict_get_set_eq|].
      split; [|split; [|reflexivity]].
      * intros key Hkey. unfold url_keys in Hkey.
        rewrite !dict_get_set_ne; [reflexivity|..]; intros <-; apply Hkey; set_solver.
      * intros l [v Hl]. apply lookup_insert_ne. intros <-. congruence.
    + assert (Hfound' : Exists (fun r => exists d, cells !! r = Some (JObj d)
                                         /\ has_id scan_id (JObj d) = true) refs).
      { apply Exists_cons in Hfound as [(d0 & Hr0 & Hid0)|Hrest]; [|assumption].
        rewrite Hr in Hr0. injection Hr0 as <-.
        unfold has_id, field_is in Hid0. congruence. }
      destruct (IH Hrecords Hfound')
        as (r' & d0 & new & d' & pre_op & during_op & outcome & Hin & Hrest).
      exists r', d0, new, d', pre_op, during_op, outcome.
      split; [by right|]. exact Hrest.
Qed.


(** ** C5: the snapshot read back *)

(** *** Numbers *)

Lemma ends_value_number (rest : pystr) : ends_value rest = true -> ends_number rest = true.
Proof.
  destruct rest as [|c rest]; [done|]. cbn [ends_value ends_number].
  rewrite !orb_true_iff, !N.eqb_eq. intros [[-> | ->] | ->]; reflexivity.
Qed.

Lemma ends_number_digit (c : N) (rest : pystr) :
  ends_number (c :: rest) = true -> is_digit c = false.
Proof.
  cbn [ends_number]. rewrite negb_true_iff, !orb_false_iff. tauto.
Qed.

(** Appending text that cannot continue a number leaves each scanner's
    result as it was. *)
Lemma span_digits_app (s rest : pystr) :
  ends_number rest = true ->
  span_digits (s ++ rest) = (fst (span_digits s), snd (span_digits s) ++ rest).
Proof.
  intros Hrest. induction s as [|c s IH]; cbn [app span_digits].
  - destruct rest as [|c rest]; [reflexivity|].
    cbn [span_digits]. by rewrite (ends_number_digit _ _ Hrest).
  - destruct (is_digit c); [|reflexivity].
    rewrite IH. by destruct (span_digits s).
Qed.

Lemma scan_int_part_app (s rest ipart r : pystr) :
  ends_number rest = true ->
  scan_int_part s = Some (ipart, r) ->
  scan_int_part (s ++ rest) = Some (ipart, r ++ rest).
Proof.
  intros Hrest. destruct s as [|d s]; [discriminate|]. cbn [app scan_int_part].
  destruct (is_digit d); [|discriminate].
  destruct (d =? 48)%N; [by intros [= <- <-]|].
  rewrite (span_digits_app _ _ Hrest). destruct (span_digits s). by intros [= <- <-].
Qed.

Lemma scan_frac_app (s rest : pystr) :
  ends_number rest = true ->
  scan_frac (s ++ rest) = (fst (scan_frac s), snd (scan_frac s) ++ rest).
Proof.
  intros Hrest. destruct s as [|dot [|d s]]; cbn [app].
  - destruct rest as [|c [|c' rest]]; try reflexivity. cbn [scan_frac].
    cbn [ends_number] in Hrest. rewrite negb_true_iff, !orb_false_iff in Hrest.
    destruct Hrest as [[[[[_ Hdot] _] _] _] _]. by rewrite Hdot.
  - destruct rest as [|c rest]; [reflexivity|]. cbn [scan_frac].
    rewrite (ends_number_digit _ _ Hrest). by rewrite andb_false_r.
  - cbn [scan_frac]. destruct ((dot =? 46)%N && is_digit d); [|reflexivity].
    rewrite (span_digits_app _ _ Hrest). by destruct (span_digits s).
Qed.

Lemma scan_exp_app (s rest : pystr) :
  ends_number rest = true ->
  scan_exp (s ++ rest) = (fst (scan_exp s), snd (scan_exp s) ++ rest).
Proof.
  intros Hrest. destruct s as [|e s]; cbn [app].
  - destruct rest as [|c rest]; [reflexivity|]. cbn [scan_exp].
    cbn [ends_number] in Hrest. rewrite negb_true_iff, !orb_false_iff in Hrest.
    destruct Hrest as [[[[[_ _] He] HE] _] _]. by rewrite He, HE.
  - cbn [scan_exp]. destruct ((e =? 101) || (e =? 69))%N; [|reflexivity].
    destruct s as [|c s]; cbn [app].
    + destruct rest as [|c rest]; [reflexivity|].
      pose proof (ends_number_digit _ _ Hrest) as Hdigit.
      cbn [ends_number] in Hrest. rewrite negb_true_iff, !orb_false_iff in Hrest.
      destruct Hrest as [[[[[_ _] _] _] Hplus] Hminus]. rewrite Hplus, Hminus.
      cbn [orb span_digits]. by rewrite Hdigit.
    + destruct ((c =? 45) || (c =? 43))%N.
      * rewrite (span_digits_app _ _ Hrest). destruct (span_digits s) as [[|d ds] r]; reflexivity.
      * change (c :: s ++ rest) with ((c :: s) ++ rest).
        rewrite (span_digits_app (c :: s) _ Hrest).
        destruct (span_digits (c :: s)) as [[|d ds] r]; reflexivity.
Qed.

Lemma scan_number_app (s rest r : pystr) (v : json) :
  ends_number rest = true ->
  scan_number s = Some (v, r) ->
  scan_number (s ++ rest) = Some (v, r ++ rest).
Proof.
  intros Hrest. unfold scan_number.
  destruct s as [|c s]; [discriminate|]. cbn [app].
  destruct (c =? 45)%N.
  - destruct (scan_int_part s) as [[ipart r1]|] eqn:Hint; [|discriminate].
    rewrite (scan_int_part_app _ _ _ _ Hrest Hint), (scan_frac_app _ _ Hrest).
    destruct (scan_frac r1) as [frac r2]. cbn [fst snd].
    rewrite (scan_exp_app _ _ Hrest). destruct (scan_exp r2) as [exp r3]. cbn [fst snd].
    destruct frac, exp; by intros [= <- <-].
  - destruct (scan_int_part (c :: s)) as [[ipart r1]|] eqn:Hint; [|discriminate].
    change (c :: s ++ rest) with ((c :: s) ++ rest).
    rewrite (scan_int_part_app (c :: s) _ _ _ Hrest Hint), (scan_frac_app _ _ Hrest).
    destruct (scan_frac r1) as [frac r2]. cbn [fst snd].
    rewrite (scan_exp_app _ _ Hrest). destruct (scan_exp r2) as [exp r3]. cbn [fst snd].
    destruct frac, exp; by intros [= <- <-].
Qed.

(** A text the number grammar accepts starts with a digit, or with a minus
    sign and a digit. *)
Lemma scan_number_head (s r : pystr) (v : json) :
  scan_number s = Some (v, r) ->
  exists c s', s = c :: s'
    /\ (is_digit c = true \/ c = 45%N /\ exists d s'', s' = d :: s'' /\ is_digit d = true).
Proof.
  unfold scan_number. destruct s as [|c s]; [discriminate|].
  destruct (c =? 45)%N eqn:Hc.
  - apply N.eqb_eq in Hc as ->. destruct s as [|d s]; [discriminate|].
    cbn [scan_int_part]. destruct (is_digit d) eqn:Hd; [|discriminate].
    intros _. eexists _, _. split; [reflexivity|]. right. eauto.
  - cbn [scan_int_part]. destruct (is_digit c) eqn:Hd; [|discriminate].
    intros _. eexists _, _. split; [reflexivity|]. by left.
Qed.

Lemma uint_chars_digits (d : uint) : forallb is_digit (uint_chars d) = true.
Proof. induction d; cbn [uint_chars forallb]; try reflexivity; by rewrite IHd. Qed.

Lemma chars_uint_chars (d : uint) : chars_uint (uint_chars d) = d.
Proof.
  unfold chars_uint. induction d; cbn [uint_chars fold_right]; try reflexivity;
    by rewrite IHd.
Qed.

(** A run of digits at the end of the text is read whole. *)
Lemma span_digits_all (ds : pystr) :
  forallb is_digit ds = true -> span_digits ds = (ds, []).
Proof.
  induction ds as [|c ds IH]; [reflexivity|]. cbn [forallb span_digits].
  intros [Hc Hds]%andb_true_iff. by rewrite Hc, (IH Hds).
Qed.

(** The decimal digits of a number have no leading zero. *)
Lemma to_uint_normal (n : N) :
  N.to_uint n = D0 Nil \/ (N.to_uint n <> Nil /\ forall d, N.to_uint n <> D0 d).
Proof.
  assert (Hnorm : N.to_uint n = unorm (N.to_uint n)).
  { rewrite <- DecimalN.Unsigned.to_of. by rewrite DecimalN.Unsigned.of_to. }
  unfold unorm in Hnorm. destruct (nzhead (N.to_uint n)) eqn:Hhead;
    try (right; rewrite Hnorm; split; [discriminate|]; intros d' Heq;
         apply (nzhead_nonzero (N.to_uint n) d'); congruence).
  by left.
Qed.

(** The text of an integer reads back as the integer. *)
Lemma scan_int_str (z : Z) : scan_number (int_str z) = Some (JInt z, []).
Proof.
  assert (Hdigits : forall n : N,
    exists c ds, uint_chars (N.to_uint n) = c :: ds
      /\ scan_int_part (c :: ds) = Some (c :: ds, [])
      /\ is_digit c = true).
  { intros n. pose proof (uint_chars_digits (N.to_uint n)) as Hall.
    destruct (to_uint_normal n) as [H0|[Hnil Hnz]].
    - rewrite H0. by exists 48%N, [].
    - destruct (N.to_uint n) as [|d|d|d|d|d|d|d|d|d|d]; [done|by destruct (Hnz d)|..];
        cbn [uint_chars forallb] in *; eexists _, _; (split; [reflexivity|]);
        cbn [scan_int_part is_digit N.leb N.compare Pos.compare Pos.compare_cont andb N.eqb
             Pos.eqb];
        rewrite (span_digits_all _ Hall); by split. }
  unfold int_str. destruct (Hdigits (Z.abs_N z)) as (c & ds & Hchars & Hscan & Hc).
  pose proof (chars_uint_chars (N.to_uint (Z.abs_N z))) as Hback. rewrite Hchars in *.
  unfold scan_number. destruct (z <? 0)%Z eqn:Hneg; cbn [app].
  - cbn [N.eqb Pos.eqb]. rewrite Hscan. cbn [scan_frac scan_exp].
    rewrite Hback, DecimalN.Unsigned.of_to. do 3 f_equal. apply Z.ltb_lt in Hneg. lia.
  - assert (Hnot : (c =? 45)%N = false).
    { apply N.eqb_neq. intros ->. discriminate Hc. }
    rewrite Hnot, Hscan. cbn [scan_frac scan_exp].
    rewrite Hback, DecimalN.Unsigned.of_to. do 3 f_equal. apply Z.ltb_ge in Hneg. lia.
Qed.

(** *** Strings *)

Lemma below_succ (n : N) : below (N.succ n) = n :: below n.
Proof. unfold below. by rewrite N.peano_rect_succ. Qed.

Lemma below_in (c n : N) : (c < n)%N -> In c (below n).
Proof.
  induction n as [|n IH] using N.peano_ind; [lia|].
  rewrite below_succ. intros Hlt.
  destruct (N.eq_dec c n) as [->|Hne]; [by left|]. right. apply IH. lia.
Qed.

Lemma hex_checked : forallb hex_reads_back (below 65536) = true.
Proof. vm_compute. reflexivity. Qed.

Lemma blocks_checked : forallb block_reads_back (below 1024) = true.
Proof. vm_compute. reflexivity. Qed.

(** The digits of a [\uXXXX] escape read back as the number escaped. *)
Lemma hex4_escape (c : N) :
  (c < 65536)%N ->
  hex4 (hex_digit (N.shiftr c 12 mod 16)) (hex_digit (N.shiftr c 8 mod 16))
    (hex_digit (N.shiftr c 4 mod 16)) (hex_digit (c mod 16)) = Some c.
Proof.
  intros Hc. pose proof hex_checked as Hall. rewrite forallb_forall in Hall.
  specialize (Hall c (below_in _ _ Hc)). unfold hex_reads_back in Hall.
  destruct (hex4 _ _ _ _) as [c'|]; [|discriminate].
  by apply N.eqb_eq in Hall as ->.
Qed.

(** The two surrogates of a character above the basic plane. *)
Lemma surrogates_of (c : N) :
  (65536 <= c)%N -> (c < 1114112)%N ->
  is_high_surrogate (N.lor 55296 (N.land (N.shiftr (c - 65536) 10) 1023)) = true
  /\ is_low_surrogate (N.lor 56320 (N.land (c - 65536) 1023)) = true
  /\ join_surrogate_pair (N.lor 55296 (N.land (N.shiftr (c - 65536) 10) 1023))
       (N.lor 56320 (N.land (c - 65536) 1023)) = c.
Proof.
  intros Hlo Hhi. set (n := (c - 65536)%N).
  assert (Hn : (n = 1024 * (n / 1024) + n mod 1024)%N) by (apply N.div_mod; lia).
  assert (Ha : (n / 1024 < 1024)%N) by (apply N.Div0.div_lt_upper_bound; lia).
  assert (Hb : (n mod 1024 < 1024)%N) by (apply N.mod_lt; lia).
  pose proof blocks_checked as Hall. rewrite forallb_forall in Hall.
  specialize (Hall _ (below_in _ _ Ha)). unfold block_reads_back in Hall.
  rewrite forallb_forall in Hall. specialize (Hall _ (below_in _ _ Hb)).
  rewrite <- Hn in Hall. unfold pair_reads_back in Hall.
  apply andb_true_iff in Hall as [[Hhigh Hlow]%andb_true_iff Hjoin].
  apply N.eqb_eq in Hjoin. split; [exact Hhigh|]. split; [exact Hlow|].
  rewrite Hjoin. subst n. lia.
Qed.

Lemma high_surrogate_range (u : N) :
  is_high_surrogate u = true -> (u < 65536)%N /\ is_low_surrogate u = false.
Proof.
  unfold is_high_surrogate, is_low_surrogate.
  rewrite andb_true_iff, andb_false_iff, !N.leb_le, !N.leb_gt. lia.
Qed.

Lemma low_surrogate_range (u : N) : is_low_surrogate u = true -> (u < 65536)%N.
Proof. unfold is_low_surrogate. rewrite andb_true_iff, !N.leb_le. lia. Qed.

(** One escape sequence in front of a text is read as one item. *)
Lemma scan_items_escape_u (c : N) (tail : pystr) :
  (c < 65536)%N ->
  scan_items (escape_u c ++ tail) = cons_item (Esc c) (scan_items tail).
Proof.
  intros Hc. unfold escape_u. cbn [app scan_items].
  change (ch "\" =? 34)%N with false. change (ch "\" =? 92)%N with true.
  change (ch "u" =? 117)%N with true. cbv iota. by rewrite (hex4_escape _ Hc).
Qed.

(** The escaped form of a character in front of a text is read as the
    items of the character. *)
Lemma scan_items_char (c : N) (tail : pystr) :
  (c < 1114112)%N ->
  scan_items (escape_char c ++ tail)
  = fold_right cons_item (scan_items tail) (char_items c).
Proof.
  intros Hc. unfold escape_char, char_items.
  destruct (c =? 34)%N eqn:H34; [apply N.eqb_eq in H34 as ->; reflexivity|].
  destruct (c =? 92)%N eqn:H92; [apply N.eqb_eq in H92 as ->; reflexivity|].
  destruct (c =? 10)%N eqn:H10; [apply N.eqb_eq in H10 as ->; reflexivity|].
  destruct (c =? 13)%N eqn:H13; [apply N.eqb_eq in H13 as ->; reflexivity|].
  destruct (c =? 9)%N eqn:H9; [apply N.eqb_eq in H9 as ->; reflexivity|].
  destruct (c =? 8)%N eqn:H8; [apply N.eqb_eq in H8 as ->; reflexivity|].
  destruct (c =? 12)%N eqn:H12; [apply N.eqb_eq in H12 as ->; reflexivity|].
  cbn [orb].
  destruct ((32 <=? c) && (c <=? 126))%N eqn:Hprint.
  - cbn [app scan_items fold_right]. rewrite H34, H92.
    apply andb_true_iff in Hprint as [Hge _]. apply N.leb_le in Hge.
    assert (Hctl : (c <? 32)%N = false) by (apply N.ltb_ge; lia).
    by rewrite Hctl.
  - destruct (c <? 65536)%N eqn:Hbmp.
    + apply N.ltb_lt in Hbmp. cbn [fold_right]. by apply scan_items_escape_u.
    + apply N.ltb_ge in Hbmp.
      destruct (surrogates_of c Hbmp Hc) as (Hhigh & Hlow & _).
      apply high_surrogate_range in Hhigh as [Hhigh _].
      apply low_surrogate_range in Hlow.
      rewrite <- app_assoc, (scan_items_escape_u _ _ Hhigh), (scan_items_escape_u _ _ Hlow).
      reflexivity.
Qed.

(** The escaped form of a string, closed by a quote, is read as the items
    of its characters. *)
Lemma scan_items_escaped (s rest : pystr) :
  forallb (fun c => (c <? 1114112)%N) s = true ->
  scan_items (flat_map escape_char s ++ 34%N :: rest) = Some (flat_map char_items s, rest).
Proof.
  induction s as [|c s IH]; [reflexivity|]. cbn [forallb flat_map].
  intros [Hc Hs]%andb_true_iff. apply N.ltb_lt in Hc.
  rewrite <- app_assoc, (scan_items_char _ _ Hc), (IH Hs).
  induction (char_items c) as [|i l IHl]; [reflexivity|].
  cbn [fold_right app]. by rewrite IHl.
Qed.

(** The first item of a character, when it is an escape, is the character
    itself or is not a low surrogate. *)
Lemma char_items_head (d : N) (tail : list str_item) :
  (d < 1114112)%N ->
  match char_items d ++ tail with
  | Esc v :: _ => v = d \/ is_low_surrogate v = false
  | _ => True
  end.
Proof.
  intros Hd. unfold char_items.
  destruct (_ || _)%N; [done|].
  destruct (_ && _)%N; [done|].
  destruct (d <? 65536)%N eqn:Hbmp; [by left|].
  apply N.ltb_ge in Hbmp. destruct (surrogates_of d Hbmp Hd) as (Hhigh & _).
  right. by apply high_surrogate_range in Hhigh as [_ ?].
Qed.

(** Joining the surrogates among the items of a valid string gives back
    the string. *)
Lemma join_surrogates_items (s : pystr) :
  str_ok s = true -> join_surrogates (flat_map char_items s) = s.
Proof.
  unfold str_ok. intros [Hrange Hpairs]%andb_true_iff.
  induction s as [|c s IH]; [reflexivity|].
  cbn [forallb] in Hrange. apply andb_true_iff in Hrange as [Hc Hrange].
  apply N.ltb_lt in Hc.
  cbn [no_surrogate_pair] in Hpairs. apply andb_true_iff in Hpairs as [Hpair Hpairs].
  specialize (IH Hrange Hpairs). cbn [flat_map].
  unfold char_items at 1.
  destruct (_ || _)%N; [cbn [app join_surrogates]; by rewrite IH|].
  destruct (_ && _)%N; [cbn [app join_surrogates]; by rewrite IH|].
  destruct (c <? 65536)%N eqn:Hbmp.
  - cbn [app join_surrogates]. rewrite IH.
    destruct s as [|d s]; [reflexivity|].
    cbn [forallb] in Hrange. apply andb_true_iff in Hrange as [Hd _].
    apply N.ltb_lt in Hd. cbn [flat_map].
    pose proof (char_items_head d (flat_map char_items s) Hd) as Hhead.
    destruct (char_items d ++ flat_map char_items s) as [|[v|v] tail]; try reflexivity.
    destruct (is_high_surrogate c && is_low_surrogate v) eqn:Hjoin; [|reflexivity].
    exfalso. apply andb_true_iff in Hjoin as [Hhigh Hlow].
    destruct Hhead as [->|Hnot]; [|congruence].
    rewrite Hhigh, Hlow in Hpair. discriminate Hpair.
  - apply N.ltb_ge in Hbmp.
    destruct (surrogates_of c Hbmp Hc) as (Hhigh & Hlow & Hjoin).
    cbn [app join_surrogates]. by rewrite Hhigh, Hlow, Hjoin, IH.
Qed.

(** The quoted form of a valid string reads back as the string. *)
Lemma scan_string_encoded (s rest : pystr) :
  str_ok s = true ->
  exists body, encode_str s ++ rest = 34%N :: body /\ scan_string body = Some (s, rest).
Proof.
  intros Hok. exists (flat_map escape_char s ++ 34%N :: rest). split.
  - unfold encode_str. cbn [app]. by rewrite <- app_assoc.
  - unfold scan_string. unfold str_ok in Hok. apply andb_true_iff in Hok as Hboth.
    destruct Hboth as [Hrange _].
    by rewrite (scan_items_escaped _ _ Hrange), (join_surrogates_items _ Hok).
Qed.

(** *** Dictionaries read from pairs *)

Lemma dict_set_fresh (key : pystr) (value : json) (d : pydict) :
  key ∉ map fst d -> dict_set key value d = d ++ [(key, value)].
Proof.
  induction d as [|[k v] d IH]; [reflexivity|]. cbn [map fst dict_set app].
  intros Hfresh. apply not_elem_of_cons in Hfresh as [Hne Hfresh].
  assert (Hk : pystr_eqb k key = false) by (apply pystr_eqb_neq; congruence).
  by rewrite Hk, (IH Hfresh).
Qed.

Lemma fold_dict_set (fields acc : pydict) :
  NoDup (map fst (acc ++ fields)) ->
  fold_left (fun d kv => dict_set (fst kv) (snd kv) d) fields acc = acc ++ fields.
Proof.
  revert acc. induction fields as [|[k v] fields IH]; intros acc Hnodup.
  - by rewrite app_nil_r.
  - cbn [fold_left fst snd].
    assert (Hfresh : k ∉ map fst acc).
    { rewrite map_app in Hnodup. apply NoDup_app in Hnodup as (_ & Hdisj & _).
      intros Hin. apply (Hdisj k Hin). cbn [map fst]. by left. }
    rewrite (dict_set_fresh _ _ _ Hfresh).
    rewrite IH; rewrite <- app_assoc; [reflexivity|exact Hnodup].
Qed.

(** A dictionary is what its own items build. *)
Lemma dict_of_pairs_nodup (fields : pydict) :
  NoDup (map fst fields) -> dict_of_pairs fields = fields.
Proof. intros Hnodup. unfold dict_of_pairs. by rewrite fold_dict_set. Qed.

(** *** Values *)

(** The parser reads a number wherever the number grammar accepts the
    text. *)
Lemma parse_value_number (s r : pystr) (v : json) (n : nat) :
  scan_number s = Some (v, r) -> parse_value (S n) s = Some (v, r).
Proof.
  intros Hscan. destruct (scan_number_head _ _ _ Hscan) as (c & s' & -> & Hhead).
  cbn [parse_value].
  destruct Hhead as [Hdigit|[-> (d & s'' & -> & Hdigit)]].
  - unfold is_digit in Hdigit. apply andb_true_iff in Hdigit as [Hlo Hhi].
    apply N.leb_le in Hlo, Hhi.
    assert (Hne : forall k, (k < 48 \/ 57 < k)%N -> (c =? k)%N = false)
      by (intros k Hk; apply N.eqb_neq; lia).
    rewrite !Hne by lia.
    unfold scan_constant. cbn [py strip_prefix].
    assert (Hminus : (ch "-" =? c)%N = false) by (apply N.eqb_neq; cbn; lia).
    by rewrite Hminus.
  - cbn [N.eqb Pos.eqb]. unfold scan_constant. cbn [py strip_prefix].
    change (ch "-" =? 45)%N with true. cbv iota.
    unfold is_digit in Hdigit. apply andb_true_iff in Hdigit as [Hlo Hhi].
    apply N.leb_le in Hlo, Hhi.
    assert (HI : (ch "I" =? d)%N = false) by (apply N.eqb_neq; cbn; lia).
    by rewrite HI.
Qed.

(** The first character of the text of a value. *)
Lemma json_dumps_head (v : json) :
  json_ok v = true -> exists c r, json_dumps v = c :: r /\ value_start c = true.
Proof.
  destruct v as [|[]|z|lit|s|items|fields]; cbn [json_ok json_dumps]; intros Hok;
    try (eexists _, _; split; [reflexivity|reflexivity]).
  - destruct (scan_number_head _ _ _ (scan_int_str z)) as (c & s' & Heq & Hhead).
    exists c, s'. split; [exact Heq|].
    destruct Hhead as [Hdigit|[-> _]]; [|reflexivity].
    unfold is_digit in Hdigit. apply andb_true_iff in Hdigit as [Hlo Hhi].
    apply N.leb_le in Hlo, Hhi. unfold value_start, is_ws.
    assert (Hne : forall k, (k < 48 \/ 57 < k)%N -> (c =? k)%N = false)
      by (intros k Hk; apply N.eqb_neq; lia).
    by rewrite !Hne by lia.
  - unfold float_text in Hok. rewrite !orb_true_iff in Hok.
    destruct Hok as [[[Hscan|Hnan]|Hinf]|Hninf].
    + destruct (scan_number lit) as [[[] r]|] eqn:Hnum; try discriminate Hscan.
      destruct (scan_number_head _ _ _ Hnum) as (c & s' & Heq & Hhead).
      exists c, s'. split; [exact Heq|].
      destruct Hhead as [Hdigit|[-> _]]; [|reflexivity].
      unfold is_digit in Hdigit. apply andb_true_iff in Hdigit as [Hlo Hhi].
      apply N.leb_le in Hlo, Hhi. unfold value_start, is_ws.
      assert (Hne : forall k, (k < 48 \/ 57 < k)%N -> (c =? k)%N = false)
        by (intros k Hk; apply N.eqb_neq; lia).
      by rewrite !Hne by lia.
    + apply pystr_eqb_eq in Hnan as ->. by eexists _, _.
    + apply pystr_eqb_eq in Hinf as ->. by eexists _, _.
    + apply pystr_eqb_eq in Hninf as ->. by eexists _, _.
Qed.

Lemma skip_ws_start (c : N) (r : pystr) :
  value_start c = true -> skip_ws (c :: r) = c :: r.
Proof.
  unfold value_start. rewrite !andb_true_iff, !negb_true_iff. intros [[Hws _] _].
  cbn [skip_ws]. by rewrite Hws.
Qed.

Lemma skip_ws_value (v : json) (rest : pystr) :
  json_ok v = true -> skip_ws (json_dumps v ++ rest) = json_dumps v ++ rest.
Proof.
  intros Hok. destruct (json_dumps_head v Hok) as (c & r & -> & Hstart).
  by apply skip_ws_start.
Qed.

(** The text of a float reads back as the float. *)
Lemma parse_value_float (lit rest : pystr) (n : nat) :
  float_text lit = true -> ends_value rest = true ->
  parse_value (S n) (lit ++ rest) = Some (JFloat lit, rest).
Proof.
  intros Hok Hrest. unfold float_text in Hok. rewrite !orb_true_iff in Hok.
  destruct Hok as [[[Hscan|Hnan]|Hinf]|Hninf].
  - destruct (scan_number lit) as [[[| | |l| | |] [|c r]]|] eqn:Hnum; try discriminate Hscan.
    apply pystr_eqb_eq in Hscan as ->.
    apply parse_value_number.
    by rewrite (scan_number_app _ _ _ _ (ends_value_number _ Hrest) Hnum).
  - by apply pystr_eqb_eq in Hnan as ->.
  - by apply pystr_eqb_eq in Hinf as ->.
  - by apply pystr_eqb_eq in Hninf as ->.
Qed.

Lemma join_head (sep p r : pystr) (ps : list pystr) :
  exists t, join sep (p :: ps) ++ r = p ++ t.
Proof.
  destruct ps as [|q ps]; cbn [join]; [by exists r|].
  rewrite <- !app_assoc. by eexists.
Qed.

Lemma join_cons2 (sep p q : pystr) (ps : list pystr) :
  join sep (p :: q :: ps) = p ++ sep ++ join sep (q :: ps).
Proof. reflexivity. Qed.

(** The elements of a non-empty array, up to the closing bracket. *)
Lemma parse_items_dumps (items : list json) :
  items <> [] ->
  Forall reads_back items ->
  forallb json_ok items = true ->
  forall (fuel : nat) (rest : pystr),
    list_sum (map (fun x => S (weight x)) items) <= fuel ->
    parse_items fuel (join (py ", ") (map json_dumps items) ++ 93%N :: rest)
    = Some (items, rest).
Proof.
  induction items as [|x items IH]; [done|]. intros _ Hall Hok fuel rest Hfuel.
  apply Forall_cons in Hall as [Hx Hall].
  cbn [forallb] in Hok. apply andb_true_iff in Hok as [Hxok Hok].
  change (S (weight x) + list_sum (map (fun x => S (weight x)) items) <= fuel) in Hfuel.
  destruct fuel as [|n]; [lia|]. cbn [parse_items].
  destruct items as [|y items].
  - cbn [map join]. rewrite (Hx Hxok n (93%N :: rest)) by first [lia|reflexivity].
    reflexivity.
  - cbn [map]. rewrite join_cons2, <- !app_assoc.
    change (json_dumps y :: map json_dumps items) with (map json_dumps (y :: items)).
    assert (Hskip : skip_ws (join (py ", ") (map json_dumps (y :: items)) ++ 93%N :: rest)
                    = join (py ", ") (map json_dumps (y :: items)) ++ 93%N :: rest).
    { cbn [map]. destruct (join_head (py ", ") (json_dumps y) (93%N :: rest)
                             (map json_dumps items)) as [t ->].
      cbn [forallb] in Hok. apply andb_true_iff in Hok as [Hyok _].
      by apply skip_ws_value. }
    specialize (IH ltac:(done) Hall Hok n rest ltac:(lia)).
    remember (join (py ", ") (map json_dumps (y :: items)) ++ 93%N :: rest) as tail.
    change (py ", " ++ tail) with (44%N :: 32%N :: tail).
    rewrite (Hx Hxok n) by first [lia|reflexivity].
    change (skip_ws (44%N :: 32%N :: tail)) with (44%N :: 32%N :: tail). cbv iota.
    change (44 =? 93)%N with false. change (44 =? 44)%N with true. cbv iota.
    change (skip_ws (32%N :: tail)) with (skip_ws tail).
    by rewrite Hskip, IH.
Qed.

(** The members of a non-empty object, up to the closing brace. *)
Lemma parse_members_dumps (fields : pydict) :
  fields <> [] ->
  Forall (fun kv => reads_back (snd kv)) fields ->
  forallb (fun kv => str_ok (fst kv) && json_ok (snd kv)) fields = true ->
  forall (fuel : nat) (rest : pystr),
    list_sum (map (fun kv => S (weight (snd kv))) fields) <= fuel ->
    parse_members fuel (join (py ", ") (map member_text fields) ++ 125%N :: rest)
    = Some (fields, rest).
Proof.
  induction fields as [|[k v] fields IH]; [done|]. intros _ Hall Hok fuel rest Hfuel.
  apply Forall_cons in Hall as [Hv Hall]. cbn [snd] in Hv.
  cbn [forallb fst snd] in Hok. apply andb_true_iff in Hok as [Hkv Hok].
  apply andb_true_iff in Hkv as [Hkok Hvok].
  change (S (weight v) + list_sum (map (fun kv => S (weight (snd kv))) fields) <= fuel)
    in Hfuel.
  destruct fuel as [|n]; [lia|].
  assert (Hone : forall tail : pystr,
    ends_value tail = true ->
    parse_members (S n) (member_text (k, v) ++ tail)
    = match skip_ws tail with
      | c :: r4 =>
          if (c =? 125)%N then Some ([(k, v)], r4)
          else if (c =? 44)%N then
            match parse_members n (skip_ws r4) with
            | Some (kvs, rest0) => Some ((k, v) :: kvs, rest0)
            | None => None
            end
          else None
      | [] => None
      end).
  { intros tail Htail. unfold member_text. cbn [fst snd]. rewrite <- !app_assoc.
    destruct (scan_string_encoded k (py ": " ++ json_dumps v ++ tail) Hkok)
      as (body & -> & Hbody).
    cbn [parse_members]. change (34 =? 34)%N with true. cbv iota. rewrite Hbody.
    change (py ": " ++ json_dumps v ++ tail) with (58%N :: 32%N :: json_dumps v ++ tail).
    change (skip_ws (58%N :: 32%N :: json_dumps v ++ tail))
      with (58%N :: 32%N :: json_dumps v ++ tail).
    cbv iota. change (58 =? 58)%N with true. cbv iota.
    change (skip_ws (32%N :: json_dumps v ++ tail)) with (skip_ws (json_dumps v ++ tail)).
    rewrite (skip_ws_value _ _ Hvok), (Hv Hvok n tail) by first [lia|assumption].
    reflexivity. }
  destruct fields as [|kv' fields].
  - cbn [map join]. by rewrite Hone.
  - cbn [map]. rewrite join_cons2, <- !app_assoc.
    change (member_text kv' :: map member_text fields)
      with (map member_text (kv' :: fields)).
    assert (Hskip : skip_ws (join (py ", ") (map member_text (kv' :: fields))
                               ++ 125%N :: rest)
                    = join (py ", ") (map member_text (kv' :: fields)) ++ 125%N :: rest).
    { cbn [map]. destruct (join_head (py ", ") (member_text kv') (125%N :: rest)
                             (map member_text fields)) as [t ->].
      unfold member_text, encode_str. reflexivity. }
    specialize (IH ltac:(done) Hall Hok n rest ltac:(lia)).
    remember (join (py ", ") (map member_text (kv' :: fields)) ++ 125%N :: rest) as tail.
    change (py ", " ++ tail) with (44%N :: 32%N :: tail).
    rewrite Hone by reflexivity.
    change (skip_ws (44%N :: 32%N :: tail)) with (44%N :: 32%N :: tail). cbv iota.
    change (44 =? 125)%N with false. change (44 =? 44)%N with true. cbv iota.
    change (skip_ws (32%N :: tail)) with (skip_ws tail).
    by rewrite Hskip, IH.
Qed.

(** [json.loads] inverts [json.dumps] on every well-formed value: the
    text of the value, followed by what may follow a value, is read back
    as the value. *)
Lemma parse_value_dumps (v : json) : reads_back v.
Proof.
  induction v as [| b | z | lit | s | items IH | fields IH] using json_induction;
    intros Hok fuel rest Hfuel Hrest;
    (destruct fuel as [|n]; [cbn [weight] in Hfuel; lia|]).
  - reflexivity.
  - by destruct b.
  - cbn [json_dumps]. apply parse_value_number.
    by rewrite (scan_number_app _ _ _ _ (ends_value_number _ Hrest) (scan_int_str z)).
  - cbn [json_dumps]. by apply parse_value_float.
  - cbn [json_dumps json_ok] in *.
    destruct (scan_string_encoded s rest Hok) as (body & -> & Hbody).
    cbn [parse_value]. change (34 =? 34)%N with true. cbv iota. by rewrite Hbody.
  - cbn [json_dumps json_ok weight] in *. cbn [app]. rewrite <- app_assoc. cbn [app].
    cbn [parse_value]. change (91 =? 34)%N with false. change (91 =? 123)%N with false.
    change (91 =? 91)%N with true. cbv iota.
    destruct items as [|x items]; [reflexivity|].
    pose proof (parse_items_dumps (x :: items) ltac:(done) IH Hok n rest ltac:(lia))
      as Hitems.
    cbn [map] in *. 
    destruct (join_head (py ", ") (json_dumps x) (93%N :: rest) (map json_dumps items))
      as [t Ht].
    cbn [forallb] in Hok. apply andb_true_iff in Hok as [Hxok _].
    destruct (json_dumps_head x Hxok) as (c & r & Hc & Hstart).
    rewrite Ht, Hc in *. cbn [app] in *. rewrite (skip_ws_start _ _ Hstart).
    unfold value_start in Hstart. rewrite !andb_true_iff, !negb_true_iff in Hstart.
    destruct Hstart as [[_ Hclose] _]. rewrite Hclose. by rewrite Hitems.
  - cbn [json_dumps json_ok weight] in *. cbn [app]. rewrite <- app_assoc. cbn [app].
    cbn [parse_value]. change (123 =? 34)%N with false. change (123 =? 123)%N with true.
    cbv iota.
    destruct fields as [|[k x] fields]; [reflexivity|].
    apply andb_true_iff in Hok as [Hok Hnodup]. apply bool_decide_eq_true in Hnodup.
    pose proof (parse_members_dumps ((k, x) :: fields) ltac:(done) IH Hok n rest ltac:(lia))
      as Hmembers.
    assert (Htext : exists body,
      join (py ", ") (map member_text ((k, x) :: fields)) ++ 125%N :: rest = 34%N :: body).
    { cbn [map]. destruct (join_head (py ", ") (member_text (k, x)) (125%N :: rest)
                             (map member_text fields)) as [t ->].
      unfold member_text, encode_str. cbn [app]. by eexists. }
    destruct Htext as [body Htext]. rewrite Htext in Hmembers.
    match goal with
    | |- context [skip_ws ?text] => replace text with (34%N :: body) by (symmetry; exact Htext)
    end.
    change (skip_ws (34%N :: body)) with (34%N :: body). cbv iota.
    change (34 =? 125)%N with false. cbv iota.
    rewrite Hmembers. by rewrite (dict_of_pairs_nodup _ Hnodup).
Qed.

(** The fuel [json_loads] gives is enough: a value weighs no more than
    its text is long. *)
Lemma weight_le_length (v : json) : json_ok v = true -> weight v <= length (json_dumps v).
Proof.
  induction v as [| b | z | lit | s | items IH | fields IH] using json_induction;
    intros Hok;
    try (destruct (json_dumps_head _ Hok) as (c & r & -> & _); cbn [weight length]; lia).
  - cbn [json_dumps json_ok weight] in *. cbn [length]. rewrite length_app. cbn [length].
    enough (list_sum (map (fun x => S (weight x)) items)
            <= length (join (py ", ") (map json_dumps items)) + 1) by lia.
    induction items as [|x items IHitems]; [cbn; lia|].
    apply Forall_cons in IH as [Hx IH].
    cbn [forallb] in Hok. apply andb_true_iff in Hok as [Hxok Hok].
    specialize (Hx Hxok). specialize (IHitems IH Hok).
    change (list_sum (map (fun x => S (weight x)) (x :: items)))
      with (S (weight x) + list_sum (map (fun x => S (weight x)) items)).
    destruct items as [|y items]; [cbn [map join list_sum fold_right]; clear -Hx; lia|].
    cbn [map]. rewrite join_cons2, !length_app. cbn [map] in IHitems.
    change (length (py ", ")) with 2. clear -Hx IHitems. lia.
  - cbn [json_dumps json_ok weight] in *. cbn [length]. rewrite length_app. cbn [length].
    apply andb_true_iff in Hok as [Hok _].
    enough (Hsum : list_sum (map (fun kv => S (weight (snd kv))) fields)
                   <= length (join (py ", ") (map member_text fields)) + 1)
      by (apply le_n_S; exact Hsum).
    assert (Hmember : forall kv, length (json_dumps (snd kv)) <= length (member_text kv)).
    { intros kv. unfold member_text. rewrite !length_app. lia. }
    induction fields as [|kv fields IHfields]; [cbn; lia|].
    apply Forall_cons in IH as [Hx IH].
    cbn [forallb] in Hok. apply andb_true_iff in Hok as [Hxok Hok].
    apply andb_true_iff in Hxok as [_ Hxok].
    specialize (Hx Hxok). specialize (IHfields IH Hok). specialize (Hmember kv).
    change (list_sum (map (fun kv => S (weight (snd kv))) (kv :: fields)))
      with (S (weight (snd kv)) + list_sum (map (fun kv => S (weight (snd kv))) fields)).
    destruct fields as [|kv' fields];
      [cbn [map join list_sum fold_right]; clear -Hx Hmember; lia|].
    cbn [map]. rewrite join_cons2, !length_app. cbn [map] in IHfields.
    change (length (py ", ")) with 2. clear -Hx IHfields Hmember. lia.
Qed.

(** [json.loads(json.dumps(v)) == v] for every well-formed value. *)
Lemma json_loads_dumps (v : json) : json_ok v = true -> json_loads (json_dumps v) = Ok v.
Proof.
  intros Hok. unfold json_loads.
  pose proof (skip_ws_value v [] Hok) as Hskip. rewrite app_nil_r in Hskip. rewrite Hskip.
  pose proof (parse_value_dumps v Hok (S (length (json_dumps v))) []) as Hparse.
  rewrite app_nil_r in Hparse. rewrite Hparse; [reflexivity| |reflexivity].
  pose proof (weight_le_length v Hok). lia.
Qed.

(** *** What the parser returns is well formed *)

Lemma text_ok_app (a b : pystr) : text_ok (a ++ b) = text_ok a && text_ok b.
Proof. apply forallb_app. Qed.

Lemma text_ok_suffix (r s : pystr) : r `suffix_of` s -> text_ok s = true -> text_ok r = true.
Proof.
  intros [pre ->]. rewrite text_ok_app. by intros [_ ?]%andb_true_iff.
Qed.

(** Text without surrogates is a valid string. *)
Lemma text_ok_str_ok (s : pystr) : text_ok s = true -> str_ok s = true.
Proof.
  unfold text_ok, str_ok. intros Hall. apply andb_true_iff. split.
  - rewrite forallb_forall in *. intros c Hin.
    by apply Hall, andb_true_iff in Hin as [? _].
  - induction s as [|c s IH]; [reflexivity|].
    cbn [forallb] in Hall. apply andb_true_iff in Hall as [Hc Hall].
    cbn [no_surrogate_pair]. rewrite (IH Hall), andb_true_r.
    destruct s as [|d s]; [reflexivity|].
    apply andb_true_iff in Hc as [_ Hc]. unfold is_surrogate in Hc.
    apply negb_true_iff, orb_false_iff in Hc as [Hhigh _]. by rewrite Hhigh.
Qed.

Lemma skip_ws_suffix (s : pystr) : skip_ws s `suffix_of` s.
Proof.
  induction s as [|c s IH]; [done|]. cbn [skip_ws].
  destruct (is_ws c); [by apply suffix_cons_r|done].
Qed.

Lemma strip_prefix_suffix (prefix s rest : pystr) :
  strip_prefix prefix s = Some rest -> rest `suffix_of` s.
Proof.
  revert s. induction prefix as [|p prefix IH]; intros s.
  - destruct s; by intros [= <-].
  - destruct s as [|c s]; [discriminate|]. cbn [strip_prefix].
    destruct (p =? c)%N; [|discriminate]. intros Hrest. by apply suffix_cons_r, IH.
Qed.

(** What [span_digits] returns: the digits read, and the text that
    follows, which starts with no digit. *)
Lemma span_digits_spec (s : pystr) :
  s = fst (span_digits s) ++ snd (span_digits s)
  /\ forallb is_digit (fst (span_digits s)) = true
  /\ no_digit_ahead (snd (span_digits s)) = true.
Proof.
  induction s as [|c s (IHeq & IHdigits & IHahead)]; [done|]. cbn [span_digits].
  destruct (is_digit c) eqn:Hc.
  - destruct (span_digits s) as [ds r]. cbn [fst snd app forallb] in *.
    rewrite Hc, IHdigits. split; [by f_equal|done].
  - cbn [fst snd app forallb no_digit_ahead]. by rewrite Hc.
Qed.

(** The digits read are read again in front of any text that starts with
    no digit. *)
Lemma span_digits_again (ds t : pystr) :
  forallb is_digit ds = true -> no_digit_ahead t = true -> span_digits (ds ++ t) = (ds, t).
Proof.
  intros Hds Ht. induction ds as [|c ds IH]; cbn [app].
  - destruct t as [|c t]; [reflexivity|]. cbn [span_digits].
    cbn [no_digit_ahead] in Ht. apply negb_true_iff in Ht. by rewrite Ht.
  - cbn [forallb] in Hds. apply andb_true_iff in Hds as [Hc Hds].
    cbn [span_digits]. by rewrite Hc, (IH Hds).
Qed.

Lemma scan_int_part_spec (s ipart r : pystr) :
  scan_int_part s = Some (ipart, r) ->
  s = ipart ++ r
  /\ (exists d ds, ipart = d :: ds /\ is_digit d = true)
  /\ forall t, no_digit_ahead t = true -> scan_int_part (ipart ++ t) = Some (ipart, t).
Proof.
  destruct s as [|d s]; [discriminate|]. cbn [scan_int_part].
  destruct (is_digit d) eqn:Hd; [|discriminate].
  destruct (d =? 48)%N eqn:Hzero.
  - intros [= <- <-]. split; [reflexivity|]. split; [eauto|].
    intros t _. cbn [app scan_int_part]. by rewrite Hd, Hzero.
  - destruct (span_digits_spec s) as (Heq & Hdigits & _).
    destruct (span_digits s) as [ds r']. cbn [fst snd] in *. intros [= <- <-].
    split; [by rewrite Heq at 1|]. split; [eauto|].
    intros t Ht. cbn [app scan_int_part]. rewrite Hd, Hzero.
    by rewrite (span_digits_again _ _ Hdigits Ht).
Qed.

Lemma scan_frac_spec (s : pystr) :
  s = fst (scan_frac s) ++ snd (scan_frac s)
  /\ (fst (scan_frac s) = []
      \/ (exists rest, fst (scan_frac s) = 46%N :: rest)
         /\ forall t, no_digit_ahead t = true ->
              scan_frac (fst (scan_frac s) ++ t) = (fst (scan_frac s), t)).
Proof.
  destruct s as [|dot [|d s]]; try (split; [reflexivity|by left]).
  cbn [scan_frac]. destruct ((dot =? 46)%N && is_digit d) eqn:Hcond.
  - apply andb_true_iff in Hcond as [Hdot Hd]. apply N.eqb_eq in Hdot as ->.
    destruct (span_digits_spec s) as (Heq & Hdigits & _).
    destruct (span_digits s) as [ds r]. cbn [fst snd] in *.
    split; [cbn [app]; by rewrite Heq at 1|]. right. split; [eauto|].
    intros t Ht. cbn [app scan_frac]. change (46 =? 46)%N with true. rewrite Hd.
    cbn [andb]. by rewrite (span_digits_again _ _ Hdigits Ht).
  - split; [reflexivity|by left].
Qed.

Lemma scan_exp_spec (s : pystr) :
  s = fst (scan_exp s) ++ snd (scan_exp s)
  /\ (fst (scan_exp s) = []
      \/ (exists e rest, fst (scan_exp s) = e :: rest /\ ((e =? 101) || (e =? 69))%N = true)
         /\ scan_exp (fst (scan_exp s)) = (fst (scan_exp s), [])).
Proof.
  destruct s as [|e s]; [split; [reflexivity|by left]|]. cbn [scan_exp].
  destruct ((e =? 101) || (e =? 69))%N eqn:He; [|split; [reflexivity|by left]].
  assert (Hsign : exists sign r1,
    (match s with
     | c :: r' => if ((c =? 45) || (c =? 43))%N then ([c], r') else ([], s)
     | [] => ([], s)
     end) = (sign, r1)
    /\ s = sign ++ r1
    /\ (sign = [] \/ exists c, sign = [c] /\ ((c =? 45) || (c =? 43))%N = true)).
  { destruct s as [|c s]; [by exists [], []; repeat split; left|].
    destruct ((c =? 45) || (c =? 43))%N eqn:Hc.
    - exists [c], s. repeat split. right. eauto.
    - exists [], (c :: s). repeat split. by left. }
  destruct Hsign as (sign & r1 & -> & Hs & Hshape).
  destruct (span_digits_spec r1) as (Heq & Hdigits & _).
  destruct (span_digits r1) as [[|d ds] r] eqn:Hspan; cbn [fst snd] in *;
    [split; [reflexivity|by left]|].
  split; [rewrite Hs at 1; rewrite Heq at 1; cbn [app]; by rewrite <- app_assoc|].
  right. split; [eauto|].
  cbn [scan_exp]. rewrite He.
  destruct Hshape as [->|(c & -> & Hc)]; cbn [app].
  - assert (Hd : is_digit d = true)
      by (cbn [forallb] in Hdigits; by apply andb_true_iff in Hdigits as [? _]).
    assert (Hnot : ((d =? 45) || (d =? 43))%N = false).
    { unfold is_digit in Hd. apply andb_true_iff in Hd as [Hlo Hhi].
      apply N.leb_le in Hlo, Hhi. apply orb_false_iff. split; apply N.eqb_neq; lia. }
    rewrite Hnot. by rewrite (span_digits_all _ Hdigits).
  - rewrite Hc. by rewrite (span_digits_all _ Hdigits).
Qed.

(** What the number grammar reads is an integer or the text of a float,
    and what follows it is the rest of the text. *)
Lemma scan_number_spec (s r : pystr) (v : json) :
  scan_number s = Some (v, r) -> r `suffix_of` s /\ json_ok v = true.
Proof.
  unfold scan_number.
  set (signed := match s with
                 | c :: r0 => if (c =? 45)%N then (true, r0) else (false, s)
                 | [] => (false, s)
                 end).
  assert (Hsigned : snd signed `suffix_of` s
                    /\ (fst signed = false -> snd signed = s)).
  { subst signed. destruct s as [|c s]; [done|].
    destruct (c =? 45)%N; cbn [fst snd]; [|done].
    split; [by apply suffix_cons_r|discriminate]. }
  destruct signed as [neg s1]. cbn [fst snd] in Hsigned. destruct Hsigned as [Hs1 Hplain].
  destruct (scan_int_part s1) as [[ipart r1]|] eqn:Hint; [|discriminate].
  destruct (scan_int_part_spec _ _ _ Hint) as (Heq1 & (d & ds & Hipart & Hd) & Hint_again).
  destruct (scan_frac_spec r1) as (Heq2 & Hfrac).
  destruct (scan_frac r1) as [frac r2]. cbn [fst snd] in *.
  destruct (scan_exp_spec r2) as (Heq3 & Hexp).
  destruct (scan_exp r2) as [exp r3]. cbn [fst snd] in *.
  assert (Hsuffix : r3 `suffix_of` s).
  { etrans; [|exact Hs1]. rewrite Heq1, Heq2, Heq3.
    exists (ipart ++ frac ++ exp). by rewrite <- !app_assoc. }
  assert (Hfloat : frac <> [] \/ exp <> [] ->
    float_text ((if neg then [45%N] else []) ++ ipart ++ frac ++ exp) = true).
  { intros Hsome. unfold float_text. rewrite !orb_true_iff. do 3 left.
    assert (Hexp_head : no_digit_ahead exp = true /\ scan_frac exp = ([], exp)).
    { destruct Hexp as [->|[(e & rest & -> & He) _]]; [done|].
      assert (Hnd : is_digit e = false /\ (e =? 46)%N = false).
      { apply orb_true_iff in He as [->%N.eqb_eq | ->%N.eqb_eq]; by split. }
      destruct Hnd as [Hnd Hdot]. cbn [no_digit_ahead]. rewrite Hnd. split; [done|].
      destruct rest as [|x rest]; [reflexivity|]. cbn [scan_frac]. by rewrite Hdot. }
    destruct Hexp_head as [Hexp_digit Hexp_frac].
    assert (Hahead : no_digit_ahead (frac ++ exp) = true).
    { destruct Hfrac as [->|[[rest ->] _]]; [exact Hexp_digit|reflexivity]. }
    assert (Hfrac_again : scan_frac (frac ++ exp) = (frac, exp)).
    { destruct Hfrac as [->|[_ Hagain]]; [exact Hexp_frac|by apply Hagain]. }
    assert (Hexp_again : scan_exp exp = (exp, [])).
    { destruct Hexp as [->|[_ Hagain]]; [reflexivity|exact Hagain]. }
    assert (Hscan : scan_number ((if neg then [45%N] else []) ++ ipart ++ frac ++ exp)
                    = Some (JFloat ((if neg then [45%N] else []) ++ ipart ++ frac ++ exp), [])).
    { unfold scan_number. destruct neg; cbn [app].
      - change (45 =? 45)%N with true. cbv iota.
        rewrite (Hint_again _ Hahead), Hfrac_again, Hexp_again.
        destruct frac, exp; try reflexivity. by destruct Hsome.
      - rewrite Hipart. cbn [app].
        assert (Hminus : (d =? 45)%N = false).
        { apply N.eqb_neq. intros ->. discriminate Hd. }
        rewrite Hminus.
        change (d :: ds ++ frac ++ exp) with ((d :: ds) ++ frac ++ exp).
        rewrite <- Hipart.
        rewrite (Hint_again _ Hahead), Hfrac_again, Hexp_again.
        destruct frac, exp; try reflexivity. by destruct Hsome. }
    rewrite Hscan. apply pystr_eqb_refl. }
  destruct frac as [|f frac], exp as [|x exp]; intros [= <- <-];
    (split; [exact Hsuffix|]); cbn [json_ok]; try reflexivity;
    apply Hfloat; first [by left|by right].
Qed.

Lemma joins_checked : forallb joins_block (below 1024) = true.
Proof. vm_compute. reflexivity. Qed.

(** A high and a low surrogate join to a character above the basic
    plane. *)
Lemma join_surrogate_pair_range (u v : N) :
  is_high_surrogate u = true -> is_low_surrogate v = true ->
  (65536 <= join_surrogate_pair u v < 1114112)%N.
Proof.
  unfold is_high_surrogate, is_low_surrogate. rewrite !andb_true_iff, !N.leb_le.
  intros [Hu1 Hu2] [Hv1 Hv2].
  assert (Ha : (u - 55296 < 1024)%N) by lia.
  assert (Hb : (v - 56320 < 1024)%N) by lia.
  assert (Hu : (55296 + (u - 55296))%N = u) by lia.
  assert (Hv : (56320 + (v - 56320))%N = v) by lia.
  pose proof joins_checked as Hall. rewrite forallb_forall in Hall.
  specialize (Hall _ (below_in _ _ Ha)). unfold joins_block in Hall.
  rewrite forallb_forall in Hall. specialize (Hall _ (below_in _ _ Hb)).
  apply N.eqb_eq in Hall. rewrite Hu, Hv in Hall. rewrite Hall. clear Hall. lia.
Qed.

Lemma not_surrogate_above (c : N) : (65536 <= c)%N -> is_surrogate c = false.
Proof.
  intros Hc. unfold is_surrogate, is_high_surrogate, is_low_surrogate.
  rewrite orb_false_iff, !andb_false_iff, !N.leb_gt. lia.
Qed.

Lemma hex_value_bound (c v : N) : hex_value c = Some v -> (v < 16)%N.
Proof.
  unfold hex_value, is_digit.
  destruct ((48 <=? c) && (c <=? 57))%N eqn:H1.
  { apply andb_true_iff in H1 as [?%N.leb_le ?%N.leb_le]. intros [= <-]. lia. }
  destruct ((97 <=? c) && (c <=? 102))%N eqn:H2.
  { apply andb_true_iff in H2 as [?%N.leb_le ?%N.leb_le]. intros [= <-]. lia. }
  destruct ((65 <=? c) && (c <=? 70))%N eqn:H3; [|discriminate].
  apply andb_true_iff in H3 as [?%N.leb_le ?%N.leb_le]. intros [= <-]. lia.
Qed.

Lemma hex4_bound (a b c d u : N) : hex4 a b c d = Some u -> (u < 65536)%N.
Proof.
  unfold hex4.
  destruct (hex_value a) as [a'|] eqn:Ha; [|discriminate].
  destruct (hex_value b) as [b'|] eqn:Hb; [|discriminate].
  destruct (hex_value c) as [c'|] eqn:Hc; [|discriminate].
  destruct (hex_value d) as [d'|] eqn:Hd; [|discriminate].
  apply hex_value_bound in Ha, Hb, Hc, Hd. intros [= <-]. lia.
Qed.

Lemma simple_escape_ok (e x : N) : simple_escape e = Some x -> item_ok (Lit x) = true.
Proof.
  unfold simple_escape.
  repeat (match goal with
          | |- (if ?b then _ else _) = _ -> _ => destruct b; [by intros [= <-]|]
          end).
  discriminate.
Qed.

(** The items of a string literal in text without surrogates. *)
Lemma scan_items_spec (n : nat) (s r : pystr) (items : list str_item) :
  length s <= n ->
  scan_items s = Some (items, r) ->
  text_ok s = true ->
  forallb item_ok items = true /\ r `suffix_of` s.
Proof.
  revert s r items. induction n as [|n IH]; intros s r items Hlen.
  { destruct s; [discriminate|cbn in Hlen; lia]. }
  destruct s as [|c s]; [discriminate|]. cbn [length] in Hlen.
  cbn [scan_items text_ok forallb]. intros Hscan [Hc Hs]%andb_true_iff.
  fold (text_ok s) in Hs.
  assert (Hstep : forall (i : str_item) (s' : pystr),
    item_ok i = true -> s' `suffix_of` s ->
    cons_item i (scan_items s') = Some (items, r) ->
    forallb item_ok items = true /\ r `suffix_of` c :: s).
  { intros i s' Hi Hs' Hcons. unfold cons_item in Hcons.
    destruct (scan_items s') as [[items' r']|] eqn:Hrec; [|discriminate].
    injection Hcons as <- <-.
    destruct (IH s' r' items') as [Hitems Hr']; [|exact Hrec| |].
    - pose proof (suffix_length _ _ Hs'). lia.
    - by apply (text_ok_suffix _ _ Hs').
    - cbn [forallb]. rewrite Hi, Hitems. split; [done|].
      apply suffix_cons_r. by etrans. }
  destruct (c =? 34)%N.
  { injection Hscan as <- <-. split; [done|]. by apply suffix_cons_r. }
  destruct (c =? 92)%N.
  - destruct s as [|e r1]; [discriminate|].
    destruct (e =? 117)%N.
    + destruct r1 as [|a [|b [|c' [|d r2]]]]; try discriminate.
      destruct (hex4 a b c' d) as [u|] eqn:Hhex; [|discriminate].
      apply (Hstep (Esc u) r2); [|by do 5 apply suffix_cons_r|exact Hscan].
      cbn [item_ok]. apply N.ltb_lt. by apply hex4_bound in Hhex.
    + destruct (simple_escape e) as [x|] eqn:Hesc; [|discriminate].
      apply (Hstep (Lit x) r1); [|by apply suffix_cons_r|exact Hscan].
      by apply simple_escape_ok in Hesc.
  - destruct (c <? 32)%N; [discriminate|].
    by apply (Hstep (Lit c) s).
Qed.

Lemma join_surrogates_escapes (u v : N) (rest : list str_item) :
  join_surrogates (Esc u :: Esc v :: rest)
  = if is_high_surrogate u && is_low_surrogate v
    then join_surrogate_pair u v :: join_surrogates rest
    else u :: join_surrogates (Esc v :: rest).
Proof. reflexivity. Qed.

(** Joining the surrogates among well-formed items gives a valid string. *)
Lemma join_surrogates_ok (n : nat) (items : list str_item) :
  length items <= n ->
  forallb item_ok items = true ->
  str_ok (join_surrogates items) = true /\ head_ok items.
Proof.
  revert items. induction n as [|n IH]; intros items Hlen Hitems.
  { destruct items; [done|cbn in Hlen; lia]. }
  destruct items as [|i items]; [done|]. cbn [length] in Hlen.
  cbn [forallb] in Hitems. apply andb_true_iff in Hitems as [Hi Hitems].
  assert (Hcons : forall (y : N) (rest : list str_item),
    length rest <= n -> forallb item_ok rest = true ->
    (y < 1114112)%N ->
    (is_high_surrogate y = true -> head_ok rest ->
     match join_surrogates rest with
     | z :: _ => is_low_surrogate z = false
     | [] => True
     end) ->
    str_ok (y :: join_surrogates rest) = true).
  { intros y rest Hrest_len Hrest Hy Hhead.
    destruct (IH rest Hrest_len Hrest) as [Hok Hhead_rest].
    unfold str_ok in *. apply andb_true_iff in Hok as [Hrange Hpairs].
    cbn [forallb no_surrogate_pair]. rewrite Hrange, Hpairs, !andb_true_r.
    apply andb_true_iff. split; [by apply N.ltb_lt|].
    destruct (join_surrogates rest) as [|z tail] eqn:Hjoin; [reflexivity|].
    destruct (is_high_surrogate y) eqn:Hhigh; [|reflexivity].
    by rewrite (Hhead eq_refl Hhead_rest). }
  destruct i as [c|u].
  - cbn [item_ok] in Hi. apply andb_true_iff in Hi as [Hc Hsur].
    apply N.ltb_lt in Hc. apply negb_true_iff in Hsur.
    unfold is_surrogate in Hsur. apply orb_false_iff in Hsur as [Hhigh Hlow].
    cbn [join_surrogates]. split.
    + apply Hcons; [lia|assumption|assumption|]. intros Hhigh'. congruence.
    + unfold head_ok. cbn [join_surrogates]. exact Hlow.
  - cbn [item_ok] in Hi. apply N.ltb_lt in Hi.
    destruct items as [|[c|v] items'].
    + cbn [join_surrogates]. split; [|by left].
      unfold str_ok. cbn [forallb no_surrogate_pair].
      assert (Hu : (u <? 1114112)%N = true) by (apply N.ltb_lt; lia). by rewrite Hu.
    + change (join_surrogates (Esc u :: Lit c :: items'))
        with (u :: join_surrogates (Lit c :: items')).
      split.
      * apply Hcons; [lia|assumption|lia|]. intros _ Hhead. exact Hhead.
      * unfold head_ok.
        change (join_surrogates (Esc u :: Lit c :: items'))
          with (u :: join_surrogates (Lit c :: items')). by left.
    + rewrite join_surrogates_escapes.
      destruct (is_high_surrogate u && is_low_surrogate v) eqn:Hjoin.
      * apply andb_true_iff in Hjoin as [Hhigh Hlow].
        pose proof (join_surrogate_pair_range u v Hhigh Hlow) as [Hge Hlt].
        pose proof (not_surrogate_above _ Hge) as Hsur.
        unfold is_surrogate in Hsur. apply orb_false_iff in Hsur as [Hnh Hnl].
        cbn [forallb length] in *. apply andb_true_iff in Hitems as [_ Hitems'].
        split.
        -- apply Hcons; [lia|assumption|assumption|]. intros Hhigh'. congruence.
        -- unfold head_ok. rewrite join_surrogates_escapes, Hhigh, Hlow. cbn [andb].
           by right.
      * split.
        -- apply Hcons; [lia|assumption|lia|]. intros Hhigh Hhead.
           unfold head_ok in Hhead.
           destruct (join_surrogates (Esc v :: items')) as [|z tail]; [done|].
           destruct Hhead as [->|Hz]; [|exact Hz].
           rewrite Hhigh in Hjoin. exact Hjoin.
        -- unfold head_ok. rewrite join_surrogates_escapes, Hjoin. by left.
Qed.

(** A string literal in text without surrogates denotes a valid string. *)
Lemma scan_string_spec (s r str : pystr) :
  scan_string s = Some (str, r) -> text_ok s = true ->
  str_ok str = true /\ r `suffix_of` s.
Proof.
  unfold scan_string. destruct (scan_items s) as [[items r']|] eqn:Hitems; [|discriminate].
  intros [= <- <-] Hs.
  destruct (scan_items_spec _ _ _ _ (le_n _) Hitems Hs) as [Hok Hr].
  split; [|exact Hr]. by apply (join_surrogates_ok _ _ (le_n _) Hok).
Qed.

(** *** Dictionaries built from pairs *)

Lemma dict_set_keys (key : pystr) (value : json) (d : pydict) :
  map fst (dict_set key value d)
  = if bool_decide (key ∈ map fst d) then map fst d else map fst d ++ [key].
Proof.
  induction d as [|[k v] d IH]; [reflexivity|]. cbn [dict_set map fst].
  destruct (pystr_eqb k key) eqn:Hk.
  - apply pystr_eqb_eq in Hk as ->. cbn [map fst].
    rewrite bool_decide_eq_true_2; [reflexivity|by left].
  - cbn [map fst]. rewrite IH. apply pystr_eqb_neq in Hk.
    destruct (bool_decide (key ∈ map fst d)) eqn:Hin.
    + apply bool_decide_eq_true in Hin. rewrite bool_decide_eq_true_2; [reflexivity|by right].
    + apply bool_decide_eq_false in Hin.
      rewrite bool_decide_eq_false_2; [reflexivity|].
      intros [->|?]%elem_of_cons; [by apply Hk|by apply Hin].
Qed.

Lemma dict_set_nodup (key : pystr) (value : json) (d : pydict) :
  NoDup (map fst d) -> NoDup (map fst (dict_set key value d)).
Proof.
  intros Hd. rewrite dict_set_keys. case_bool_decide as Hin; [exact Hd|].
  apply NoDup_app. split; [exact Hd|]. split; [|apply NoDup_singleton].
  intros k Hk ->%list_elem_of_singleton. by apply Hin.
Qed.

Lemma dict_set_forall (P : pystr * json -> bool) (key : pystr) (value : json) (d : pydict) :
  (forall k k' v, k = k' -> P (k, v) = P (k', v)) ->
  forallb P d = true -> P (key, value) = true -> forallb P (dict_set key value d) = true.
Proof.
  intros _ Hd Hnew. induction d as [|[k v] d IH]; cbn [dict_set forallb].
  - by rewrite Hnew.
  - cbn [forallb] in Hd. apply andb_true_iff in Hd as [Hkv Hd].
    destruct (pystr_eqb k key) eqn:Hk; cbn [forallb].
    + apply pystr_eqb_eq in Hk as ->. by rewrite Hnew, Hd.
    + by rewrite Hkv, (IH Hd).
Qed.

Lemma dict_of_pairs_ok (pairs : list (pystr * json)) :
  forallb (fun kv => str_ok (fst kv) && json_ok (snd kv)) pairs = true ->
  json_ok (JObj (dict_of_pairs pairs)) = true.
Proof.
  intros Hpairs. unfold dict_of_pairs.
  enough (Hgen : forall acc : pydict,
    forallb (fun kv => str_ok (fst kv) && json_ok (snd kv)) acc = true ->
    NoDup (map fst acc) ->
    json_ok (JObj (fold_left (fun d kv => dict_set (fst kv) (snd kv) d) pairs acc)) = true).
  { apply Hgen; [reflexivity|constructor]. }
  induction pairs as [|[k v] pairs IH]; intros acc Hacc Hnodup.
  - cbn [fold_left json_ok]. rewrite Hacc. by apply bool_decide_eq_true.
  - cbn [forallb] in Hpairs. apply andb_true_iff in Hpairs as [Hkv Hpairs].
    cbn [fold_left fst snd]. apply (IH Hpairs).
    + by apply dict_set_forall; [intros ? ? ? ->|assumption|assumption].
    + by apply dict_set_nodup.
Qed.

Lemma scan_constant_spec (word : string) (value v : json) (s r : pystr) :
  scan_constant word value s = Some (v, r) -> v = value /\ r `suffix_of` s.
Proof.
  unfold scan_constant. destruct (strip_prefix (py word) s) as [rest|] eqn:Hstrip;
    [|discriminate].
  intros [= <- <-]. split; [reflexivity|]. by apply strip_prefix_suffix in Hstrip.
Qed.

(** What the parser returns from text without surrogates is well formed,
    and what it leaves is the rest of the text. *)
Lemma parse_spec (fuel : nat) :
  (forall s v r, parse_value fuel s = Some (v, r) -> text_ok s = true ->
     json_ok v = true /\ r `suffix_of` s)
  /\ (forall s vs r, parse_items fuel s = Some (vs, r) -> text_ok s = true ->
        forallb json_ok vs = true /\ r `suffix_of` s)
  /\ (forall s kvs r, parse_members fuel s = Some (kvs, r) -> text_ok s = true ->
        forallb (fun kv => str_ok (fst kv) && json_ok (snd kv)) kvs = true
        /\ r `suffix_of` s).
Proof.
  induction fuel as [|n (IHvalue & IHitems & IHmembers)]; [by repeat split|].
  assert (Hws : forall s c r, skip_ws s = c :: r -> text_ok s = true ->
            text_ok (c :: r) = true /\ r `suffix_of` s).
  { intros s c r Hskip Hs. pose proof (skip_ws_suffix s) as Hsuf. rewrite Hskip in Hsuf.
    split; [by apply (text_ok_suffix _ _ Hsuf)|].
    etrans; [|exact Hsuf]. by apply suffix_cons_r. }
  split; [|split].
  - intros s v r. destruct s as [|c r0]; [discriminate|]. cbn [parse_value].
    intros Hparse Hs.
    assert (Hr0 : text_ok r0 = true)
      by (by apply (text_ok_suffix r0 (c :: r0)); [apply suffix_cons_r|]).
    destruct (c =? 34)%N.
    { destruct (scan_string r0) as [[str rest]|] eqn:Hstr; [|discriminate].
      injection Hparse as <- <-.
      destruct (scan_string_spec _ _ _ Hstr Hr0) as [Hok Hsuf].
      split; [exact Hok|by apply suffix_cons_r]. }
    destruct (c =? 123)%N.
    { destruct (skip_ws r0) as [|c1 r1] eqn:Hskip; [discriminate|].
      destruct (Hws _ _ _ Hskip Hr0) as [Hc1 Hr1].
      destruct (c1 =? 125)%N.
      - injection Hparse as <- <-. split; [reflexivity|by apply suffix_cons_r].
      - destruct (parse_members n (c1 :: r1)) as [[pairs rest]|] eqn:Hmem; [|discriminate].
        injection Hparse as <- <-.
        destruct (IHmembers _ _ _ Hmem Hc1) as [Hok Hsuf].
        split; [by apply dict_of_pairs_ok|].
        apply suffix_cons_r. etrans; [exact Hsuf|].
        pose proof (skip_ws_suffix r0) as Hsk. by rewrite Hskip in Hsk. }
    destruct (c =? 91)%N.
    { destruct (skip_ws r0) as [|c1 r1] eqn:Hskip; [discriminate|].
      destruct (Hws _ _ _ Hskip Hr0) as [Hc1 Hr1].
      destruct (c1 =? 93)%N.
      - injection Hparse as <- <-. split; [reflexivity|by apply suffix_cons_r].
      - destruct (parse_items n (c1 :: r1)) as [[items rest]|] eqn:Hit; [|discriminate].
        injection Hparse as <- <-.
        destruct (IHitems _ _ _ Hit Hc1) as [Hok Hsuf].
        split; [exact Hok|].
        apply suffix_cons_r. etrans; [exact Hsuf|].
        pose proof (skip_ws_suffix r0) as Hsk. by rewrite Hskip in Hsk. }
    destruct (c =? 110)%N; [by apply scan_constant_spec in Hparse as [-> ?]|].
    destruct (c =? 116)%N; [by apply scan_constant_spec in Hparse as [-> ?]|].
    destruct (c =? 102)%N; [by apply scan_constant_spec in Hparse as [-> ?]|].
    destruct (c =? 78)%N; [by apply scan_constant_spec in Hparse as [-> ?]|].
    destruct (c =? 73)%N; [by apply scan_constant_spec in Hparse as [-> ?]|].
    destruct (scan_constant "-Infinity" _ (c :: r0)) as [[v' r']|] eqn:Hinf.
    { injection Hparse as <- <-. by apply scan_constant_spec in Hinf as [-> ?]. }
    by apply scan_number_spec in Hparse as [? ?].
  - intros s vs r. cbn [parse_items]. intros Hparse Hs.
    destruct (parse_value n s) as [[v r0]|] eqn:Hval; [|discriminate].
    destruct (IHvalue _ _ _ Hval Hs) as [Hv Hr0].
    pose proof (text_ok_suffix _ _ Hr0 Hs) as Hr0ok.
    destruct (skip_ws r0) as [|c r1] eqn:Hskip; [discriminate|].
    destruct (Hws _ _ _ Hskip Hr0ok) as [Hc Hr1].
    destruct (c =? 93)%N.
    { injection Hparse as <- <-. cbn [forallb]. rewrite Hv. split; [done|by etrans]. }
    destruct (c =? 44)%N; [|discriminate].
    destruct (parse_items n (skip_ws r1)) as [[vs' rest]|] eqn:Hrec; [|discriminate].
    injection Hparse as <- <-.
    assert (Hr1ok : text_ok r1 = true)
      by (by apply (text_ok_suffix r1 (c :: r1)); [apply suffix_cons_r|]).
    destruct (IHitems _ _ _ Hrec (text_ok_suffix _ _ (skip_ws_suffix r1) Hr1ok))
      as [Hvs Hrest].
    cbn [forallb]. rewrite Hv, Hvs. split; [done|].
    etrans; [exact Hrest|]. etrans; [apply skip_ws_suffix|]. by etrans.
  - intros s kvs r. destruct s as [|q r0]; [discriminate|]. cbn [parse_members].
    intros Hparse Hs.
    assert (Hr0 : text_ok r0 = true)
      by (by apply (text_ok_suffix r0 (q :: r0)); [apply suffix_cons_r|]).
    destruct (q =? 34)%N; [|discriminate].
    destruct (scan_string r0) as [[key r1]|] eqn:Hstr; [|discriminate].
    destruct (scan_string_spec _ _ _ Hstr Hr0) as [Hkey Hr1].
    pose proof (text_ok_suffix _ _ Hr1 Hr0) as Hr1ok.
    destruct (skip_ws r1) as [|colon r2] eqn:Hskip1; [discriminate|].
    destruct (Hws _ _ _ Hskip1 Hr1ok) as [Hcolon Hr2].
    destruct (colon =? 58)%N; [|discriminate].
    assert (Hr2ok : text_ok r2 = true)
      by (by apply (text_ok_suffix r2 (colon :: r2)); [apply suffix_cons_r|]).
    destruct (parse_value n (skip_ws r2)) as [[v r3]|] eqn:Hval; [|discriminate].
    destruct (IHvalue _ _ _ Hval (text_ok_suffix _ _ (skip_ws_suffix r2) Hr2ok))
      as [Hv Hr3].
    assert (Hr3s : r3 `suffix_of` q :: r0).
    { apply suffix_cons_r. etrans; [exact Hr3|]. etrans; [apply skip_ws_suffix|].
      by etrans. }
    pose proof (text_ok_suffix _ _ Hr3s Hs) as Hr3ok.
    destruct (skip_ws r3) as [|c r4] eqn:Hskip3; [discriminate|].
    destruct (Hws _ _ _ Hskip3 Hr3ok) as [Hc Hr4].
    destruct (c =? 125)%N.
    { injection Hparse as <- <-. cbn [forallb fst snd]. rewrite Hkey, Hv.
      split; [done|by etrans]. }
    destruct (c =? 44)%N; [|discriminate].
    destruct (parse_members n (skip_ws r4)) as [[kvs' rest]|] eqn:Hrec; [|discriminate].
    injection Hparse as <- <-.
    assert (Hr4ok : text_ok r4 = true)
      by (by apply (text_ok_suffix r4 (c :: r4)); [apply suffix_cons_r|]).
    destruct (IHmembers _ _ _ Hrec (text_ok_suffix _ _ (skip_ws_suffix r4) Hr4ok))
      as [Hkvs Hrest].
    cbn [forallb fst snd]. rewrite Hkey, Hv, Hkvs. split; [done|].
    etrans; [exact Hrest|]. etrans; [apply skip_ws_suffix|]. by etrans.
Qed.

(** Every value [json.loads] returns from text without surrogates is well
    formed. *)
Lemma json_loads_ok (text : pystr) (v : json) :
  text_ok text = true -> json_loads text = Ok v -> json_ok v = true.
Proof.
  intros Htext. unfold json_loads.
  destruct (parse_value _ _) as [[value rest]|] eqn:Hparse; [|discriminate].
  destruct (skip_ws rest); [|discriminate]. intros [= <-].
  destruct (parse_spec (S (length text))) as (Hvalue & _).
  by apply (Hvalue _ _ _ Hparse), (text_ok_suffix _ _ (skip_ws_suffix text)).
Qed.

(** *** The text written is ASCII *)

Lemma is_ascii_app (a b : list N) : is_ascii (a ++ b) = is_ascii a && is_ascii b.
Proof. apply forallb_app. Qed.

Lemma hex_digit_ascii (n : N) : (n < 16)%N -> (hex_digit n <? 128)%N = true.
Proof. intros Hn. unfold hex_digit. apply N.ltb_lt. destruct (n <? 10)%N; lia. Qed.

Lemma escape_u_ascii (n : N) : is_ascii (escape_u n) = true.
Proof.
  unfold escape_u, is_ascii. cbn [forallb].
  rewrite !hex_digit_ascii by (apply N.mod_lt; lia). reflexivity.
Qed.

Lemma escape_char_ascii (c : N) : is_ascii (escape_char c) = true.
Proof.
  unfold escape_char.
  repeat (match goal with
          | |- is_ascii (if (c =? ?k)%N then _ else _) = true =>
              destruct (c =? k)%N; [reflexivity|]
          end).
  destruct ((32 <=? c) && (c <=? 126))%N eqn:Hprint.
  - apply andb_true_iff in Hprint as [_ Hle]. apply N.leb_le in Hle.
    unfold is_ascii. cbn [forallb]. rewrite andb_true_r. apply N.ltb_lt. lia.
  - destruct (c <? 65536)%N; [apply escape_u_ascii|].
    by rewrite is_ascii_app, !escape_u_ascii.
Qed.

Lemma encode_str_ascii (s : pystr) : is_ascii (encode_str s) = true.
Proof.
  unfold encode_str. change (34%N :: ?l) with ([34%N] ++ l).
  rewrite !is_ascii_app. cbn [is_ascii forallb]. rewrite andb_true_r. cbn [andb].
  induction s as [|c s IH]; [reflexivity|].
  cbn [flat_map]. fold (is_ascii (escape_char c ++ flat_map escape_char s)).
  rewrite is_ascii_app, escape_char_ascii. exact IH.
Qed.

Lemma digits_ascii (ds : pystr) : forallb is_digit ds = true -> is_ascii ds = true.
Proof.
  unfold is_ascii. rewrite !forallb_forall. intros Hall c Hin.
  specialize (Hall c Hin). unfold is_digit in Hall.
  apply andb_true_iff in Hall as [_ Hle]. apply N.leb_le in Hle. apply N.ltb_lt. lia.
Qed.

Lemma int_str_ascii (z : Z) : is_ascii (int_str z) = true.
Proof.
  unfold int_str. rewrite is_ascii_app, (digits_ascii _ (uint_chars_digits _)).
  by destruct (z <? 0)%Z.
Qed.

(** The text of a number the grammar reads is ASCII. *)
Lemma scan_number_ascii (s r lit : pystr) :
  scan_number s = Some (JFloat lit, r) -> is_ascii lit = true.
Proof.
  unfold scan_number.
  destruct (match s with
            | c :: r0 => if (c =? 45)%N then (true, r0) else (false, s)
            | [] => (false, s)
            end) as [neg s1].
  destruct (scan_int_part s1) as [[ipart r1]|] eqn:Hint; [|discriminate].
  assert (Hipart : is_ascii ipart = true).
  { destruct s1 as [|d s1]; [discriminate|]. cbn [scan_int_part] in Hint.
    destruct (is_digit d) eqn:Hd; [|discriminate].
    assert (Hda : is_ascii [d] = true) by (apply digits_ascii; cbn; by rewrite Hd).
    destruct (d =? 48)%N; [by injection Hint as <- _|].
    destruct (span_digits_spec s1) as (_ & Hdigits & _).
    destruct (span_digits s1) as [ds r']. injection Hint as <- _.
    apply digits_ascii. cbn [forallb]. by rewrite Hd. }
  assert (Hfrac : is_ascii (fst (scan_frac r1)) = true).
  { destruct r1 as [|dot [|d r1]]; try reflexivity. cbn [scan_frac].
    destruct ((dot =? 46)%N && is_digit d) eqn:Hcond; [|reflexivity].
    apply andb_true_iff in Hcond as [->%N.eqb_eq Hd].
    destruct (span_digits_spec r1) as (_ & Hdigits & _).
    destruct (span_digits r1) as [ds r']. cbn [fst snd] in *.
    assert (Hdds : is_ascii (d :: ds) = true)
      by (apply digits_ascii; cbn [forallb]; by rewrite Hd).
    change (46%N :: d :: ds) with ([46%N] ++ d :: ds). by rewrite is_ascii_app, Hdds. }
  destruct (scan_frac r1) as [frac r2]. cbn [fst] in Hfrac.
  assert (Hexp : is_ascii (fst (scan_exp r2)) = true).
  { destruct r2 as [|e r2]; [reflexivity|]. cbn [scan_exp].
    destruct ((e =? 101) || (e =? 69))%N eqn:He; [|reflexivity].
    assert (Hea : is_ascii [e] = true).
    { apply orb_true_iff in He as [->%N.eqb_eq | ->%N.eqb_eq]; reflexivity. }
    assert (Hsign : forall sign r1',
      (match r2 with
       | c :: r' => if ((c =? 45) || (c =? 43))%N then ([c], r') else ([], r2)
       | [] => ([], r2)
       end) = (sign, r1') -> is_ascii sign = true).
    { intros sign r1'. destruct r2 as [|c r2]; [by intros [= <- _]|].
      destruct ((c =? 45) || (c =? 43))%N eqn:Hc; [|by intros [= <- _]].
      intros [= <- _]. apply orb_true_iff in Hc as [->%N.eqb_eq | ->%N.eqb_eq]; reflexivity. }
    destruct (match r2 with
              | c :: r' => if ((c =? 45) || (c =? 43))%N then ([c], r') else ([], r2)
              | [] => ([], r2)
              end) as [sign r1'] eqn:Hsplit.
    specialize (Hsign _ _ eq_refl).
    destruct (span_digits_spec r1') as (_ & Hdigits & _).
    destruct (span_digits r1') as [[|d ds] r']; [reflexivity|]. cbn [fst snd] in *.
    change (e :: sign ++ d :: ds) with ([e] ++ sign ++ d :: ds).
    by rewrite !is_ascii_app, Hea, Hsign, (digits_ascii _ Hdigits). }
  destruct (scan_exp r2) as [exp r3]. cbn [fst] in Hexp.
  assert (Hall : is_ascii ((if neg then [45%N] else []) ++ ipart ++ frac ++ exp) = true)
    by (rewrite !is_ascii_app, Hipart, Hfrac, Hexp; by destruct neg).
  destruct frac, exp; intros [= <- _]; exact Hall.
Qed.

Lemma join_ascii (sep : pystr) (parts : list pystr) :
  is_ascii sep = true -> forallb is_ascii parts = true -> is_ascii (join sep parts) = true.
Proof.
  intros Hsep. induction parts as [|p parts IH]; [reflexivity|].
  cbn [forallb]. intros [Hp Hparts]%andb_true_iff.
  destruct parts as [|q parts]; [exact Hp|].
  rewrite join_cons2, !is_ascii_app, Hp, Hsep. by apply IH.
Qed.

(** [ensure_ascii]: the text of a well-formed value is ASCII. *)
Lemma json_dumps_ascii (v : json) : json_ok v = true -> is_ascii (json_dumps v) = true.
Proof.
  induction v as [| b | z | lit | s | items IH | fields IH] using json_induction;
    intros Hok.
  - reflexivity.
  - by destruct b.
  - apply int_str_ascii.
  - cbn [json_ok json_dumps] in *. unfold float_text in Hok. rewrite !orb_true_iff in Hok.
    destruct Hok as [[[Hscan|Hnan]|Hinf]|Hninf].
    + destruct (scan_number lit) as [[[| | |l| | |] [|c r]]|] eqn:Hnum;
        try discriminate Hscan.
      apply pystr_eqb_eq in Hscan as ->. by apply scan_number_ascii in Hnum.
    + by apply pystr_eqb_eq in Hnan as ->.
    + by apply pystr_eqb_eq in Hinf as ->.
    + by apply pystr_eqb_eq in Hninf as ->.
  - apply encode_str_ascii.
  - cbn [json_dumps json_ok] in *.
    assert (Hjoin : is_ascii (join (py ", ") (map json_dumps items)) = true).
    { apply join_ascii; [reflexivity|].
      induction items as [|x items IHitems]; [reflexivity|].
      apply Forall_cons in IH as [Hx IH].
      cbn [forallb] in Hok. apply andb_true_iff in Hok as [Hxok Hok].
      cbn [map forallb]. by rewrite (Hx Hxok), (IHitems IH Hok). }
    change (91%N :: ?l) with ([91%N] ++ l). by rewrite !is_ascii_app, Hjoin.
  - cbn [json_dumps json_ok] in *. apply andb_true_iff in Hok as [Hok _].
    assert (Hjoin : is_ascii (join (py ", ") (map member_text fields)) = true).
    { apply join_ascii; [reflexivity|].
      induction fields as [|kv fields IHfields]; [reflexivity|].
      apply Forall_cons in IH as [Hx IH].
      cbn [forallb] in Hok. apply andb_true_iff in Hok as [Hxok Hok].
      apply andb_true_iff in Hxok as [_ Hxok].
      cbn [map forallb]. rewrite (IHfields IH Hok), andb_true_r.
      unfold member_text. by rewrite !is_ascii_app, encode_str_ascii, (Hx Hxok). }
    change (123%N :: ?l) with ([123%N] ++ l). rewrite !is_ascii_app.
    unfold member_text in Hjoin. 
    match goal with
    | |- context [is_ascii (join ?sep ?parts)] =>
        replace (is_ascii (join sep parts)) with true by (symmetry; exact Hjoin)
    end.
    reflexivity.
Qed.

(** *** The values in [scans_db] *)

Lemma uuid_text_ok (s : pystr) : uuid_text s = true -> text_ok s = true.
Proof.
  unfold uuid_text, text_ok. intros [_ Hall]%andb_true_iff.
  rewrite forallb_forall in *. intros c Hin. specialize (Hall c Hin).
  assert (Hc : (c < 128)%N).
  { unfold is_digit in Hall. rewrite !orb_true_iff, !andb_true_iff, !N.leb_le, N.eqb_eq in Hall.
    lia. }
  unfold is_surrogate, is_high_surrogate, is_low_surrogate.
  rewrite andb_true_iff, negb_true_iff, orb_false_iff, !andb_false_iff, !N.leb_gt, N.ltb_lt.
  lia.
Qed.

Lemma extension_ok (u : upload) : upload_ok u -> text_ok (extension u) = true.
Proof.
  unfold upload_ok, extension. destruct (filename u) as [[|c name]|]; try reflexivity.
  intros Hname. unfold splitext. destruct (_ && _); cbn [snd]; [|reflexivity].
  eapply text_ok_suffix; [|exact Hname]. apply suffix_drop.
Qed.

(** The record of a new scan is well formed. *)
Lemma new_record_ok (e : env) (pre_op_image during_op_image : upload) (patient_id : pystr) :
  env_ok e -> upload_ok pre_op_image -> upload_ok during_op_image ->
  text_ok patient_id = true ->
  json_ok (new_record e pre_op_image during_op_image patient_id) = true.
Proof.
  intros (Huuid & Hnow & _) Hpre Hduring Hpatient.
  apply uuid_text_ok in Huuid. apply extension_ok in Hpre, Hduring.
  assert (Hfield : forall name, text_ok name = true -> str_ok (path_field e name) = true).
  { intros name Hname. apply text_ok_str_ok. unfold path_field.
    by rewrite !text_ok_app, Huuid, Hname. }
  assert (Hpre_name : text_ok (stored_name "pre_op" pre_op_image) = true)
    by (unfold stored_name; by rewrite text_ok_app, Hpre).
  assert (Hduring_name : text_ok (stored_name "during_op" during_op_image) = true)
    by (unfold stored_name; by rewrite text_ok_app, Hduring).
  unfold new_record, mock_analysis.
  cbn [json_ok forallb fst snd map].
  rewrite !Hfield by first [assumption|reflexivity].
  rewrite !(text_ok_str_ok _ Huuid), (text_ok_str_ok _ Hpatient), (text_ok_str_ok _ Hnow).
  vm_compute. reflexivity.
Qed.

(** What [store_scan] does to [scans_db] when the identifier is the text
    of a UUID: nothing, or it appends the record of the new scan. *)
Lemma store_scan_record (e : env) (pre_op_image during_op_image : upload)
    (patient_id : pystr) (st st' : state) (r : result json) :
  uuid_text (uuid4 e) = true ->
  store_scan e
    {| scan_id := uuid4 e;
       scan_dir := path_div UPLOAD_DIR (uuid4 e);
       pre_op_path := path_div (path_div UPLOAD_DIR (uuid4 e)) (stored_name "pre_op" pre_op_image);
       during_op_path :=
         path_div (path_div UPLOAD_DIR (uuid4 e)) (stored_name "during_op" during_op_image) |}
    pre_op_image during_op_image patient_id st = (r, st') ->
  scans_db st' = scans_db st
  \/ exists items,
       scans_db st = JArr items
       /\ scans_db st' = JArr (items ++ [new_record e pre_op_image during_op_image patient_id]).
Proof.
  intros Huuid.
  destruct (scan_paths e _ Huuid (stored_name_plain "pre_op" pre_op_image pre_op_plain))
    as [Hpre_str Hpre_rel].
  destruct (scan_paths e _ Huuid (stored_name_plain "during_op" during_op_image during_op_plain))
    as [Hduring_str Hduring_rel].
  destruct (scan_paths e _ Huuid analysis_results_plain) as [Hres_str Hres_rel].
  unfold store_scan, save_scan_to_db, dump_snapshot, list_append, read_db, write_file,
    lift, ret, bind.
  cbn [pre_op_path during_op_path scan_dir scan_id].
  rewrite Hpre_str, Hduring_str, Hres_str, Hpre_rel, Hduring_rel, Hres_rel.
  destruct (write_outcome e (blob_file e (stored_name "pre_op" pre_op_image)));
    cbn [set_files files scans_db]; [|intros [= <- <-]; by left..].
  destruct (write_outcome e (blob_file e (stored_name "during_op" during_op_image)));
    cbn [set_files files scans_db]; [|intros [= <- <-]; by left..].
  destruct (write_outcome e (blob_file e (py "analysis_results.json")));
    cbn [set_files files scans_db]; [|intros [= <- <-]; by left..].
  destruct (scans_db st) as [| | | | |items|] eqn:Hdb;
    cbn [set_scans_db set_files files scans_db];
    try (intros [= <- <-]; left; exact Hdb).
  destruct (write_outcome e SNAPSHOT); intros [= <- <-]; right; by exists items.
Qed.

Lemma analyze_occlusion_db (e : env) (pre_op_image during_op_image : upload)
    (patient_id : pystr) (st st' : state) (r : result json) :
  uuid_text (uuid4 e) = true ->
  analyze_occlusion e pre_op_image during_op_image patient_id st = (r, st') ->
  scans_db st' = scans_db st
  \/ exists items,
       scans_db st = JArr items
       /\ scans_db st' = JArr (items ++ [new_record e pre_op_image during_op_image patient_id]).
Proof.
  intros Huuid. unfold analyze_occlusion, bind, try_except.
  destruct (mkdir_errno e (path_div UPLOAD_DIR (uuid4 e))) as [errno|] eqn:Hmkdir.
  - unfold allocate, mkdir, bind. rewrite Hmkdir. unfold raise, cleanup, bind, ret.
    intros [= <- <-]. by left.
  - rewrite (allocate_ok _ _ _ _ Hmkdir).
    match goal with
    | |- context [store_scan e ?l _ _ _ st] =>
        destruct (store_scan e l pre_op_image during_op_image patient_id st)
          as [r2 st2] eqn:Hstore
    end.
    pose proof (store_scan_record _ _ _ _ _ _ _ Huuid Hstore) as Hdb.
    destruct r2 as [v|cause].
    + by intros [= <- <-].
    + match goal with
      | |- context [cleanup (Some ?l) _ _] =>
          destruct (cleanup_spec (A := json) l cause st2) as (st3 & -> & Hdb3 & _)
      end.
      intros [= <- <-]. by rewrite Hdb3.
Qed.

Lemma py_iter_ok (v : json) (items : list json) :
  json_ok v = true -> py_iter v = Ok items -> forallb json_ok items = true.
Proof.
  destruct v as [| | | |s|l|d]; try discriminate; cbn [json_ok py_iter];
    intros Hok [= <-].
  - unfold str_ok in Hok. apply andb_true_iff in Hok as [Hrange _].
    rewrite forallb_forall in *. intros x [c [<- Hin]]%in_map_iff.
    cbn [json_ok]. unfold str_ok. cbn [forallb no_surrogate_pair].
    by rewrite (Hrange c Hin).
  - exact Hok.
  - apply andb_true_iff in Hok as [Hok _].
    rewrite forallb_forall in *. intros x [kv [<- Hin]]%in_map_iff.
    cbn [json_ok]. by apply Hok, andb_true_iff in Hin as [? _].
Qed.

Lemma delete_scan_db_ok (e : env) (scan_id : pystr) (st st' : state) (r : result json) :
  json_ok (scans_db st) = true ->
  delete_scan e scan_id st = (r, st') ->
  json_ok (scans_db st') = true.
Proof.
  intros Hok. unfold delete_scan, bind, read_db, lift, assign_db.
  destruct (py_len (scans_db st)); [|by intros [= _ <-]].
  destruct (py_iter (scans_db st)) as [items|] eqn:Hiter; cbn [rbind];
    [|by intros [= _ <-]].
  destruct (select _ (py "id") items) as [kept|] eqn:Hsel; [|by intros [= _ <-]].
  pose proof (py_iter_ok _ _ Hok Hiter) as Hitems.
  destruct (select_ok _ _ _ _ Hsel) as [_ Hkept].
  assert (Hkept_ok : json_ok (JArr kept) = true).
  { cbn [json_ok]. rewrite Hkept. rewrite forallb_forall in *.
    intros x [Hin _]%filter_In. by apply Hitems. }
  destruct (Nat.eqb _ _); [by intros [= _ <-]|].
  unfold dump_snapshot, bind, read_db, write_file, ret.
  cbn [scans_db set_scans_db files set_files].
  destruct (write_outcome e SNAPSHOT); by intros [= _ <-].
Qed.

(** Every value of [scans_db] in a reachable state is well formed. *)
Lemma reachable_ok (st : state) : reachable st -> json_ok (scans_db st) = true.
Proof.
  induction 1 as [e st st' (_ & _ & Hdecode) Hstart
                 | e pre during pid st st' r _ IH Henv Hpre Hduring Hpid Hrun
                 | e scan_id st st' r _ IH Hrun
                 | pid st st' r _ IH Hrun
                 | str_other scan_id st st' r _ IH Hrun].
  - unfold startup, load_scans_from_db, bind, assign_db in Hstart.
    destruct (files st !! SNAPSHOT) as [bytes|].
    + destruct (locale_decode e bytes) as [text|] eqn:Htext; [|discriminate].
      cbn [rbind] in Hstart.
      destruct (json_loads text) as [v|] eqn:Hloads; [|discriminate].
      injection Hstart as <-. cbn [scans_db set_scans_db].
      apply (json_loads_ok text); [by apply (Hdecode bytes)|exact Hloads].
    + by injection Hstart as <-.
  - destruct (analyze_occlusion_db _ _ _ _ _ _ _ (proj1 Henv) Hrun)
      as [->|(items & Hdb & ->)]; [exact IH|].
    rewrite Hdb in IH. cbn [json_ok] in *. rewrite forallb_app, IH. cbn [forallb].
    by rewrite new_record_ok.
  - by apply (delete_scan_db_ok _ _ _ _ _ IH Hrun).
  - unfold get_scans, bind, read_db, lift, ret in Hrun.
    destruct pid as [[|c pid]|]; by injection Hrun as _ <-.
  - unfold get_scan, bind, read_db, lift in Hrun. by injection Hrun as _ <-.
Qed.

(** C5.  For every state the store can reach, when [scans_db] is written
    to the snapshot file and the file is read back (as at a restart, in an
    environment whose encoding extends ASCII), what is loaded is the value
    of [scans_db] before the restart: the same records with the same
    fields, in the same order.  A startup on the state after the write
    leaves it as it is. *)
Theorem snapshot_round_trip (e e' : env) (st : state) :
  reachable st ->
  write_outcome e SNAPSHOT = IoDone ->
  decodes_ascii e' ->
  exists st1,
    dump_snapshot e st = (Ok tt, st1)
    /\ files st1 !! SNAPSHOT = Some (json_dumps (scans_db st))
    /\ json_loads (json_dumps (scans_db st)) = Ok (scans_db st)
    /\ load_scans_from_db e' st1 = (Ok (scans_db st), st1)
    /\ startup e' st1 = (Ok tt, st1).
Proof.
  intros Hreach Hwrite Hdecode. apply reachable_ok in Hreach as Hok.
  pose proof (json_loads_dumps _ Hok) as Hloads.
  pose proof (Hdecode _ (json_dumps_ascii _ Hok)) as Hbytes.
  eexists. unfold dump_snapshot, bind, read_db, write_file. rewrite Hwrite.
  split; [reflexivity|]. cbn [files set_files].
  split; [apply lookup_insert_eq|]. split; [exact Hloads|].
  unfold startup, load_scans_from_db, bind, assign_db. cbn [files set_files].
  rewrite lookup_insert_eq, Hbytes. cbn [rbind]. rewrite Hloads.
  split; reflexivity.
Qed.

Lemma calm_env_ok : env_ok calm_env.
Proof.
  split; [reflexivity|]. split; [reflexivity|].
  intros bytes text. cbn [locale_decode calm_env].
  destruct (forallb _ bytes) eqn:Hascii; [|discriminate]. intros [= <-].
  unfold text_ok. rewrite forallb_forall in *. intros c Hin.
  specialize (Hascii c Hin). apply N.ltb_lt in Hascii.
  unfold is_surrogate, is_high_surrogate, is_low_surrogate.
  rewrite andb_true_iff, negb_true_iff, orb_false_iff, !andb_false_iff, !N.leb_gt, N.ltb_lt.
  lia.
Qed.

Lemma calm_env_decodes_ascii : decodes_ascii calm_env.
Proof.
  intros bytes Hascii. cbn [locale_decode calm_env].
  unfold is_ascii in Hascii. by rewrite Hascii.
Qed.

Lemma one_scan_store_reachable : reachable one_scan_store.
Proof.
  eapply (reach_create calm_env (photo "before.png") (photo "during.jpeg") (py "P1")
            empty_store).
  - apply (reach_startup calm_env empty_store); [exact calm_env_ok|reflexivity].
  - exact calm_env_ok.
  - reflexivity.
  - reflexivity.
  - reflexivity.
  - unfold one_scan_store. apply surjective_pairing.
Qed.

Lemma snapshot_round_trip_witness :
  exists st1,
    dump_snapshot calm_env one_scan_store = (Ok tt, st1)
    /\ files st1 !! SNAPSHOT = Some (json_dumps (scans_db one_scan_store))
    /\ json_loads (json_dumps (scans_db one_scan_store)) = Ok (scans_db one_scan_store)
    /\ load_scans_from_db calm_env st1 = (Ok (scans_db one_scan_store), st1)
    /\ startup calm_env st1 = (Ok tt, st1).
Proof.
  exact (snapshot_round_trip calm_env calm_env one_scan_store one_scan_store_reachable
           eq_refl calm_env_decodes_ascii).
Defined.

(** After a create or a delete that returned, the snapshot file holds the
    text of [scans_db], so a restart loads the same value. *)
Lemma restart_after_success (e e' : env) (st st' : state) (v : json) :
  reachable st ->
  decodes_ascii e' ->
  (exists scan_id, delete_scan e scan_id st = (Ok v, st'))
  \/ (exists pre_op_image during_op_image patient_id,
        env_ok e /\ upload_ok pre_op_image /\ upload_ok during_op_image
        /\ text_ok patient_id = true
        /\ analyze_occlusion e pre_op_image during_op_image patient_id st = (Ok v, st')) ->
  startup e' st' = (Ok tt, st').
Proof.
  intros Hreach Hdecode Hop.
  assert (Hreach' : reachable st').
  { destruct Hop as [[scan_id Hdel]|(pre & during & pid & He & Hpre & Hduring & Hpid & Hrun)].
    - exact (reach_delete _ _ _ _ _ Hreach Hdel).
    - exact (reach_create _ _ _ _ _ _ _ Hreach He Hpre Hduring Hpid Hrun). }
  assert (Hfile : files st' !! SNAPSHOT = Some (json_dumps (scans_db st'))).
  { destruct Hop as [[scan_id Hdel]|(pre & during & pid & He & _ & _ & _ & Hrun)].
    - destruct (delete_scan_ok_inv _ _ _ _ _ Hdel) as (items & _ & _ & _ & _ & ->).
      apply lookup_insert_eq.
    - unfold analyze_occlusion, bind, try_except in Hrun.
      destruct (allocate e pre during st) as [[l|] st1] eqn:Halloc.
      2: { unfold cleanup, bind, ret, raise in Hrun. discriminate Hrun. }
      destruct (store_scan e l pre during pid st1) as [[v'|cause] st2] eqn:Hstore.
      2: { destruct l. unfold cleanup, bind, raise in Hrun.
           repeat (match type of Hrun with
                   | context [let (_, _) := ?x in _] => destruct x as [[] ?]
                   end); discriminate Hrun. }
      injection Hrun as <- <-.
      unfold store_scan, save_scan_to_db, dump_snapshot, list_append, read_db, write_file,
        lift, ret, bind in Hstore.
      repeat (match type of Hstore with
              | context [match write_outcome e ?p with _ => _ end] =>
                  destruct (write_outcome e p); try discriminate Hstore;
                  cbn [set_files files scans_db set_scans_db] in Hstore
              | context [match relative_str ?p with _ => _ end] =>
                  destruct (relative_str p); try discriminate Hstore;
                  cbn [set_files files scans_db set_scans_db] in Hstore
              | context [match scans_db ?s with _ => _ end] =>
                  destruct (scans_db s); try discriminate Hstore;
                  cbn [set_files files scans_db set_scans_db] in Hstore
              end).
      injection Hstore as _ <-. cbn [files scans_db]. apply lookup_insert_eq. }
  apply reachable_ok in Hreach' as Hok.
  unfold startup, load_scans_from_db, bind, assign_db. cbv beta.
  match goal with
  | |- context [match ?found with Some _ => _ | None => _ end] =>
      replace found with (Some (json_dumps (scans_db st'))) by (symmetry; exact Hfile)
  end.
  rewrite (Hdecode _ (json_dumps_ascii _ Hok)). cbn [rbind].
  rewrite (json_loads_dumps _ Hok). by destruct st'.
Qed.

(** ** C10: records are never edited *)

(** [delete_scan] keeps records of the list it found, as they are. *)
Lemma delete_scan_records (e : env) (scan_id : pystr) (st st' : state) (r : result json) :
  delete_scan e scan_id st = (r, st') ->
  forall record, In record (records st') -> In record (records st).
Proof.
  unfold delete_scan, bind, read_db, lift, assign_db.
  destruct (py_len (scans_db st)); [|by intros [= _ <-]].
  destruct (py_iter (scans_db st)) as [items|] eqn:Hiter; cbn [rbind];
    [|by intros [= _ <-]].
  destruct (select _ (py "id") items) as [kept|] eqn:Hsel; [|by intros [= _ <-]].
  destruct (select_ok _ _ _ _ Hsel) as [Hdicts Hkept].
  assert (Hsub : forall record, In record kept -> In record (records st)).
  { intros record Hin. rewrite Hkept in Hin. apply filter_In in Hin as [Hin _].
    unfold records. destruct (scans_db st) as [| | | |s|l|d]; try discriminate Hiter;
      cbn [py_iter] in Hiter; injection Hiter as <-.
    - rewrite List.Forall_forall in Hdicts. specialize (Hdicts _ Hin).
      apply in_map_iff in Hin as (c & <- & _). discriminate Hdicts.
    - exact Hin.
    - rewrite List.Forall_forall in Hdicts. specialize (Hdicts _ Hin).
      apply in_map_iff in Hin as (kv & <- & _). discriminate Hdicts. }
  destruct (Nat.eqb _ _); [by intros [= _ <-]|].
  unfold dump_snapshot, bind, read_db, write_file, ret.
  cbn [scans_db set_scans_db files set_files].
  destruct (write_outcome e SNAPSHOT); by intros [= _ <-].
Qed.

(** C10.  [get_scan] returns a copy: in a store whose list holds
    references to scan records, one of which carries the identifier, the
    object returned is new, it holds the fields of the stored record and
    the three links [pre_op_url], [during_op_url] and [result_url] computed
    from its path fields, and the stored record, like every object that
    existed before the call, holds what it held.  No handler edits a
    record: [get_scans] and [get_scan] leave the state as it is, after
    [delete_scan] every record of the list is a record of the list before,
    and after [analyze_occlusion] the list is the list before, or the list
    before followed by the new record. *)
Theorem get_scan_returns_copy (str_other : json -> pystr) :
  (forall (cells : gmap Refs.loc json) (refs : list Refs.loc) (scan_id : pystr),
      Forall (fun r => exists d, cells !! r = Some (JObj d) /\ has_path_fields d = true) refs ->
      Exists (fun r => exists d, cells !! r = Some (JObj d) /\ has_id scan_id (JObj d) = true)
        refs ->
      exists r d new d' pre_op during_op outcome,
        r ∈ refs
        /\ cells !! r = Some (JObj d)
        /\ has_id scan_id (JObj d) = true
        /\ dict_get (py "pre_op_path") d = Some pre_op
        /\ dict_get (py "during_op_path") d = Some during_op
        /\ dict_get (py "result_path") d = Some outcome
        /\ Refs.get_scan str_other scan_id refs cells = (Ok new, <[new := JObj d']> cells)
        /\ cells !! new = None
        /\ dict_get (py "pre_op_url") d' = Some (file_url str_other pre_op)
        /\ dict_get (py "during_op_url") d' = Some (file_url str_other during_op)
        /\ dict_get (py "result_url") d' = Some (file_url str_other outcome)
        /\ (forall key, key ∉ url_keys -> dict_get key d' = dict_get key d)
        /\ (forall l, is_Some (cells !! l) -> <[new := JObj d']> cells !! l = cells !! l)
        /\ find_scan str_other scan_id (Refs.deref cells refs) = Ok (JObj d'))
  /\ (forall scan_id st, snd (get_scan str_other scan_id st) = st)
  /\ (forall patient_id st, snd (get_scans patient_id st) = st)
  /\ (forall e scan_id st record,
        In record (records (snd (delete_scan e scan_id st))) -> In record (records st))
  /\ (forall e pre_op_image during_op_image patient_id st,
        uuid_text (uuid4 e) = true ->
        records (snd (analyze_occlusion e pre_op_image during_op_image patient_id st))
        = records st
        \/ records (snd (analyze_occlusion e pre_op_image during_op_image patient_id st))
           = records st ++ [new_record e pre_op_image during_op_image patient_id]).
Proof.
  split; [intros cells refs scan_id; apply get_scan_copy|].
  split; [reflexivity|].
  split; [by intros [[|c pid]|] st|].
  split.
  - intros e scan_id st record.
    apply (delete_scan_records e scan_id st _ (fst (delete_scan e scan_id st))).
    apply surjective_pairing.
  - intros e pre during pid st Huuid.
    destruct (analyze_occlusion_db e pre during pid st _ _ Huuid (surjective_pairing _))
      as [Hsame|(items & Hdb & Hdb')]; unfold records.
    + left. by rewrite Hsame.
    + right. by rewrite Hdb, Hdb'.
Qed.

Lemma get_scan_returns_copy_witness :
  exists new d',
    Refs.get_scan (fun _ => []) (uuid4 calm_env) [0%nat]
      {[0%nat := new_record calm_env (photo "before.png") (photo "during.jpeg") (py "P1")]}
    = (Ok new,
       <[new := JObj d']>
         {[0%nat := new_record calm_env (photo "before.png") (photo "during.jpeg") (py "P1")]})
    /\ dict_get (py "pre_op_url") d'
       = Some (JStr (base_url ++ py "/uploads/" ++ uuid4 calm_env ++ py "/pre_op.png")).
Proof.
  destruct (proj1 (get_scan_returns_copy (fun _ => []))
              {[0%nat := new_record calm_env (photo "before.png") (photo "during.jpeg")
                           (py "P1")]}
              [0%nat] (uuid4 calm_env))
    as (r & d & new & d' & pre_op & during_op & outcome & _ & Hr & _ & Hpre & _ & _ & Hget
        & _ & Hurl & _).
  - constructor; [|constructor]. eexists. split; [apply lookup_singleton_eq|reflexivity].
  - constructor. eexists. split; [apply lookup_singleton_eq|reflexivity].
  - exists new, d'. split; [exact Hget|].
    rewrite Hurl.
    assert (Hr0 : r = 0%nat).
    { destruct r; [reflexivity|]. by rewrite lookup_singleton_ne in Hr. }
    subst r. rewrite lookup_singleton_eq in Hr. injection Hr as <-.
    cbn in Hpre. injection Hpre as <-. reflexivity.
Defined.

(** * Further properties of the store and its handlers *)

(** ** What the handlers leave on disk *)

Lemma touches_only_ret {A} (paths : list pystr) (a : A) : touches_only paths (ret a).
Proof. by intros st path _. Qed.

Lemma touches_only_raise {A} (paths : list pystr) (err : exn) :
  touches_only paths (raise (A := A) err).
Proof. by intros st path _. Qed.

Lemma touches_only_lift {A} (paths : list pystr) (r : result A) :
  touches_only paths (lift r).
Proof. by intros st path _. Qed.

Lemma touches_only_read_db (paths : list pystr) : touches_only paths read_db.
Proof. by intros st path _. Qed.

Lemma touches_only_assign_db (paths : list pystr) (db : json) :
  touches_only paths (assign_db db).
Proof. by intros st path _. Qed.

Lemma touches_only_list_append (paths : list pystr) (item : json) :
  touches_only paths (list_append item).
Proof. intros st path _. unfold list_append. by destruct (scans_db st). Qed.

Lemma touches_only_mkdir (paths : list pystr) (e : env) (p : Path) :
  touches_only paths (mkdir e p).
Proof. intros st path _. unfold mkdir. by destruct (mkdir_errno e p). Qed.

Lemma touches_only_bind {A B} (paths : list pystr) (m : M A) (k : A -> M B) :
  touches_only paths m -> (forall a, touches_only paths (k a)) ->
  touches_only paths (bind m k).
Proof.
  intros Hm Hk st path Hpath. unfold bind.
  specialize (Hm st path Hpath). destruct (m st) as [[a|err] st1]; cbn [snd] in *.
  - by rewrite (Hk a st1 path Hpath).
  - exact Hm.
Qed.

Lemma touches_only_try_except {A} (paths : list pystr) (body : M A) (handler : exn -> M A) :
  touches_only paths body -> (forall err, touches_only paths (handler err)) ->
  touches_only paths (try_except body handler).
Proof.
  intros Hbody Hhandler st path Hpath. unfold try_except.
  specialize (Hbody st path Hpath). destruct (body st) as [[a|err] st1]; cbn [snd] in *.
  - exact Hbody.
  - by rewrite (Hhandler err st1 path Hpath).
Qed.

Lemma touches_only_write_file (paths : list pystr) (e : env) (p : pystr) (content : list N) :
  p ∈ paths -> touches_only paths (write_file e p content).
Proof.
  intros Hp st path Hpath. unfold write_file.
  assert (Hne : p <> path) by (intros ->; contradiction).
  destruct (write_outcome e p); cbn [snd files set_files];
    by rewrite ?lookup_insert_ne.
Qed.

Lemma touches_only_remove_if_exists (paths : list pystr) (p : Path) :
  path_str p ∈ paths -> touches_only paths (remove_if_exists p).
Proof.
  intros Hp st path Hpath. unfold remove_if_exists, bind, path_exists, unlink, ret.
  assert (Hne : path_str p <> path) by (intros <-; contradiction).
  destruct (bool_decide _); cbn [snd files set_files]; by rewrite ?lookup_delete_ne.
Qed.

Lemma touches_only_dump_snapshot (paths : list pystr) (e : env) :
  SNAPSHOT ∈ paths -> touches_only paths (dump_snapshot e).
Proof.
  intros Hsnap. apply touches_only_bind; [apply touches_only_read_db|].
  intros db. by apply touches_only_write_file.
Qed.

(** X13.  [delete_scan] never touches a file other than the snapshot: the
    files of the scan it deletes stay in the upload directory. *)
Theorem delete_leaves_uploads (e : env) (scan_id : pystr) (st : state) (path : pystr) :
  path <> SNAPSHOT ->
  files (snd (delete_scan e scan_id st)) !! path = files st !! path.
Proof.
  intros Hpath.
  assert (Hframe : touches_only [SNAPSHOT] (delete_scan e scan_id)).
  { unfold delete_scan.
    apply touches_only_bind; [apply touches_only_read_db|]. intros db.
    apply touches_only_bind; [apply touches_only_lift|]. intros n.
    apply touches_only_bind; [apply touches_only_lift|]. intros kept.
    apply touches_only_bind; [apply touches_only_assign_db|]. intros _.
    destruct (Nat.eqb _ _); [apply touches_only_raise|].
    apply touches_only_bind; [apply touches_only_dump_snapshot, list_elem_of_here|].
    intros _. apply touches_only_ret. }
  apply Hframe. by intros ->%list_elem_of_singleton.
Qed.

Lemma delete_leaves_uploads_witness :
  blob_file calm_env (py "pre_op.png") <> SNAPSHOT
  /\ files one_scan_store !! blob_file calm_env (py "pre_op.png")
     = Some (contents (photo "before.png"))
  /\ files (snd (delete_scan calm_env (uuid4 calm_env) one_scan_store))
       !! blob_file calm_env (py "pre_op.png")
     = files one_scan_store !! blob_file calm_env (py "pre_op.png").
Proof.
  assert (Hne : blob_file calm_env (py "pre_op.png") <> SNAPSHOT) by discriminate.
  split; [exact Hne|]. split; [vm_compute; reflexivity|].
  exact (delete_leaves_uploads calm_env (uuid4 calm_env) one_scan_store _ Hne).
Defined.

(** The [except] block removes no file but the two uploads. *)
Lemma touches_only_cleanup {A} (paths : list pystr) (known : option locals) (cause : exn) :
  (forall l, known = Some l ->
     path_str (pre_op_path l) ∈ paths /\ path_str (during_op_path l) ∈ paths) ->
  touches_only paths (cleanup (A := A) known cause).
Proof.
  intros Hknown. unfold cleanup.
  apply touches_only_bind; [|intros _; apply touches_only_raise].
  destruct known as [l|]; [|apply touches_only_ret].
  destruct (Hknown l eq_refl) as [Hpre Hduring].
  apply touches_only_bind; [by apply touches_only_remove_if_exists|].
  intros _. by apply touches_only_remove_if_exists.
Qed.

(** The files the body of a create request can touch, once the
    directory of the scan is made: lines 139-195 under the [except]
    block. *)
Lemma touches_only_store_scan (e : env) (pre_op_image during_op_image : upload)
    (patient_id : pystr) :
  uuid_text (uuid4 e) = true ->
  touches_only (scan_files e pre_op_image during_op_image)
    (try_except
       (store_scan e (scan_locals e pre_op_image during_op_image) pre_op_image
          during_op_image patient_id)
       (cleanup (Some (scan_locals e pre_op_image during_op_image)))).
Proof.
  intros Huuid.
  destruct (scan_paths e _ Huuid (stored_name_plain "pre_op" pre_op_image pre_op_plain))
    as [Hpre_str _].
  destruct (scan_paths e _ Huuid (stored_name_plain "during_op" during_op_image during_op_plain))
    as [Hduring_str _].
  destruct (scan_paths e _ Huuid analysis_results_plain) as [Hres_str _].
  assert (Hpre : blob_file e (stored_name "pre_op" pre_op_image)
                 ∈ scan_files e pre_op_image during_op_image) by repeat constructor.
  assert (Hduring : blob_file e (stored_name "during_op" during_op_image)
                    ∈ scan_files e pre_op_image during_op_image)
    by repeat constructor.
  assert (Hres : blob_file e (py "analysis_results.json")
                 ∈ scan_files e pre_op_image during_op_image)
    by repeat constructor.
  assert (Hsnap : SNAPSHOT ∈ scan_files e pre_op_image during_op_image)
    by repeat constructor.
  apply touches_only_try_except.
  - unfold store_scan, scan_locals. cbn [pre_op_path during_op_path scan_dir scan_id].
    rewrite Hpre_str, Hduring_str, Hres_str.
    apply touches_only_bind; [by apply touches_only_write_file|]. intros _.
    apply touches_only_bind; [by apply touches_only_write_file|]. intros _.
    apply touches_only_bind; [by apply touches_only_write_file|]. intros _.
    do 3 (apply touches_only_bind; [apply touches_only_lift|]; intros ?).
    apply touches_only_bind; [|intros _; apply touches_only_ret].
    unfold save_scan_to_db.
    apply touches_only_bind; [apply touches_only_list_append|]. intros _.
    by apply touches_only_dump_snapshot.
  - intros cause. apply touches_only_cleanup. intros l [= <-].
    cbn [scan_locals pre_op_path during_op_path]. by rewrite Hpre_str, Hduring_str.
Qed.

(** X14.  Whether it returns or raises, a create request creates, rewrites
    or removes no file but its own four: the two uploads and the analysis
    under [uploads/<id>/], and the snapshot. *)
Theorem create_touches_only_its_files (e : env) (pre_op_image during_op_image : upload)
    (patient_id : pystr) (st : state) (path : pystr) :
  uuid_text (uuid4 e) = true ->
  path ∉ scan_files e pre_op_image during_op_image ->
  files (snd (analyze_occlusion e pre_op_image during_op_image patient_id st)) !! path
  = files st !! path.
Proof.
  intros Huuid Hpath. unfold analyze_occlusion. unfold bind at 1.
  destruct (mkdir_errno e (path_div UPLOAD_DIR (uuid4 e))) as [errno|] eqn:Hmkdir.
  - unfold try_except, allocate, mkdir, bind. rewrite Hmkdir. reflexivity.
  - unfold try_except at 1. rewrite (allocate_ok _ _ _ _ Hmkdir).
    fold (scan_locals e pre_op_image during_op_image).
    by apply (touches_only_store_scan e pre_op_image during_op_image patient_id Huuid).
Qed.

(** ** Looking up and listing *)

(** The loop of [get_scan] passes over records that do not carry the
    identifier. *)
Lemma find_scan_skip (str_other : json -> pystr) (scan_id : pystr)
    (before rest : list json) :
  Forall (fun scan => is_dict scan = true) before ->
  Forall (fun scan => has_id scan_id scan = false) before ->
  find_scan str_other scan_id (before ++ rest) = find_scan str_other scan_id rest.
Proof.
  induction 1 as [|scan before Hscan _ IH]; intros Hids; [reflexivity|].
  inversion Hids as [|? ? Hid Hrest]; subst.
  destruct scan; try discriminate Hscan.
  cbn [app find_scan py_get rbind]. unfold has_id, field_is in Hid. rewrite Hid.
  by apply IH.
Qed.

Lemma create_touches_only_its_files_witness :
  uuid_text (uuid4 later_env) = true
  /\ (py "notes.txt" ∉ scan_files later_env (photo "left.png") (photo "right.png"))
  /\ files (snd (analyze_occlusion later_env (photo "left.png") (photo "right.png") (py "P2")
                   (store_of [] {[py "notes.txt" := [104; 105]%N]})))
       !! py "notes.txt"
     = files (store_of [] {[py "notes.txt" := [104; 105]%N]}) !! py "notes.txt".
Proof.
  assert (Hpath : py "notes.txt" ∉ scan_files later_env (photo "left.png") (photo "right.png")).
  { unfold scan_files. rewrite !not_elem_of_cons.
    repeat split; try discriminate. apply not_elem_of_nil. }
  split; [reflexivity|]. split; [exact Hpath|].
  exact (create_touches_only_its_files later_env (photo "left.png") (photo "right.png")
           (py "P2") _ _ eq_refl Hpath).
Defined.

(** A record that carries one identifier does not carry another. *)
Lemma has_id_other (i j : pystr) (scan : json) :
  i <> j -> has_id i scan = true -> has_id j scan = false.
Proof.
  intros Hne. unfold has_id, field_is, eq_str.
  destruct scan as [| | | | | |d]; try discriminate.
  destruct (dict_get (py "id") d) as [[| | | |t| |]|]; try discriminate.
  intros ->%pystr_eqb_eq. by apply pystr_eqb_neq.
Qed.

(** Taking the records of another identifier out of the list does not
    change what the loop of [get_scan] finds. *)
Lemma find_scan_filter (str_other : json -> pystr) (i j : pystr) (items : list json) :
  i <> j ->
  Forall (fun scan => is_dict scan = true) items ->
  find_scan str_other j (List.filter (fun scan => negb (has_id i scan)) items)
  = find_scan str_other j items.
Proof.
  intros Hne. induction 1 as [|scan rest Hscan _ IH]; [reflexivity|].
  cbn [List.filter]. destruct (has_id i scan) eqn:Hi; cbn [negb].
  - rewrite IH. destruct scan; try discriminate Hscan.
    cbn [find_scan py_get rbind].
    pose proof (has_id_other i j _ Hne Hi) as Hj. unfold has_id, field_is in Hj.
    by rewrite Hj.
  - destruct scan; try discriminate Hscan.
    cbn [find_scan py_get rbind]. by rewrite IH.
Qed.

Lemma filter_comm {A} (f g : A -> bool) (l : list A) :
  List.filter f (List.filter g l) = List.filter g (List.filter f l).
Proof.
  induction l as [|x l IH]; [reflexivity|]. cbn [List.filter].
  destruct (f x) eqn:Hf, (g x) eqn:Hg; cbn [List.filter]; rewrite ?Hf, ?Hg, IH; reflexivity.
Qed.

(** On a list of [dict] objects the comprehension of [get_scans] is the
    filter by patient. *)
Lemma select_patient (wanted : pystr) (items : list json) :
  Forall (fun scan => is_dict scan = true) items ->
  select (fun field => eq_str field wanted) (py "patient_id") items
  = Ok (List.filter (has_patient wanted) items).
Proof.
  intros Hdicts. by rewrite (select_dicts _ _ _ Hdicts).
Qed.

(** What [get_scans] returns in a store of [dict] objects. *)
Lemma get_scans_dicts (wanted : option pystr) (items : list json) (st : state) :
  scans_db st = JArr items ->
  Forall (fun scan => is_dict scan = true) items ->
  get_scans wanted st
  = (Ok (JArr match wanted with
              | Some ((_ :: _) as q) => List.filter (has_patient q) items
              | _ => items
              end), st).
Proof.
  intros Hdb Hdicts. unfold get_scans, bind, read_db, lift, ret. rewrite Hdb.
  destruct wanted as [[|c q]|]; try reflexivity.
  cbn [py_iter rbind]. by rewrite (select_patient _ _ Hdicts).
Qed.

(** In a store of records none of which carries the identifier,
    [delete_scan] raises 404 and leaves the state as it is. *)
Lemma delete_scan_absent (e : env) (scan_id : pystr) (items : list json) (st : state) :
  scans_db st = JArr items ->
  Forall (fun scan => is_dict scan = true) items ->
  Forall (fun scan => has_id scan_id scan = false) items ->
  delete_scan e scan_id st = (Raise (HTTPException 404 ScanNotFound), st).
Proof.
  intros Hdb Hdicts Hids.
  unfold delete_scan, bind, read_db, lift, assign_db. rewrite Hdb.
  cbn [py_len py_iter rbind]. rewrite (select_other_ids _ _ Hdicts).
  assert (Hkept : List.filter (fun scan => negb (has_id scan_id scan)) items = items).
  { apply forallb_filter_id, forallb_forall. intros scan Hin.
    rewrite List.Forall_forall in Hids. by rewrite (Hids scan Hin). }
  rewrite Hkept, Nat.eqb_refl. destruct st as [db fs]. cbn in Hdb. by subst db.
Qed.

(** X10.  After a [delete_scan] that returned, what [get_scans] returns,
    for every argument, is what it returned before without the records
    that carry the identifier: every one of them is gone, and the others
    keep their order. *)
Theorem delete_then_list (e : env) (scan_id : pystr) (st st' : state) (v : json)
    (patient_id : option pystr) :
  delete_scan e scan_id st = (Ok v, st') ->
  exists before,
    get_scans patient_id st = (Ok (JArr before), st)
    /\ get_scans patient_id st'
       = (Ok (JArr (List.filter (fun scan => negb (has_id scan_id scan)) before)), st').
Proof.
  intros Hdel.
  destruct (delete_scan_ok_inv _ _ _ _ _ Hdel) as (items & Hdb & Hdicts & _ & Hdb' & _).
  assert (Hdicts' : Forall (fun scan => is_dict scan = true)
                      (List.filter (fun scan => negb (has_id scan_id scan)) items)).
  { apply List.Forall_forall. intros scan [Hin _]%filter_In.
    rewrite List.Forall_forall in Hdicts. by apply Hdicts. }
  rewrite (get_scans_dicts patient_id _ _ Hdb Hdicts).
  rewrite (get_scans_dicts patient_id _ _ Hdb' Hdicts').
  eexists. split; [reflexivity|].
  destruct patient_id as [[|c q]|]; try reflexivity.
  by rewrite filter_comm.
Qed.

Lemma delete_then_list_witness :
  delete_scan calm_env (uuid4 calm_env) two_scan_store
  = (Ok (JObj [(py "status", JStr (py "success")); (py "message", JStr (py "Scan deleted"))]),
     snd (delete_scan calm_env (uuid4 calm_env) two_scan_store))
  /\ exists before,
       get_scans None two_scan_store = (Ok (JArr before), two_scan_store)
       /\ get_scans None (snd (delete_scan calm_env (uuid4 calm_env) two_scan_store))
          = (Ok (JArr (List.filter (fun scan => negb (has_id (uuid4 calm_env) scan)) before)),
             snd (delete_scan calm_env (uuid4 calm_env) two_scan_store)).
Proof.
  assert (Hdel : delete_scan calm_env (uuid4 calm_env) two_scan_store
    = (Ok (JObj [(py "status", JStr (py "success")); (py "message", JStr (py "Scan deleted"))]),
       snd (delete_scan calm_env (uuid4 calm_env) two_scan_store))).
  { vm_compute. reflexivity. }
  split; [exact Hdel|].
  exact (delete_then_list calm_env (uuid4 calm_env) two_scan_store _ _ None Hdel).
Defined.

(** X11.  Whatever [delete_scan] of one identifier does, whether it returns
    or raises, [get_scan] of another identifier answers after it as it did
    before it. *)
Theorem delete_keeps_other_scans (str_other : json -> pystr) (e : env)
    (deleted other : pystr) (st : state) :
  deleted <> other ->
  fst (get_scan str_other other (snd (delete_scan e deleted st)))
  = fst (get_scan str_other other st).
Proof.
  intros Hne. unfold delete_scan, bind, read_db, lift, assign_db.
  destruct (py_len (scans_db st)) as [n|] eqn:Hlen; [|reflexivity].
  destruct (py_iter (scans_db st)) as [items|] eqn:Hiter; cbn [rbind]; [|reflexivity].
  destruct (select _ (py "id") items) as [kept|] eqn:Hsel; [|reflexivity].
  destruct (select_ok _ _ _ _ Hsel) as [Hdicts _].
  rewrite (select_other_ids _ _ Hdicts) in Hsel. injection Hsel as <-.
  assert (Hget : forall st1, scans_db st1
                   = JArr (List.filter (fun scan => negb (has_id deleted scan)) items) ->
            fst (get_scan str_other other st1) = fst (get_scan str_other other st)).
  { intros st1 Hdb1. unfold get_scan, bind, read_db, lift. cbn [fst].
    rewrite Hdb1, Hiter. cbn [py_iter rbind]. by apply find_scan_filter. }
  destruct (Nat.eqb _ n); [by apply Hget|].
  unfold dump_snapshot, bind, read_db, write_file, ret.
  cbn [scans_db set_scans_db files set_files].
  destruct (write_outcome e SNAPSHOT); by apply Hget.
Qed.

Lemma delete_keeps_other_scans_witness :
  uuid4 calm_env <> uuid4 later_env
  /\ fst (get_scan (fun _ => []) (uuid4 later_env)
            (snd (delete_scan calm_env (uuid4 calm_env) two_scan_store)))
     = fst (get_scan (fun _ => []) (uuid4 later_env) two_scan_store).
Proof.
  assert (Hne : uuid4 calm_env <> uuid4 later_env) by discriminate.
  split; [exact Hne|].
  exact (delete_keeps_other_scans (fun _ => []) calm_env (uuid4 calm_env) (uuid4 later_env)
           two_scan_store Hne).
Defined.

(** X12.  A [delete_scan] that returned cannot be repeated: the same
    request, in any environment, raises 404, and leaves the state, the
    snapshot file included, as the first one left it. *)
Theorem delete_twice_not_found (e e' : env) (scan_id : pystr) (st st' : state) (v : json) :
  delete_scan e scan_id st = (Ok v, st') ->
  delete_scan e' scan_id st' = (Raise (HTTPException 404 ScanNotFound), st').
Proof.
  intros Hdel.
  destruct (delete_scan_ok_inv _ _ _ _ _ Hdel) as (items & _ & Hdicts & _ & Hdb' & _).
  apply (delete_scan_absent e' scan_id _ st' Hdb').
  - apply List.Forall_forall. intros scan [Hin _]%filter_In.
    rewrite List.Forall_forall in Hdicts. by apply Hdicts.
  - apply List.Forall_forall. intros scan [_ Hid]%filter_In. by apply negb_true_iff.
Qed.

Lemma delete_twice_not_found_witness :
  delete_scan calm_env (uuid4 calm_env) one_scan_store
  = (Ok (JObj [(py "status", JStr (py "success")); (py "message", JStr (py "Scan deleted"))]),
     snd (delete_scan calm_env (uuid4 calm_env) one_scan_store))
  /\ delete_scan calm_env (uuid4 calm_env)
       (snd (delete_scan calm_env (uuid4 calm_env) one_scan_store))
     = (Raise (HTTPException 404 ScanNotFound),
        snd (delete_scan calm_env (uuid4 calm_env) one_scan_store)).
Proof.
  assert (Hdel : delete_scan calm_env (uuid4 calm_env) one_scan_store
    = (Ok (JObj [(py "status", JStr (py "success")); (py "message", JStr (py "Scan deleted"))]),
       snd (delete_scan calm_env (uuid4 calm_env) one_scan_store))).
  { vm_compute. reflexivity. }
  split; [exact Hdel|].
  exact (delete_twice_not_found calm_env calm_env (uuid4 calm_env) one_scan_store _ _ Hdel).
Defined.

(** ** Records and the model [ScanResult] *)

Lemma conforms_record (scan : json) :
  conforms ScanResult scan = true ->
  exists d, scan = JObj d /\ has_path_fields d = true.
Proof.
  destruct scan as [| | | | | |d]; try discriminate. intros Hfields.
  exists d. split; [reflexivity|].
  cbn [conforms ScanResult forallb fst snd] in Hfields.
  rewrite !andb_true_iff in Hfields.
  destruct Hfields as (_ & _ & Hpre & Hduring & Hres & _).
  unfold has_path_fields, dict_mem.
  destruct (dict_get (py "pre_op_path") d); [|discriminate Hpre].
  destruct (dict_get (py "during_op_path") d); [|discriminate Hduring].
  by destruct (dict_get (py "result_path") d).
Qed.

Lemma scan_store_records (st : state) :
  scan_store st = true ->
  exists items,
    scans_db st = JArr items
    /\ forallb (conforms ScanResult) items = true
    /\ Forall (fun scan => is_dict scan = true) items
    /\ Forall (fun scan => exists d, scan = JObj d /\ has_path_fields d = true) items.
Proof.
  unfold scan_store. destruct (scans_db st) as [| | | | |items|]; try discriminate.
  intros Hall. exists items. split; [reflexivity|]. split; [exact Hall|].
  rewrite forallb_forall in Hall.
  split; apply List.Forall_forall; intros scan Hin;
    destruct (conforms_record scan (Hall scan Hin)) as (d & -> & Hpaths); [reflexivity|eauto].
Qed.

(** The record of a new scan has the fields of the model. *)
Lemma new_record_conforms (e : env) (pre_op_image during_op_image : upload)
    (patient_id : pystr) :
  conforms ScanResult (new_record e pre_op_image during_op_image patient_id) = true.
Proof. reflexivity. Qed.

(** X1.  The handlers keep [scans_db] a list of records that have the
    fields of the model [ScanResult], each with a value of the annotated
    type: a startup without a snapshot file begins with such a list (the
    empty one), and every handler, whether it returns or raises, leaves
    such a list when it found one. *)
Theorem records_conform_to_ScanResult :
  (forall e st, files st !! SNAPSHOT = None -> scan_store (snd (startup e st)) = true)
  /\ (forall e pre_op_image during_op_image patient_id st,
        uuid_text (uuid4 e) = true ->
        scan_store st = true ->
        scan_store (snd (analyze_occlusion e pre_op_image during_op_image patient_id st))
        = true)
  /\ (forall e scan_id st,
        scan_store st = true -> scan_store (snd (delete_scan e scan_id st)) = true)
  /\ (forall str_other scan_id st,
        scan_store st = true -> scan_store (snd (get_scan str_other scan_id st)) = true)
  /\ (forall patient_id st,
        scan_store st = true -> scan_store (snd (get_scans patient_id st)) = true).
Proof.
  split; [|split; [|split; [|split]]].
  - intros e st Hfile. unfold startup, load_scans_from_db, bind, assign_db.
    by rewrite Hfile.
  - intros e pre during pid st Huuid Hstore.
    destruct (analyze_occlusion_db e pre during pid st _ _ Huuid (surjective_pairing _))
      as [Hsame|(items & Hdb & Hdb')]; unfold scan_store in *.
    + by rewrite Hsame.
    + rewrite Hdb in Hstore. rewrite Hdb', forallb_app, Hstore. reflexivity.
  - intros e scan_id st Hstore.
    destruct (scan_store_records _ Hstore) as (items & Hdb & Hall & Hdicts & _).
    assert (Hkept : forall st1,
              scans_db st1 = JArr (List.filter (fun scan => negb (has_id scan_id scan)) items) ->
              scan_store st1 = true).
    { intros st1 Hdb1. unfold scan_store. rewrite Hdb1.
      rewrite forallb_forall in *. intros scan [Hin _]%filter_In. by apply Hall. }
    unfold delete_scan, bind, read_db, lift, assign_db. rewrite Hdb.
    cbn [py_len py_iter rbind]. rewrite (select_other_ids _ _ Hdicts).
    destruct (Nat.eqb _ _); [by apply Hkept|].
    unfold dump_snapshot, bind, read_db, write_file, ret.
    cbn [scans_db set_scans_db files set_files].
    destruct (write_outcome e SNAPSHOT); by apply Hkept.
  - intros str_other scan_id st Hstore. exact Hstore.
  - intros [[|c q]|] st Hstore; exact Hstore.
Qed.

Lemma records_conform_to_ScanResult_witness :
  uuid_text (uuid4 calm_env) = true
  /\ scan_store empty_store = true
  /\ scan_store (snd (analyze_occlusion calm_env (photo "before.png") (photo "during.jpeg")
                        (py "P1") empty_store)) = true.
Proof.
  split; [reflexivity|]. split; [reflexivity|].
  apply (proj1 (proj2 records_conform_to_ScanResult)); reflexivity.
Defined.

(** The loop of [get_scan] over records with the three path fields: it
    returns the first record that carries the identifier, with the links
    added. *)
Lemma find_scan_found (str_other : json -> pystr) (scan_id : pystr) (items : list json) :
  Forall (fun scan => exists d, scan = JObj d /\ has_path_fields d = true) items ->
  existsb (has_id scan_id) items = true ->
  exists d d',
    In (JObj d) items
    /\ has_id scan_id (JObj d) = true
    /\ with_urls str_other d = Ok d'
    /\ find_scan str_other scan_id items = Ok (JObj d').
Proof.
  induction 1 as [|scan rest (d & -> & Hpaths) _ IH]; [discriminate|].
  cbn [existsb find_scan py_get rbind].
  change (eq_str (dict_get (py "id") d) scan_id) with (has_id scan_id (JObj d)).
  destruct (has_id scan_id (JObj d)) eqn:Hid; cbn [orb].
  - intros _. destruct (with_urls_ok str_other d Hpaths) as (? & ? & ? & _ & _ & _ & Hurls).
    eexists d, _. split; [by left|]. split; [exact Hid|]. split; [exact Hurls|].
    by rewrite Hurls.
  - intros Hrest. destruct (IH Hrest) as (d0 & d' & Hin & Hrest').
    exists d0, d'. split; [by right|]. exact Hrest'.
Qed.

Lemma existsb_false_forall {A} (f : A -> bool) (l : list A) :
  existsb f l = false -> Forall (fun x => f x = false) l.
Proof.
  induction l as [|x l IH]; cbn [existsb]; [constructor|].
  intros [Hx Hl]%orb_false_iff. constructor; [exact Hx|by apply IH].
Qed.

(** X5.  In a store whose records have the fields of [ScanResult] no
    handler fails on the shape of a record.  [get_scan] returns a record
    that carries the identifier, with its links, when there is one,
    and raises 404 when there is none; [get_scans] always returns; and
    [delete_scan] raises 404 when no record carries the identifier, and
    otherwise returns or raises the error of the snapshot write. *)
Theorem conforming_store_errors (str_other : json -> pystr) (e : env) (st : state) :
  scan_store st = true ->
  (forall scan_id,
      (existsb (has_id scan_id) (records st) = true
       /\ exists d d',
            In (JObj d) (records st)
            /\ has_id scan_id (JObj d) = true
            /\ with_urls str_other d = Ok d'
            /\ get_scan str_other scan_id st = (Ok (JObj d'), st))
      \/ (existsb (has_id scan_id) (records st) = false
          /\ get_scan str_other scan_id st = (Raise (HTTPException 404 ScanNotFound), st)))
  /\ (forall patient_id, exists listed, get_scans patient_id st = (Ok (JArr listed), st))
  /\ (forall scan_id,
        (existsb (has_id scan_id) (records st) = false
         /\ delete_scan e scan_id st = (Raise (HTTPException 404 ScanNotFound), st))
        \/ (existsb (has_id scan_id) (records st) = true
            /\ ((exists v st', delete_scan e scan_id st = (Ok v, st'))
                \/ (exists errno st',
                      write_outcome e SNAPSHOT <> IoDone
                      /\ delete_scan e scan_id st = (Raise (OSError errno), st'))))).
Proof.
  intros Hstore.
  destruct (scan_store_records _ Hstore) as (items & Hdb & _ & Hdicts & Hpaths).
  unfold records. rewrite Hdb.
  split; [|split].
  - intros scan_id. unfold get_scan, bind, read_db, lift. rewrite Hdb. cbn [py_iter rbind].
    destruct (existsb (has_id scan_id) items) eqn:Hex; [left|right]; (split; [reflexivity|]).
    + destruct (find_scan_found str_other scan_id items Hpaths Hex)
        as (d & d' & Hin & Hid & Hurls & Hfind).
      exists d, d'. by rewrite Hfind.
    + by rewrite (find_scan_absent _ _ _ Hdicts (existsb_false_forall _ _ Hex)).
  - intros patient_id. rewrite (get_scans_dicts patient_id _ _ Hdb Hdicts). eauto.
  - intros scan_id.
    destruct (existsb (has_id scan_id) items) eqn:Hex; [right|left]; (split; [reflexivity|]).
    + unfold delete_scan, bind, read_db, lift, assign_db. rewrite Hdb.
      cbn [py_len py_iter rbind]. rewrite (select_other_ids _ _ Hdicts).
      assert (Hlen : length (List.filter (fun scan => negb (has_id scan_id scan)) items)
                     <> length items).
      { apply filter_shortens. apply existsb_exists in Hex as (scan & Hin & Hid).
        apply Exists_exists. exists scan. split; [by apply list_elem_of_In|].
        by rewrite Hid. }
      apply Nat.eqb_neq in Hlen. rewrite Hlen.
      unfold dump_snapshot, bind, read_db, write_file, ret.
      cbn [scans_db set_scans_db files set_files].
      destruct (write_outcome e SNAPSHOT) as [|errno|errno written]; [left|right..]; eauto.
    + exact (delete_scan_absent e scan_id items st Hdb Hdicts (existsb_false_forall _ _ Hex)).
Qed.

Lemma conforming_store_errors_witness :
  scan_store one_scan_store = true
  /\ exists listed,
       get_scans (Some (py "P1")) one_scan_store = (Ok (JArr listed), one_scan_store).
Proof.
  assert (Hstore : scan_store one_scan_store = true) by (vm_compute; reflexivity).
  split; [exact Hstore|].
  apply (proj1 (proj2 (conforming_store_errors (fun _ => []) calm_env one_scan_store Hstore))).
Defined.

(** ** Items that are not records *)

(** The comprehension stops at the first item without a [get] method. *)
Lemma select_non_dict (keep : option json -> bool) (key : pystr) (items : list json) :
  Exists (fun scan => is_dict scan = false) items ->
  select keep key items = Raise AttributeError.
Proof.
  induction 1 as [scan rest Hscan|scan rest _ IH]; cbn [select].
  - by destruct scan.
  - destruct scan; try reflexivity. cbn [py_get rbind]. by rewrite IH.
Qed.

(** X6.  When an item of [scans_db] is not a [dict] the two comprehensions
    fail on it: [get_scans] with a non-empty patient identifier and
    [delete_scan] both raise [AttributeError] and leave the state as it
    was ([delete_scan] has not yet rebound [scans_db] and writes nothing),
    while [get_scans] without a filter still returns the whole list. *)
Theorem non_dict_item_breaks_filters (e : env) (items : list json)
    (fs : gmap pystr (list N)) (wanted scan_id : pystr) :
  Exists (fun scan => is_dict scan = false) items ->
  wanted <> [] ->
  get_scans (Some wanted) (store_of items fs) = (Raise AttributeError, store_of items fs)
  /\ delete_scan e scan_id (store_of items fs) = (Raise AttributeError, store_of items fs)
  /\ get_scans None (store_of items fs) = (Ok (JArr items), store_of items fs).
Proof.
  intros Hitem Hwanted. split; [|split; [|reflexivity]].
  - destruct wanted as [|c wanted]; [done|].
    unfold get_scans, bind, read_db, lift. cbn [scans_db store_of py_iter rbind].
    by rewrite (select_non_dict _ _ _ Hitem).
  - unfold delete_scan, bind, read_db, lift. cbn [scans_db store_of py_len py_iter rbind].
    by rewrite (select_non_dict _ _ _ Hitem).
Qed.

Lemma non_dict_item_breaks_filters_witness :
  scans_db null_item_store = JArr [JNull]
  /\ get_scans (Some (py "P1")) (store_of [JNull] ∅)
     = (Raise AttributeError, store_of [JNull] ∅).
Proof.
  split; [vm_compute; reflexivity|].
  apply (non_dict_item_breaks_filters calm_env [JNull] ∅ (py "P1") (py "a1")).
  - apply Exists_cons_hd. reflexivity.
  - discriminate.
Defined.

(** X7.  [get_scan] guards the [result_path] field only.  For the first
    record that carries the identifier: without a [pre_op_path] or a
    [during_op_path] the handler raises [KeyError] with the name of the
    field; with both and without a [result_path] it returns the record
    with the two links and adds no [result_url]. *)
Theorem get_scan_missing_fields (str_other : json -> pystr) (scan_id : pystr)
    (before rest : list json) (d : pydict) (fs : gmap pystr (list N)) :
  Forall (fun scan => is_dict scan = true) before ->
  Forall (fun scan => has_id scan_id scan = false) before ->
  has_id scan_id (JObj d) = true ->
  (dict_get (py "pre_op_path") d = None ->
   fst (get_scan str_other scan_id (store_of (before ++ JObj d :: rest) fs))
   = Raise (KeyError (py "pre_op_path")))
  /\ (forall pre_op,
        dict_get (py "pre_op_path") d = Some pre_op ->
        dict_get (py "during_op_path") d = None ->
        fst (get_scan str_other scan_id (store_of (before ++ JObj d :: rest) fs))
        = Raise (KeyError (py "during_op_path")))
  /\ (forall pre_op during_op,
        dict_get (py "pre_op_path") d = Some pre_op ->
        dict_get (py "during_op_path") d = Some during_op ->
        dict_get (py "result_path") d = None ->
        exists d',
          fst (get_scan str_other scan_id (store_of (before ++ JObj d :: rest) fs))
          = Ok (JObj d')
          /\ d' = dict_set (py "during_op_url") (file_url str_other during_op)
                    (dict_set (py "pre_op_url") (file_url str_other pre_op) d)
          /\ dict_get (py "result_url") d' = dict_get (py "result_url") d).
Proof.
  intros Hdicts Hids Hid.
  assert (Hget : fst (get_scan str_other scan_id (store_of (before ++ JObj d :: rest) fs))
                 = (let? scan_data := with_urls str_other d in Ok (JObj scan_data))%result).
  { unfold get_scan, bind, read_db, lift. cbn [fst scans_db store_of py_iter rbind].
    rewrite (find_scan_skip _ _ _ _ Hdicts Hids). cbn [find_scan py_get rbind].
    unfold has_id, field_is in Hid. by rewrite Hid. }
  rewrite Hget. unfold with_urls, subscript, dict_mem.
  split; [|split].
  - by intros ->.
  - intros pre_op -> Hduring. cbn [rbind].
    rewrite dict_get_set_ne by discriminate. by rewrite Hduring.
  - intros pre_op during_op -> Hduring Hres. cbn [rbind].
    rewrite dict_get_set_ne by discriminate. rewrite Hduring. cbn [rbind].
    rewrite !dict_get_set_ne by discriminate. rewrite Hres. cbn [rbind].
    eexists. split; [reflexivity|]. split; [reflexivity|].
    by rewrite !dict_get_set_ne by discriminate.
Qed.

Lemma get_scan_missing_fields_witness :
  has_id (py "a1") (JObj bare_record) = true
  /\ dict_get (py "pre_op_path") bare_record = None
  /\ fst (get_scan (fun _ => []) (py "a1") (store_of ([] ++ [JObj bare_record]) ∅))
     = Raise (KeyError (py "pre_op_path")).
Proof.
  split; [reflexivity|]. split; [reflexivity|].
  apply (proj1 (get_scan_missing_fields (fun _ => []) (py "a1") [] [] bare_record ∅
                  (List.Forall_nil _) (List.Forall_nil _) eq_refl)).
  reflexivity.
Defined.

(** ** A scan created, then read *)

(** X8.  The scan a create request made is served: when no step of the
    request failed and no earlier record carries the identifier drawn,
    [get_scan] of the [scan_id] of the response returns the new record
    followed by three links, and each link is the address, under the
    server's base, of a file that is on disk with the content written for
    it: the bytes of each upload, and the text of the analysis. *)
Theorem created_scan_is_served (str_other : json -> pystr) (e : env)
    (pre_op_image during_op_image : upload) (patient_id : pystr)
    (items : list json) (fs : gmap pystr (list N)) :
  uuid_text (uuid4 e) = true ->
  io_succeeds e pre_op_image during_op_image ->
  Forall (fun scan => is_dict scan = true) items ->
  Forall (fun scan => has_id (uuid4 e) scan = false) items ->
  exists st' fields,
    analyze_occlusion e pre_op_image during_op_image patient_id (store_of items fs)
    = (Ok (mock_analysis (uuid4 e)), st')
    /\ dict_get (py "scan_id") (match mock_analysis (uuid4 e) with
                                | JObj response => response
                                | _ => []
                                end) = Some (JStr (uuid4 e))
    /\ new_record e pre_op_image during_op_image patient_id = JObj fields
    /\ get_scan str_other (uuid4 e) st'
       = (Ok (JObj (fields ++ scan_links e pre_op_image during_op_image)), st')
    /\ files st' !! blob_file e (stored_name "pre_op" pre_op_image)
       = Some (contents pre_op_image)
    /\ files st' !! blob_file e (stored_name "during_op" during_op_image)
       = Some (contents during_op_image)
    /\ files st' !! blob_file e (py "analysis_results.json")
       = Some (json_dumps (mock_analysis (uuid4 e))).
Proof.
  intros Huuid Hio Hdicts Hids.
  destruct (analyze_occlusion_files e pre_op_image during_op_image patient_id items fs
              Huuid Hio) as [Hpre Hduring].
  rewrite (analyze_occlusion_ok _ _ _ patient_id items fs Huuid Hio) in *.
  eexists _, _. split; [reflexivity|]. split; [reflexivity|]. split; [reflexivity|].
  split; [|split; [exact Hpre|split; [exact Hduring|]]].
  - unfold get_scan, bind, read_db, lift. cbn [scans_db store_of py_iter rbind].
    rewrite (find_scan_skip _ _ _ _ Hdicts Hids).
    unfold new_record. cbn [find_scan py_get rbind].
    change (dict_get (py "id") _) with (Some (JStr (uuid4 e))) at 1.
    cbn [eq_str]. rewrite pystr_eqb_refl. reflexivity.
  - cbn [files store_of]. rewrite lookup_insert_ne by apply not_eq_sym, blob_file_not_snapshot.
    apply lookup_insert_eq.
Qed.

Lemma created_scan_is_served_witness :
  exists st' fields,
    analyze_occlusion calm_env (photo "before.png") (photo "during.jpeg") (py "P1")
      (store_of [] ∅)
    = (Ok (mock_analysis (uuid4 calm_env)), st')
    /\ get_scan (fun _ => []) (uuid4 calm_env) st'
       = (Ok (JObj (fields
                    ++ scan_links calm_env (photo "before.png") (photo "during.jpeg"))), st')
    /\ files st' !! blob_file calm_env (stored_name "pre_op" (photo "before.png"))
       = Some (contents (photo "before.png")).
Proof.
  destruct (created_scan_is_served (fun _ => []) calm_env (photo "before.png")
              (photo "during.jpeg") (py "P1") [] ∅ eq_refl (calm_io_succeeds _ _)
              (List.Forall_nil _) (List.Forall_nil _))
    as (st' & fields & Hrun & _ & _ & Hget & Hpre & _).
  exists st', fields. split; [exact Hrun|]. split; [exact Hget|exact Hpre].
Defined.

(** X9.  After a create request in which no step failed, [get_scans]
    returns, for every argument, what it returned before, followed by the
    new record when the argument selects it: always without a filter,
    and with the filter of a patient when the request named that
    patient. *)
Theorem create_then_list (e : env) (pre_op_image during_op_image : upload)
    (patient_id : pystr) (items : list json) (fs : gmap pystr (list N))
    (wanted : option pystr) :
  uuid_text (uuid4 e) = true ->
  io_succeeds e pre_op_image during_op_image ->
  Forall (fun scan => is_dict scan = true) items ->
  exists before st',
    analyze_occlusion e pre_op_image during_op_image patient_id (store_of items fs)
    = (Ok (mock_analysis (uuid4 e)), st')
    /\ get_scans wanted (store_of items fs) = (Ok (JArr before), store_of items fs)
    /\ get_scans wanted st'
       = (Ok (JArr (before
                      ++ listed_for wanted patient_id
                           (new_record e pre_op_image during_op_image patient_id))), st').
Proof.
  intros Huuid Hio Hdicts.
  rewrite (analyze_occlusion_ok _ _ _ patient_id items fs Huuid Hio).
  eexists _, _. split; [reflexivity|].
  rewrite (get_scans_dicts wanted items (store_of items fs) eq_refl Hdicts).
  split; [reflexivity|].
  assert (Hdicts' : Forall (fun scan => is_dict scan = true)
                      (items ++ [new_record e pre_op_image during_op_image patient_id])).
  { apply Forall_app. split; [exact Hdicts|]. by repeat constructor. }
  match goal with
  | |- get_scans wanted ?st1 = _ => rewrite (get_scans_dicts wanted _ st1 eq_refl Hdicts')
  end.
  destruct wanted as [[|c q]|]; try reflexivity.
  unfold listed_for. rewrite List.filter_app. cbn [List.filter].
  change (has_patient (c :: q) (new_record e pre_op_image during_op_image patient_id))
    with (pystr_eqb patient_id (c :: q)).
  destruct (pystr_eqb (c :: q) patient_id) eqn:Heq.
  - apply pystr_eqb_eq in Heq as <-. by rewrite pystr_eqb_refl.
  - apply pystr_eqb_neq in Heq.
    assert (Hne : pystr_eqb patient_id (c :: q) = false) by (apply pystr_eqb_neq; congruence).
    by rewrite Hne.
Qed.

Lemma create_then_list_witness :
  exists before st',
    analyze_occlusion calm_env (photo "before.png") (photo "during.jpeg") (py "P1")
      (store_of [] ∅)
    = (Ok (mock_analysis (uuid4 calm_env)), st')
    /\ get_scans (Some (py "P1")) (store_of [] ∅) = (Ok (JArr before), store_of [] ∅)
    /\ get_scans (Some (py "P1")) st'
       = (Ok (JArr (before
                    ++ listed_for (Some (py "P1")) (py "P1")
                         (new_record calm_env (photo "before.png") (photo "during.jpeg")
                            (py "P1")))), st').
Proof.
  exact (create_then_list calm_env (photo "before.png") (photo "during.jpeg") (py "P1")
           [] ∅ (Some (py "P1")) eq_refl (calm_io_succeeds _ _) (List.Forall_nil _)).
Defined.

(** ** Create requests that fail *)

(** Lines 133-137 when the directory cannot be made. *)
Lemma allocate_fails (e : env) (pre_op_image during_op_image : upload) (st : state)
    (errno : Z) :
  mkdir_errno e (path_div UPLOAD_DIR (uuid4 e)) = Some errno ->
  allocate e pre_op_image during_op_image st = (Raise (OSError errno), st).
Proof. intros Hmkdir. unfold allocate, mkdir, bind. by rewrite Hmkdir. Qed.

(** X16.  When the directory of the scan cannot be made the request ends
    with the 500 exception that carries the error, and the state is the
    state before the request: no file was written, and the [except] block,
    which finds no [pre_op_path] among the local variables, removes
    none. *)
Theorem mkdir_failure_changes_nothing (e : env) (pre_op_image during_op_image : upload)
    (patient_id : pystr) (st : state) (errno : Z) :
  mkdir_errno e (path_div UPLOAD_DIR (uuid4 e)) = Some errno ->
  analyze_occlusion e pre_op_image during_op_image patient_id st
  = (Raise (HTTPException 500 (AnalysisFailed (OSError errno))), st).
Proof.
  intros Hmkdir. unfold analyze_occlusion, try_except, bind.
  by rewrite (allocate_fails _ _ _ _ _ Hmkdir).
Qed.

Lemma mkdir_failure_changes_nothing_witness :
  analyze_occlusion locked_uploads_env (photo "before.png") (photo "during.jpeg") (py "P1")
    one_scan_store
  = (Raise (HTTPException 500 (AnalysisFailed (OSError 13))), one_scan_store).
Proof.
  exact (mkdir_failure_changes_nothing locked_uploads_env (photo "before.png")
           (photo "during.jpeg") (py "P1") one_scan_store 13 eq_refl).
Defined.

(** The files after the [except] block: the two uploads removed from
    what was there. *)
Lemma cleanup_files {A} (l : locals) (cause : exn) (st : state) :
  cleanup (A := A) (Some l) cause st
  = (Raise (HTTPException 500 (AnalysisFailed cause)),
     set_files (delete (path_str (during_op_path l))
                  (delete (path_str (pre_op_path l)) (files st))) st).
Proof.
  unfold cleanup, remove_if_exists, bind, path_exists, unlink, ret, raise.
  assert (Hgone : forall (p : pystr) (fs : gmap pystr (list N)),
            bool_decide (is_Some (fs !! p)) = false -> delete p fs = fs).
  { intros p fs Hp. apply bool_decide_eq_false in Hp.
    apply delete_id. by apply eq_None_not_Some. }
  destruct (bool_decide (is_Some (files st !! path_str (pre_op_path l)))) eqn:Hpre;
    cbn [files set_files];
    match goal with
    | |- context [bool_decide (is_Some (?fs !! path_str (during_op_path l)))] =>
        destruct (bool_decide (is_Some (fs !! path_str (during_op_path l)))) eqn:Hduring
    end; cbn [files set_files scans_db];
    rewrite ?(Hgone _ _ Hpre); rewrite ?(Hgone _ _ Hduring); by destruct st.
Qed.

(** With the three files written, [store_scan] comes to
    [save_scan_to_db] with the record of the new scan. *)
Lemma store_scan_blobs (e : env) (pre_op_image during_op_image : upload)
    (patient_id : pystr) (st : state) :
  uuid_text (uuid4 e) = true ->
  blobs_succeed e pre_op_image during_op_image ->
  store_scan e (scan_locals e pre_op_image during_op_image) pre_op_image during_op_image
    patient_id st
  = (run save_scan_to_db e (new_record e pre_op_image during_op_image patient_id) ;;
     ret (mock_analysis (uuid4 e)))
      (set_files (with_blobs e pre_op_image during_op_image (files st)) st).
Proof.
  intros Huuid (_ & Hpre & Hduring & Hresult).
  destruct (scan_paths e _ Huuid (stored_name_plain "pre_op" pre_op_image pre_op_plain))
    as [Hpre_str Hpre_rel].
  destruct (scan_paths e _ Huuid (stored_name_plain "during_op" during_op_image during_op_plain))
    as [Hduring_str Hduring_rel].
  destruct (scan_paths e _ Huuid analysis_results_plain) as [Hres_str Hres_rel].
  unfold store_scan, scan_locals, with_blobs, write_file, lift, ret.
  cbn [pre_op_path during_op_path scan_dir scan_id].
  rewrite Hpre_str, Hduring_str, Hres_str, Hpre_rel, Hduring_rel, Hres_rel.
  unfold bind at 1. rewrite Hpre. cbn [set_files files scans_db].
  unfold bind at 1. rewrite Hduring. cbn [set_files files scans_db].
  unfold bind at 1. rewrite Hresult. cbn [set_files files scans_db].
  reflexivity.
Qed.

(** A create request whose three files were written: what is left is
    [save_scan_to_db], under the [except] block. *)
Lemma analyze_occlusion_blobs (e : env) (pre_op_image during_op_image : upload)
    (patient_id : pystr) (st : state) :
  uuid_text (uuid4 e) = true ->
  blobs_succeed e pre_op_image during_op_image ->
  analyze_occlusion e pre_op_image during_op_image patient_id st
  = try_except
      (run save_scan_to_db e (new_record e pre_op_image during_op_image patient_id) ;;
       ret (mock_analysis (uuid4 e)))
      (cleanup (Some (scan_locals e pre_op_image during_op_image)))
      (set_files (with_blobs e pre_op_image during_op_image (files st)) st).
Proof.
  intros Huuid Hblobs. pose proof Hblobs as (Hmkdir & _).
  unfold analyze_occlusion. unfold bind at 1. unfold try_except at 1.
  rewrite (allocate_ok _ _ _ _ Hmkdir). fold (scan_locals e pre_op_image during_op_image).
  unfold try_except. by rewrite (store_scan_blobs _ _ _ _ _ Huuid Hblobs).
Qed.

(** The paths of the two uploads, as the [except] block sees them. *)
Lemma scan_locals_paths (e : env) (pre_op_image during_op_image : upload) :
  uuid_text (uuid4 e) = true ->
  path_str (pre_op_path (scan_locals e pre_op_image during_op_image))
  = blob_file e (stored_name "pre_op" pre_op_image)
  /\ path_str (during_op_path (scan_locals e pre_op_image during_op_image))
     = blob_file e (stored_name "during_op" during_op_image).
Proof.
  intros Huuid. cbn [scan_locals pre_op_path during_op_path]. split.
  - apply (scan_paths e _ Huuid (stored_name_plain "pre_op" pre_op_image pre_op_plain)).
  - apply (scan_paths e _ Huuid (stored_name_plain "during_op" during_op_image during_op_plain)).
Qed.

(** The files of a scan whose uploads the [except] block removed: the
    analysis is still there. *)
Lemma uploads_removed (e : env) (pre_op_image during_op_image : upload)
    (fs : gmap pystr (list N)) :
  fs !! blob_file e (py "analysis_results.json")
  = Some (json_dumps (mock_analysis (uuid4 e))) ->
  let fs' := delete (blob_file e (stored_name "during_op" during_op_image))
               (delete (blob_file e (stored_name "pre_op" pre_op_image)) fs) in
  fs' !! blob_file e (stored_name "pre_op" pre_op_image) = None
  /\ fs' !! blob_file e (stored_name "during_op" during_op_image) = None
  /\ fs' !! blob_file e (py "analysis_results.json")
     = Some (json_dumps (mock_analysis (uuid4 e)))
  /\ fs' !! SNAPSHOT = fs !! SNAPSHOT.
Proof.
  intros Hres fs'. subst fs'.
  destruct (stored_names_differ pre_op_image during_op_image) as (Hpd & Hpa & Hda).
  assert (blob_file e (stored_name "during_op" during_op_image)
          <> blob_file e (stored_name "pre_op" pre_op_image))
    by (intros Heq; by apply blob_file_inj in Heq).
  assert (blob_file e (stored_name "pre_op" pre_op_image)
          <> blob_file e (py "analysis_results.json"))
    by (intros Heq; by apply blob_file_inj in Heq).
  assert (blob_file e (stored_name "during_op" during_op_image)
          <> blob_file e (py "analysis_results.json"))
    by (intros Heq; by apply blob_file_inj in Heq).
  pose proof (blob_file_not_snapshot e (stored_name "pre_op" pre_op_image)).
  pose proof (blob_file_not_snapshot e (stored_name "during_op" during_op_image)).
  split; [|split; [|split]].
  - rewrite lookup_delete_ne by done. apply lookup_delete_eq.
  - apply lookup_delete_eq.
  - by rewrite !lookup_delete_ne by done.
  - by rewrite !lookup_delete_ne by done.
Qed.

Lemma with_blobs_lookup (e : env) (pre_op_image during_op_image : upload)
    (fs : gmap pystr (list N)) :
  with_blobs e pre_op_image during_op_image fs !! blob_file e (py "analysis_results.json")
  = Some (json_dumps (mock_analysis (uuid4 e)))
  /\ with_blobs e pre_op_image during_op_image fs !! SNAPSHOT = fs !! SNAPSHOT.
Proof.
  unfold with_blobs. split; [apply lookup_insert_eq|].
  by rewrite !lookup_insert_ne by apply blob_file_not_snapshot.
Qed.

(** X17.  [load_scans_from_db] takes whatever value the snapshot denotes,
    and [save_scan_to_db] needs a list.  When [scans_db] is not a list,
    a create request whose files can all be written ends with the 500
    exception that carries [AttributeError], raised by [append]:
    [scans_db] and the snapshot file are untouched, the two uploads
    written are removed again, and the analysis file stays in the
    directory of the scan. *)
Theorem create_needs_a_list (e : env) (pre_op_image during_op_image : upload)
    (patient_id : pystr) (st : state) :
  uuid_text (uuid4 e) = true ->
  blobs_succeed e pre_op_image during_op_image ->
  is_list (scans_db st) = false ->
  exists st',
    analyze_occlusion e pre_op_image during_op_image patient_id st
    = (Raise (HTTPException 500 (AnalysisFailed AttributeError)), st')
    /\ scans_db st' = scans_db st
    /\ files st' !! SNAPSHOT = files st !! SNAPSHOT
    /\ files st' !! blob_file e (stored_name "pre_op" pre_op_image) = None
    /\ files st' !! blob_file e (stored_name "during_op" during_op_image) = None
    /\ files st' !! blob_file e (py "analysis_results.json")
       = Some (json_dumps (mock_analysis (uuid4 e))).
Proof.
  intros Huuid Hblobs Hlist.
  rewrite (analyze_occlusion_blobs _ _ _ _ _ Huuid Hblobs).
  destruct (scan_locals_paths e pre_op_image during_op_image Huuid) as [Hpre Hduring].
  destruct (with_blobs_lookup e pre_op_image during_op_image (files st)) as [Hres Hsnap].
  destruct (uploads_removed e pre_op_image during_op_image _ Hres) as (H1 & H2 & H3 & H4).
  unfold try_except, save_scan_to_db, list_append, bind. cbn [scans_db set_files].
  destruct (scans_db st) eqn:Hdb; try discriminate Hlist;
    rewrite cleanup_files, Hpre, Hduring; cbn [files set_files scans_db];
    (eexists; split; [reflexivity|]); cbn [files set_files scans_db];
    rewrite Hdb, H4, Hsnap; by repeat split.
Qed.

Lemma calm_blobs_succeed (pre_op_image during_op_image : upload) :
  blobs_succeed calm_env pre_op_image during_op_image.
Proof. by repeat split. Qed.

Lemma create_needs_a_list_witness :
  scans_db object_snapshot_store = JObj []
  /\ exists st',
       analyze_occlusion calm_env (photo "before.png") (photo "during.jpeg") (py "P1")
         object_snapshot_store
       = (Raise (HTTPException 500 (AnalysisFailed AttributeError)), st')
       /\ scans_db st' = JObj [].
Proof.
  assert (Hdb : scans_db object_snapshot_store = JObj []) by (vm_compute; reflexivity).
  split; [exact Hdb|].
  destruct (create_needs_a_list calm_env (photo "before.png") (photo "during.jpeg") (py "P1")
              object_snapshot_store eq_refl (calm_blobs_succeed _ _))
    as (st' & Hrun & Hdb' & _).
  - by rewrite Hdb.
  - exists st'. split; [exact Hrun|]. by rewrite Hdb', Hdb.
Defined.

(** X18.  A create request that fails at the snapshot leaves a record
    without its files.  When the three files of the scan were written and
    the snapshot cannot be rewritten, the request ends with the 500
    exception, and afterwards [get_scan] of the identifier returns the new
    record with its three links, although the two uploads the links point
    to have been removed; the analysis file is still on disk. *)
Theorem snapshot_failure_leaves_dangling_record (str_other : json -> pystr) (e : env)
    (pre_op_image during_op_image : upload) (patient_id : pystr)
    (items : list json) (fs : gmap pystr (list N)) :
  uuid_text (uuid4 e) = true ->
  blobs_succeed e pre_op_image during_op_image ->
  write_outcome e SNAPSHOT <> IoDone ->
  Forall (fun scan => is_dict scan = true) items ->
  Forall (fun scan => has_id (uuid4 e) scan = false) items ->
  exists errno st' fields,
    analyze_occlusion e pre_op_image during_op_image patient_id (store_of items fs)
    = (Raise (HTTPException 500 (AnalysisFailed (OSError errno))), st')
    /\ new_record e pre_op_image during_op_image patient_id = JObj fields
    /\ get_scan str_other (uuid4 e) st'
       = (Ok (JObj (fields ++ scan_links e pre_op_image during_op_image)), st')
    /\ files st' !! blob_file e (stored_name "pre_op" pre_op_image) = None
    /\ files st' !! blob_file e (stored_name "during_op" during_op_image) = None
    /\ files st' !! blob_file e (py "analysis_results.json")
       = Some (json_dumps (mock_analysis (uuid4 e))).
Proof.
  intros Huuid Hblobs Hsnap Hdicts Hids.
  rewrite (analyze_occlusion_blobs _ _ _ _ _ Huuid Hblobs).
  destruct (scan_locals_paths e pre_op_image during_op_image Huuid) as [Hpre Hduring].
  destruct (with_blobs_lookup e pre_op_image during_op_image fs) as [Hres _].
  assert (Hget : forall st1,
            scans_db st1 = JArr (items ++ [new_record e pre_op_image during_op_image patient_id]) ->
            get_scan str_other (uuid4 e) st1
            = (Ok (JObj (match new_record e pre_op_image during_op_image patient_id with
                         | JObj fields => fields
                         | _ => []
                         end ++ scan_links e pre_op_image during_op_image)), st1)).
  { intros st1 Hdb1. unfold get_scan, bind, read_db, lift. rewrite Hdb1.
    cbn [py_iter rbind]. rewrite (find_scan_skip _ _ _ _ Hdicts Hids).
    unfold new_record. cbn [find_scan py_get rbind].
    change (dict_get (py "id") _) with (Some (JStr (uuid4 e))) at 1.
    cbn [eq_str]. rewrite pystr_eqb_refl. reflexivity. }
  unfold try_except, save_scan_to_db, dump_snapshot, list_append, read_db, write_file, bind.
  cbn [scans_db store_of set_files set_scans_db files].
  destruct (write_outcome e SNAPSHOT) as [|errno|errno written]; [done|..];
    rewrite cleanup_files, Hpre, Hduring; cbn [files set_files scans_db set_scans_db];
    exists errno; eexists _, _; (split; [reflexivity|]); (split; [reflexivity|]);
    (split; [by apply Hget|]); cbn [files].
  - destruct (uploads_removed e pre_op_image during_op_image _ Hres) as (H1 & H2 & H3 & _).
    by repeat split.
  - assert (Hres' : <[SNAPSHOT := take written
                        (json_dumps (JArr (items ++
                           [new_record e pre_op_image during_op_image patient_id])))]>
                      (with_blobs e pre_op_image during_op_image fs)
                    !! blob_file e (py "analysis_results.json")
                    = Some (json_dumps (mock_analysis (uuid4 e)))).
    { rewrite lookup_insert_ne by apply not_eq_sym, blob_file_not_snapshot. exact Hres. }
    destruct (uploads_removed e pre_op_image during_op_image _ Hres') as (H1 & H2 & H3 & _).
    by repeat split.
Qed.

Lemma readonly_blobs_succeed (pre_op_image during_op_image : upload) :
  blobs_succeed readonly_snapshot_env pre_op_image during_op_image.
Proof. by repeat split. Qed.

Lemma snapshot_failure_leaves_dangling_record_witness :
  write_outcome readonly_snapshot_env SNAPSHOT <> IoDone
  /\ exists errno st' fields,
       analyze_occlusion readonly_snapshot_env (photo "before.png") (photo "during.jpeg")
         (py "P1") (store_of [] ∅)
       = (Raise (HTTPException 500 (AnalysisFailed (OSError errno))), st')
       /\ get_scan (fun _ => []) (uuid4 readonly_snapshot_env) st'
          = (Ok (JObj (fields ++ scan_links readonly_snapshot_env (photo "before.png")
                                   (photo "during.jpeg"))), st')
       /\ files st' !! blob_file readonly_snapshot_env (stored_name "pre_op" (photo "before.png"))
          = None.
Proof.
  assert (Hsnap : write_outcome readonly_snapshot_env SNAPSHOT <> IoDone)
    by (vm_compute; discriminate).
  split; [exact Hsnap|].
  destruct (snapshot_failure_leaves_dangling_record (fun _ => []) readonly_snapshot_env
              (photo "before.png") (photo "during.jpeg") (py "P1") [] ∅ eq_refl
              (readonly_blobs_succeed _ _) Hsnap (List.Forall_nil _) (List.Forall_nil _))
    as (errno & st' & fields & Hrun & _ & Hget & Hpre & _).
  exists errno, st', fields. split; [exact Hrun|]. split; [exact Hget|exact Hpre].
Defined.




(** ** The analysis *)

Lemma mock_analysis_ok (scan_id : pystr) :
  text_ok scan_id = true -> json_ok (mock_analysis scan_id) = true.
Proof.
  intros Hid. unfold mock_analysis. cbn [json_ok forallb fst snd map].
  rewrite (text_ok_str_ok _ Hid). vm_compute. reflexivity.
Qed.

(** X20.  The analysis file reads back as the response.  After a create
    request in which no step failed, [analysis_results.json] in the
    directory of the scan is ASCII text, parsing it gives the value the
    request returned, and the record holds the same value in its
    [analysis_results] field. *)
Theorem analysis_file_reads_back (e : env) (pre_op_image during_op_image : upload)
    (patient_id : pystr) (items : list json) (fs : gmap pystr (list N)) :
  uuid_text (uuid4 e) = true ->
  io_succeeds e pre_op_image during_op_image ->
  exists response st' text fields,
    analyze_occlusion e pre_op_image during_op_image patient_id (store_of items fs)
    = (Ok response, st')
    /\ files st' !! blob_file e (py "analysis_results.json") = Some text
    /\ is_ascii text = true
    /\ json_loads text = Ok response
    /\ scans_db st' = JArr (items ++ [JObj fields])
    /\ dict_get (py "analysis_results") fields = Some response.
Proof.
  intros Huuid Hio.
  rewrite (analyze_occlusion_ok _ _ _ patient_id items fs Huuid Hio).
  pose proof (mock_analysis_ok _ (uuid_text_ok _ Huuid)) as Hok.
  eexists _, _, _, _. split; [reflexivity|]. cbn [files store_of scans_db].
  split; [|split; [|split; [|split; [reflexivity|reflexivity]]]].
  - rewrite lookup_insert_ne by apply not_eq_sym, blob_file_not_snapshot.
    apply lookup_insert_eq.
  - by apply json_dumps_ascii.
  - by apply json_loads_dumps.
Qed.

Lemma analysis_file_reads_back_witness :
  exists response st' text fields,
    analyze_occlusion calm_env (photo "before.png") (photo "during.jpeg") (py "P1")
      (store_of [] ∅)
    = (Ok response, st')
    /\ files st' !! blob_file calm_env (py "analysis_results.json") = Some text
    /\ is_ascii text = true
    /\ json_loads text = Ok response
    /\ scans_db st' = JArr ([] ++ [JObj fields])
    /\ dict_get (py "analysis_results") fields = Some response.
Proof.
  exact (analysis_file_reads_back calm_env (photo "before.png") (photo "during.jpeg")
           (py "P1") [] ∅ eq_refl (calm_io_succeeds _ _)).
Defined.

(** A create request that returns, returns the mock analysis for the
    identifier drawn. *)
Lemma analyze_occlusion_returns (e : env) (pre_op_image during_op_image : upload)
    (patient_id : pystr) (st st' : state) (response : json) :
  analyze_occlusion e pre_op_image during_op_image patient_id st = (Ok response, st') ->
  response = mock_analysis (uuid4 e).
Proof.
  unfold analyze_occlusion. unfold bind at 1. unfold try_except at 1.
  destruct (mkdir_errno e (path_div UPLOAD_DIR (uuid4 e))) as [errno|] eqn:Hmkdir.
  - by rewrite (allocate_fails _ _ _ _ _ Hmkdir).
  - rewrite (allocate_ok _ _ _ _ Hmkdir). unfold try_except.
    match goal with
    | |- context [store_scan e ?l _ _ _ st] =>
        destruct (store_scan e l pre_op_image during_op_image patient_id st)
          as [[v|cause] st2] eqn:Hstore
    end.
    + intros [= <- _].
      destruct (store_scan_db _ _ _ _ _ _ _ _ Hstore)
        as [[_ [err Herr]]|(_ & _ & _ & _ & _ & _ & _ & [[Hok _]|[[errno Herr] _]])];
        try discriminate Herr.
      by injection Hok as ->.
    + by rewrite cleanup_files.
Qed.

(** X21.  The analysis is not computed from the request.  Two create
    requests that return, whatever their images, file names, patients,
    environments and states, return the same value under [analysis]: the
    scores 0.85 and 0.92 and the same findings and recommendations; the
    responses differ in [scan_id] only. *)
Theorem analysis_is_constant (e e' : env) (pre_op_image during_op_image : upload)
    (pre_op_image' during_op_image' : upload) (patient_id patient_id' : pystr)
    (st st1 st' st1' : state) (response response' : json) :
  analyze_occlusion e pre_op_image during_op_image patient_id st = (Ok response, st1) ->
  analyze_occlusion e' pre_op_image' during_op_image' patient_id' st' = (Ok response', st1') ->
  exists analysis,
    response = JObj [(py "status", JStr (py "success")); (py "scan_id", JStr (uuid4 e));
                     (py "analysis", analysis)]
    /\ response' = JObj [(py "status", JStr (py "success")); (py "scan_id", JStr (uuid4 e'));
                         (py "analysis", analysis)]
    /\ subscript (match analysis with JObj d => d | _ => [] end) (py "occlusion_score")
       = Ok (JFloat (py "0.85"))
    /\ subscript (match analysis with JObj d => d | _ => [] end) (py "alignment_score")
       = Ok (JFloat (py "0.92")).
Proof.
  intros ->%analyze_occlusion_returns ->%analyze_occlusion_returns.
  eexists. split; [reflexivity|]. by repeat split.
Qed.

Lemma analysis_is_constant_witness :
  exists response response' analysis,
    fst (analyze_occlusion calm_env (photo "before.png") (photo "during.jpeg") (py "P1")
           empty_store) = Ok response
    /\ fst (analyze_occlusion later_env (empty_upload "left.png") (photo "right") (py "P2")
              empty_store) = Ok response'
    /\ response = JObj [(py "status", JStr (py "success"));
                        (py "scan_id", JStr (uuid4 calm_env)); (py "analysis", analysis)]
    /\ response' = JObj [(py "status", JStr (py "success"));
                         (py "scan_id", JStr (uuid4 later_env)); (py "analysis", analysis)].
Proof.
  assert (Hrun : analyze_occlusion calm_env (photo "before.png") (photo "during.jpeg")
                   (py "P1") empty_store
                 = (Ok (mock_analysis (uuid4 calm_env)),
                    snd (analyze_occlusion calm_env (photo "before.png") (photo "during.jpeg")
                           (py "P1") empty_store)))
    by (vm_compute; reflexivity).
  assert (Hrun' : analyze_occlusion later_env (empty_upload "left.png") (photo "right")
                    (py "P2") empty_store
                  = (Ok (mock_analysis (uuid4 later_env)),
                     snd (analyze_occlusion later_env (empty_upload "left.png")
                            (photo "right") (py "P2") empty_store)))
    by (vm_compute; reflexivity).
  destruct (analysis_is_constant _ _ _ _ _ _ _ _ _ _ _ _ _ _ Hrun Hrun')
    as (analysis & Hresponse & Hresponse' & _).
  exists (mock_analysis (uuid4 calm_env)), (mock_analysis (uuid4 later_env)), analysis.
  split; [by rewrite Hrun|]. split; [by rewrite Hrun'|]. by split.
Defined.

(** ** The snapshot after a request that returned *)

(** A create request that returned wrote the text of [scans_db] to the
    snapshot. *)
Lemma analyze_occlusion_snapshot (e : env) (pre_op_image during_op_image : upload)
    (patient_id : pystr) (st st' : state) (v : json) :
  analyze_occlusion e pre_op_image during_op_image patient_id st = (Ok v, st') ->
  files st' !! SNAPSHOT = Some (json_dumps (scans_db st')).
Proof.
  intros Hrun. unfold analyze_occlusion, bind, try_except in Hrun.
  destruct (allocate e pre_op_image during_op_image st) as [[l|] st1] eqn:Halloc.
  2: { unfold cleanup, bind, ret, raise in Hrun. discriminate Hrun. }
  destruct (store_scan e l pre_op_image during_op_image patient_id st1)
    as [[v'|cause] st2] eqn:Hstore.
  2: { by rewrite cleanup_files in Hrun. }
  injection Hrun as <- <-.
  unfold store_scan, save_scan_to_db, dump_snapshot, list_append, read_db, write_file,
    lift, ret, bind in Hstore.
  repeat (match type of Hstore with
          | context [match write_outcome e ?p with _ => _ end] =>
              destruct (write_outcome e p); try discriminate Hstore;
              cbn [set_files files scans_db set_scans_db] in Hstore
          | context [match relative_str ?p with _ => _ end] =>
              destruct (relative_str p); try discriminate Hstore;
              cbn [set_files files scans_db set_scans_db] in Hstore
          | context [match scans_db ?s with _ => _ end] =>
              destruct (scans_db s); try discriminate Hstore;
              cbn [set_files files scans_db set_scans_db] in Hstore
          end).
  injection Hstore as _ <-. cbn [files scans_db]. apply lookup_insert_eq.
Qed.

(** X3.  After a create or a delete request that returned, in a state
    the store can reach, the snapshot file holds exactly the text
    [json.dump] writes for the [scans_db] of the new state, so memory and
    disk agree, and this text is ASCII whatever characters the records
    hold: every other character is written as an escape. *)
Theorem snapshot_mirrors_store (e : env) (st st' : state) (v : json) :
  reachable st ->
  (exists scan_id, delete_scan e scan_id st = (Ok v, st'))
  \/ (exists pre_op_image during_op_image patient_id,
        env_ok e /\ upload_ok pre_op_image /\ upload_ok during_op_image
        /\ text_ok patient_id = true
        /\ analyze_occlusion e pre_op_image during_op_image patient_id st = (Ok v, st')) ->
  files st' !! SNAPSHOT = Some (json_dumps (scans_db st'))
  /\ is_ascii (json_dumps (scans_db st')) = true.
Proof.
  intros Hreach Hop.
  assert (Hreach' : reachable st').
  { destruct Hop as [[scan_id Hdel]|(pre & during & pid & He & Hpre & Hduring & Hpid & Hrun)].
    - exact (reach_delete _ _ _ _ _ Hreach Hdel).
    - exact (reach_create _ _ _ _ _ _ _ Hreach He Hpre Hduring Hpid Hrun). }
  split; [|by apply json_dumps_ascii, reachable_ok].
  destruct Hop as [[scan_id Hdel]|(pre & during & pid & _ & _ & _ & _ & Hrun)].
  - destruct (delete_scan_ok_inv _ _ _ _ _ Hdel) as (items & _ & _ & _ & _ & ->).
    apply lookup_insert_eq.
  - exact (analyze_occlusion_snapshot _ _ _ _ _ _ _ Hrun).
Qed.

Lemma snapshot_mirrors_store_witness :
  files (snd (delete_scan calm_env (uuid4 calm_env) one_scan_store)) !! SNAPSHOT
  = Some (json_dumps (scans_db (snd (delete_scan calm_env (uuid4 calm_env) one_scan_store))))
  /\ is_ascii (json_dumps (scans_db (snd (delete_scan calm_env (uuid4 calm_env)
                                            one_scan_store)))) = true.
Proof.
  assert (Hdel : delete_scan calm_env (uuid4 calm_env) one_scan_store
    = (Ok (JObj [(py "status", JStr (py "success")); (py "message", JStr (py "Scan deleted"))]),
       snd (delete_scan calm_env (uuid4 calm_env) one_scan_store))).
  { vm_compute. reflexivity. }
  apply (snapshot_mirrors_store calm_env one_scan_store _
           (JObj [(py "status", JStr (py "success")); (py "message", JStr (py "Scan deleted"))])
           one_scan_store_reachable).
  left. exists (uuid4 calm_env). exact Hdel.
Defined.

(** ** Scans and their directories *)

(** The files of scans with different identifiers are different files. *)
Lemma blob_file_other (e e' : env) (name name' : pystr) :
  uuid_text (uuid4 e) = true -> uuid_text (uuid4 e') = true ->
  uuid4 e <> uuid4 e' ->
  blob_file e name <> blob_file e' name'.
Proof.
  unfold uuid_text, blob_file, path_field.
  intros [Hlen _]%andb_true_iff [Hlen' _]%andb_true_iff Hne Heq.
  apply Nat.eqb_eq in Hlen, Hlen'.
  apply app_inv_head in Heq. apply app_inj_1 in Heq as [Heq _]; [done|congruence].
Qed.

(** X15.  A create request leaves the directories of the other scans
    alone: whether it returns or raises, no file under [uploads/<id>/] of
    another identifier is created, rewritten or removed, so the files of
    the earlier scans keep their content. *)
Theorem create_leaves_other_scans (e e' : env) (pre_op_image during_op_image : upload)
    (patient_id name : pystr) (st : state) :
  uuid_text (uuid4 e) = true ->
  uuid_text (uuid4 e') = true ->
  uuid4 e <> uuid4 e' ->
  files (snd (analyze_occlusion e' pre_op_image during_op_image patient_id st))
    !! blob_file e name
  = files st !! blob_file e name.
Proof.
  intros Huuid Huuid' Hne.
  assert (Hpath : blob_file e name ∉ scan_files e' pre_op_image during_op_image).
  { unfold scan_files. rewrite !not_elem_of_cons.
    repeat split; try apply (blob_file_other _ _ _ _ Huuid Huuid' Hne).
    - apply blob_file_not_snapshot.
    - apply not_elem_of_nil. }
  unfold analyze_occlusion. unfold bind at 1.
  destruct (mkdir_errno e' (path_div UPLOAD_DIR (uuid4 e'))) as [errno|] eqn:Hmkdir.
  - unfold try_except at 1. by rewrite (allocate_fails _ _ _ _ _ Hmkdir).
  - unfold try_except at 1. rewrite (allocate_ok _ _ _ _ Hmkdir).
    fold (scan_locals e' pre_op_image during_op_image).
    by apply (touches_only_store_scan e' pre_op_image during_op_image patient_id Huuid').
Qed.

Lemma create_leaves_other_scans_witness :
  uuid4 calm_env <> uuid4 later_env
  /\ files two_scan_store !! blob_file calm_env (py "pre_op.png")
     = files one_scan_store !! blob_file calm_env (py "pre_op.png").
Proof.
  assert (Hne : uuid4 calm_env <> uuid4 later_env) by discriminate.
  split; [exact Hne|].
  exact (create_leaves_other_scans calm_env later_env (photo "left.png") (photo "right.png")
           (py "P2") (py "pre_op.png") one_scan_store eq_refl eq_refl Hne).
Defined.

(** ** The extension of an upload *)

(** When [rfind] finds the character, it is at the index returned. *)
Lemma rfind_from_found (c : N) (s : pystr) (i last : Z) :
  rfind_from i last c s = last
  \/ exists k : nat, rfind_from i last c s = (i + Z.of_nat k)%Z /\ s !! k = Some c.
Proof.
  revert i last. induction s as [|x r IH]; intros i last; cbn [rfind_from]; [by left|].
  destruct (IH (i + 1)%Z (if (x =? c)%N then i else last)) as [Hlast|(k & Hk & Hc)].
  - destruct (x =? c)%N eqn:Hx; [|by left].
    right. exists 0%nat. split; [lia|]. apply N.eqb_eq in Hx. by subst x.
  - right. exists (S k). split; [lia|exact Hc].
Qed.

(** An extension that is not empty is a dot followed by characters that
    are neither dots nor slashes. *)
Lemma splitext_shape (p : pystr) :
  snd (splitext p) = []
  \/ exists rest,
       snd (splitext p) = 46%N :: rest
       /\ Forall (fun c => c <> 46%N /\ c <> 47%N) rest.
Proof.
  pose proof (splitext_no_sep p) as Hsep. unfold splitext in *.
  destruct ((rfind 47 p <? rfind 46 p)%Z && _) eqn:Hcond; cbn [snd] in *; [|by left].
  right. apply andb_true_iff in Hcond as [Hlt _]. apply Z.ltb_lt in Hlt.
  destruct (rfind_after 47 p) as [Hge _]. destruct (rfind_after 46 p) as [_ Hdots].
  destruct (rfind_from_found 46 p 0 (-1)) as [Hnone|(k & Hk & Hdot)];
    fold (rfind 46 p) in *; [lia|].
  rewrite Hk in *.
  replace (Z.to_nat (0 + Z.of_nat k)) with k in * by lia.
  replace (Z.to_nat (0 + Z.of_nat k + 1)) with (S k) in Hdots by lia.
  rewrite (drop_S _ _ _ Hdot) in *. exists (drop (S k) p). split; [reflexivity|].
  inversion Hsep as [|? ? _ Hrest]; subst.
  rewrite List.Forall_forall in *. intros x Hin. split; [by apply Hdots|by apply Hrest].
Qed.

(** A name that is a dot followed by characters without a dot has no
    extension. *)
Lemma splitext_hidden (name : pystr) :
  Forall (fun c => c <> 46%N) name -> snd (splitext (46%N :: name)) = [].
Proof.
  intros Hname. unfold splitext.
  assert (Hdot : rfind 46 (46%N :: name) = 0%Z).
  { unfold rfind. cbn [rfind_from]. by rewrite N.eqb_refl, (rfind_from_absent _ _ _ _ Hname). }
  rewrite Hdot.
  destruct (rfind_after 47 (46%N :: name)) as [Hge _].
  destruct (rfind 47 (46%N :: name) <? 0)%Z eqn:Hlt; [|reflexivity].
  apply Z.ltb_lt in Hlt.
  replace (rfind 47 (46%N :: name)) with (-1)%Z by lia. reflexivity.
Qed.

(** X22.  What a client can make of the stored name.  Whatever file name
    is sent, the extension taken from it is empty or a dot followed by
    characters that are neither dots nor slashes, so only the last
    suffix of [a.tar.gz] is kept and the stored names [pre_op<ext>] and
    [during_op<ext>] have no slash: the file name cannot place the upload
    outside the directory of the scan.  A file name that is only a
    suffix, such as [.png], has the empty extension. *)
Theorem extension_shape (u : upload) :
  (extension u = []
   \/ exists rest,
        extension u = 46%N :: rest /\ Forall (fun c => c <> 46%N /\ c <> 47%N) rest)
  /\ Forall (fun c => c <> 47%N) (stored_name "pre_op" u)
  /\ Forall (fun c => c <> 47%N) (stored_name "during_op" u)
  /\ (forall name,
        filename u = Some (46%N :: name) ->
        Forall (fun c => c <> 46%N) name ->
        extension u = []).
Proof.
  assert (Hshape : extension u = []
                   \/ exists rest,
                        extension u = 46%N :: rest
                        /\ Forall (fun c => c <> 46%N /\ c <> 47%N) rest).
  { unfold extension. destruct (filename u) as [[|c name]|].
    - right. exists (py "jpg"). split; [reflexivity|]. by repeat constructor.
    - apply splitext_shape.
    - right. exists (py "jpg"). split; [reflexivity|]. by repeat constructor. }
  split; [exact Hshape|].
  split; [exact (proj2 (proj2 (proj1 (plain_name_spec _)
                   (stored_name_plain "pre_op" u pre_op_plain))))|].
  split; [exact (proj2 (proj2 (proj1 (plain_name_spec _)
                   (stored_name_plain "during_op" u during_op_plain))))|].
  intros name Hname Hdots. unfold extension. rewrite Hname. by apply splitext_hidden.
Qed.

Lemma extension_shape_witness :
  filename suffix_only_upload = Some (46%N :: py "png")
  /\ extension suffix_only_upload = []
  /\ stored_name "pre_op" suffix_only_upload = py "pre_op".
Proof.
  assert (Hext : extension suffix_only_upload = []).
  { apply (proj2 (proj2 (proj2 (extension_shape suffix_only_upload))) (py "png"));
      [reflexivity|]. by repeat constructor. }
  split; [reflexivity|]. split; [exact Hext|].
  unfold stored_name. by rewrite Hext.
Defined.

(** ** The two functions of the store, composed *)

(** X2.  What [save_scan_to_db] saves, [load_scans_from_db] loads.  In a
    store that holds a list of well-formed values, saving a well-formed
    record appends it and writes the snapshot, and loading, in an
    environment whose encoding extends ASCII, then returns that list: the
    old items in order, followed by the record. *)
Theorem save_then_load (e e' : env) (scan_data : json) (items : list json) (st : state) :
  scans_db st = JArr items ->
  json_ok (JArr items) = true ->
  json_ok scan_data = true ->
  write_outcome e SNAPSHOT = IoDone ->
  decodes_ascii e' ->
  exists st',
    save_scan_to_db e scan_data st = (Ok tt, st')
    /\ scans_db st' = JArr (items ++ [scan_data])
    /\ load_scans_from_db e' st' = (Ok (JArr (items ++ [scan_data])), st').
Proof.
  intros Hdb Hitems Hscan Hwrite Hdecode.
  assert (Hok : json_ok (JArr (items ++ [scan_data])) = true).
  { cbn [json_ok] in *. rewrite forallb_app, Hitems. cbn [forallb]. by rewrite Hscan. }
  unfold save_scan_to_db, dump_snapshot, list_append, read_db, write_file, bind.
  rewrite Hdb. cbn [scans_db set_scans_db]. rewrite Hwrite.
  eexists. split; [reflexivity|]. cbn [scans_db set_files set_scans_db files].
  split; [reflexivity|].
  unfold load_scans_from_db. cbn [files set_files]. rewrite lookup_insert_eq.
  rewrite (Hdecode _ (json_dumps_ascii _ Hok)). cbn [rbind].
  by rewrite (json_loads_dumps _ Hok).
Qed.

Lemma save_then_load_witness :
  exists st',
    save_scan_to_db calm_env (JObj bare_record) empty_store = (Ok tt, st')
    /\ scans_db st' = JArr ([] ++ [JObj bare_record])
    /\ load_scans_from_db calm_env st' = (Ok (JArr ([] ++ [JObj bare_record])), st').
Proof.
  exact (save_then_load calm_env calm_env (JObj bare_record) [] empty_store eq_refl eq_refl
           eq_refl eq_refl calm_env_decodes_ascii).
Defined.

(** ** A snapshot cut short *)

(** *** Scanners in front of more text

    What a scanner read at the head of a text, it reads at the head of
    every longer text, provided it stopped before the end. *)

Lemma span_digits_ext (s u ds r : pystr) (c : N) :
  span_digits s = (ds, c :: r) -> span_digits (s ++ u) = (ds, c :: r ++ u).
Proof.
  revert ds. induction s as [|x s IH]; intros ds; cbn [span_digits app]; [discriminate|].
  destruct (is_digit x); [|by intros [= <- <- <-]].
  destruct (span_digits s) as [ds' r'] eqn:Hs. intros [= <- ->].
  by rewrite (IH _ eq_refl).
Qed.

Lemma scan_int_part_ext (s u ipart r : pystr) (c : N) :
  scan_int_part s = Some (ipart, c :: r) ->
  scan_int_part (s ++ u) = Some (ipart, c :: r ++ u).
Proof.
  destruct s as [|d s]; [discriminate|]. cbn [app scan_int_part].
  destruct (is_digit d); [|discriminate].
  destruct (d =? 48)%N; [by intros [= <- ->]|].
  destruct (span_digits s) as [ds rest] eqn:Hs. intros [= <- ->].
  by rewrite (span_digits_ext _ _ _ _ _ Hs).
Qed.

Lemma scan_frac_ext (s u frac r : pystr) (c : N) :
  scan_frac s = (frac, c :: r) ->
  c <> 46%N \/ frac <> [] ->
  scan_frac (s ++ u) = (frac, c :: r ++ u).
Proof.
  destruct s as [|dot [|d s]]; cbn [app].
  - discriminate.
  - cbn [scan_frac]. intros [= <- <- <-] [Hdot|Hfrac]; [|done].
    destruct u as [|d u]; [reflexivity|]. cbn [scan_frac app].
    apply N.eqb_neq in Hdot. by rewrite Hdot.
  - cbn [scan_frac]. destruct ((dot =? 46)%N && is_digit d); [|by intros [= <- <- <-]].
    destruct (span_digits s) as [ds rest] eqn:Hs. intros [= <- ->] _.
    by rewrite (span_digits_ext _ _ _ _ _ Hs).
Qed.

Lemma ends_number_head (c : N) (r : pystr) :
  ends_number (c :: r) = true ->
  is_digit c = false /\ c <> 46%N /\ ((c =? 101) || (c =? 69))%N = false
  /\ ((c =? 45) || (c =? 43))%N = false.
Proof.
  cbn [ends_number]. rewrite negb_true_iff, !orb_false_iff.
  intros [[[[[Hd Hdot] He] HE] Hplus] Hminus].
  rewrite He, HE, Hplus, Hminus. apply N.eqb_neq in Hdot. by repeat split.
Qed.

Lemma scan_exp_ext (s u exp r : pystr) (c : N) :
  scan_exp s = (exp, c :: r) ->
  ends_number (c :: r) = true ->
  scan_exp (s ++ u) = (exp, c :: r ++ u).
Proof.
  intros Hscan Hends. destruct (ends_number_head _ _ Hends) as (_ & _ & Hc & _).
  destruct s as [|e s]; [discriminate|]. cbn [app scan_exp] in *.
  destruct ((e =? 101) || (e =? 69))%N eqn:He; [|by injection Hscan as <- <- <-].
  destruct s as [|c1 s]; cbn [app] in *.
  - cbn [span_digits] in Hscan. injection Hscan as <- <- <-. congruence.
  - destruct ((c1 =? 45) || (c1 =? 43))%N.
    + destruct (span_digits s) as [[|d ds] rest] eqn:Hs.
      * injection Hscan as <- <- <-. congruence.
      * injection Hscan as <- ->. by rewrite (span_digits_ext _ _ _ _ _ Hs).
    + destruct (span_digits (c1 :: s)) as [[|d ds] rest] eqn:Hs.
      * injection Hscan as <- <- <-. congruence.
      * injection Hscan as <- ->.
        change (c1 :: s ++ u) with ((c1 :: s) ++ u).
        by rewrite (span_digits_ext _ _ _ _ _ Hs).
Qed.

Lemma scan_number_ext (s u r : pystr) (v : json) (c : N) :
  scan_number s = Some (v, c :: r) ->
  ends_number (c :: r) = true ->
  scan_number (s ++ u) = Some (v, c :: r ++ u).
Proof.
  intros Hscan Hends. destruct (ends_number_head _ _ Hends) as (_ & Hdot & _ & _).
  unfold scan_number in *.
  assert (Hrest : forall (neg : bool) (s1 : pystr),
    match scan_int_part s1 with
    | None => None
    | Some (ipart, r1) =>
        let (frac, r2) := scan_frac r1 in
        let (exp, r3) := scan_exp r2 in
        match frac, exp with
        | [], [] =>
            let n := Z.of_N (N.of_uint (chars_uint ipart)) in
            Some (JInt (if neg then (- n)%Z else n), r3)
        | _, _ => Some (JFloat ((if neg then [45%N] else []) ++ ipart ++ frac ++ exp), r3)
        end
    end = Some (v, c :: r) ->
    match scan_int_part (s1 ++ u) with
    | None => None
    | Some (ipart, r1) =>
        let (frac, r2) := scan_frac r1 in
        let (exp, r3) := scan_exp r2 in
        match frac, exp with
        | [], [] =>
            let n := Z.of_N (N.of_uint (chars_uint ipart)) in
            Some (JInt (if neg then (- n)%Z else n), r3)
        | _, _ => Some (JFloat ((if neg then [45%N] else []) ++ ipart ++ frac ++ exp), r3)
        end
    end = Some (v, c :: r ++ u)).
  { intros neg s1.
    destruct (scan_int_part s1) as [[ipart r1]|] eqn:Hint; [|discriminate].
    destruct (scan_frac_spec r1) as [Hfrac_eq _].
    destruct (scan_frac r1) as [frac r2] eqn:Hfrac. cbn [fst snd] in Hfrac_eq.
    destruct (scan_exp_spec r2) as [Hexp_eq Hexp_shape].
    destruct (scan_exp r2) as [exp r3] eqn:Hexp. cbn [fst snd] in Hexp_eq, Hexp_shape.
    intros Hv.
    assert (Hr3 : r3 = c :: r) by (destruct frac, exp; by injection Hv).
    subst r3.
    assert (Hr2 : exists c2 r2', r2 = c2 :: r2' /\ (c2 <> 46%N \/ frac <> [])).
    { destruct Hexp_shape as [->|[(e0 & rest & -> & He0) _]].
      - exists c, r. split; [exact Hexp_eq|by left].
        - exists e0, (rest ++ c :: r). split; [exact Hexp_eq|left].
        intros ->. discriminate He0. }
    destruct Hr2 as (c2 & r2' & -> & Hc2).
    assert (Hr1 : exists c1 r1', r1 = c1 :: r1').
    { destruct frac; rewrite Hfrac_eq; cbn [app]; eauto. }
    destruct Hr1 as (c1 & r1' & ->).
    rewrite (scan_int_part_ext _ u _ _ _ Hint).
    change (c1 :: r1' ++ u) with ((c1 :: r1') ++ u).
    rewrite (scan_frac_ext _ u _ _ _ Hfrac Hc2).
    change (c2 :: r2' ++ u) with ((c2 :: r2') ++ u).
    rewrite (scan_exp_ext _ u _ _ _ Hexp Hends).
    destruct frac, exp; by injection Hv as <-. }
  destruct s as [|x s]; [discriminate|]. cbn [app].
  destruct (x =? 45)%N; [exact (Hrest true s Hscan)|].
  exact (Hrest false (x :: s) Hscan).
Qed.

Lemma scan_items_ext (n : nat) (s u r : pystr) (items : list str_item) :
  length s <= n ->
  scan_items s = Some (items, r) ->
  scan_items (s ++ u) = Some (items, r ++ u).
Proof.
  revert s r items. induction n as [|n IH]; intros s r items Hlen.
  { destruct s; [discriminate|cbn in Hlen; lia]. }
  assert (Hcons : forall i s0, length s0 <= n ->
            cons_item i (scan_items s0) = Some (items, r) ->
            cons_item i (scan_items (s0 ++ u)) = Some (items, r ++ u)).
  { intros i s0 Hs0. destruct (scan_items s0) as [[items0 r0]|] eqn:Hscan; [|discriminate].
    cbn [cons_item]. intros [= <- <-]. by rewrite (IH _ _ _ Hs0 Hscan). }
  destruct s as [|c s]; [discriminate|]. cbn [length] in Hlen.
  cbn [scan_items app].
  destruct (c =? 34)%N; [by intros [= <- <-]|].
  destruct (c =? 92)%N.
  - destruct s as [|e s]; [discriminate|]. cbn [length app] in *.
    destruct (e =? 117)%N.
    + destruct s as [|a [|b [|c' [|d s]]]]; try discriminate. cbn [length app] in *.
      destruct (hex4 a b c' d); [|discriminate]. apply Hcons. lia.
    + destruct (simple_escape e); [|discriminate]. apply Hcons. lia.
  - destruct (c <? 32)%N; [discriminate|]. apply Hcons. lia.
Qed.

Lemma scan_string_ext (s u r str : pystr) :
  scan_string s = Some (str, r) -> scan_string (s ++ u) = Some (str, r ++ u).
Proof.
  unfold scan_string. destruct (scan_items s) as [[items r']|] eqn:Hitems; [|discriminate].
  intros [= <- <-]. by rewrite (scan_items_ext _ _ u _ _ (le_n _) Hitems).
Qed.

Lemma skip_ws_ext (s u r : pystr) (c : N) :
  skip_ws s = c :: r -> skip_ws (s ++ u) = c :: r ++ u.
Proof.
  induction s as [|x s IH]; cbn [skip_ws app]; [discriminate|].
  destruct (is_ws x); [exact IH|]. by intros [= <- <-].
Qed.

Lemma strip_prefix_ext (prefix s u rest : pystr) :
  strip_prefix prefix s = Some rest -> strip_prefix prefix (s ++ u) = Some (rest ++ u).
Proof.
  revert s. induction prefix as [|p prefix IH]; intros s.
  - destruct s; by intros [= <-].
  - destruct s as [|c s]; [discriminate|]. cbn [strip_prefix app].
    destruct (p =? c)%N; [apply IH|discriminate].
Qed.

Lemma scan_constant_ext (word : string) (value v : json) (s u r : pystr) :
  scan_constant word value s = Some (v, r) ->
  scan_constant word value (s ++ u) = Some (v, r ++ u).
Proof.
  unfold scan_constant. destruct (strip_prefix (py word) s) as [rest|] eqn:Hstrip;
    [|discriminate].
  intros [= <- <-]. by rewrite (strip_prefix_ext _ _ u _ Hstrip).
Qed.

(** *** Values in front of more text *)

Lemma parse_value_nil (fuel : nat) : parse_value fuel [] = None.
Proof. by destruct fuel. Qed.

Lemma parse_items_nil (fuel : nat) : parse_items fuel [] = None.
Proof. destruct fuel as [|n]; [reflexivity|]. cbn [parse_items]. by rewrite parse_value_nil. Qed.

Lemma parse_members_nil (fuel : nat) : parse_members fuel [] = None.
Proof. by destruct fuel. Qed.

(** A value followed, after white space, by a comma or a closing bracket
    is settled. *)
Lemma settled_before (s r r1 : pystr) (c : N) :
  skip_ws r = c :: r1 ->
  ((c =? 93) || (c =? 44) || (c =? 125))%N = true ->
  settled s r = true.
Proof.
  intros Hws Hc.
  assert (Hends : exists c0 r0, r = c0 :: r0 /\ ends_number r = true).
  { destruct r as [|c0 r0]; [discriminate|]. exists c0, r0. split; [reflexivity|].
    cbn [skip_ws] in Hws. destruct (is_ws c0) eqn:Hc0.
    - clear Hws. unfold is_ws in Hc0. rewrite !orb_true_iff, !N.eqb_eq in Hc0.
      by destruct Hc0 as [[[-> | ->] | ->] | ->].
    - injection Hws as -> _. rewrite !orb_true_iff, !N.eqb_eq in Hc.
      by destruct Hc as [[-> | ->] | ->]. }
  destruct Hends as (c0 & r0 & -> & Hends). unfold settled.
  destruct s as [|x s]; [reflexivity|]. by destruct (is_digit x || (x =? 45)%N).
Qed.

(** Text that starts like a number is not the name of the negative
    infinity, whatever follows it. *)
Lemma scan_number_not_constant (s u r : pystr) (v value : json) :
  scan_number s = Some (v, r) -> scan_constant "-Infinity" value (s ++ u) = None.
Proof.
  intros Hscan. destruct (scan_number_head _ _ _ Hscan) as (c & s' & -> & Hhead).
  unfold scan_constant. cbn [py strip_prefix app].
  destruct Hhead as [Hdigit|[-> (d & s'' & -> & Hdigit)]].
  - unfold is_digit in Hdigit. apply andb_true_iff in Hdigit as [Hlo Hhi].
    apply N.leb_le in Hlo, Hhi.
    assert (Hminus : (ch "-" =? c)%N = false) by (apply N.eqb_neq; cbn; lia).
    by rewrite Hminus.
  - change (ch "-" =? 45)%N with true. cbv iota. cbn [app].
    unfold is_digit in Hdigit. apply andb_true_iff in Hdigit as [Hlo Hhi].
    apply N.leb_le in Hlo, Hhi.
    assert (HI : (ch "I" =? d)%N = false) by (apply N.eqb_neq; cbn; lia).
    by rewrite HI.
Qed.

(** What the parser read at the head of a text, with any fuel, it reads
    at the head of every longer text, with any larger fuel. *)
Lemma parse_ext (fuel : nat) :
  (forall s v r u m,
      parse_value fuel s = Some (v, r) -> settled s r = true -> fuel <= m ->
      parse_value m (s ++ u) = Some (v, r ++ u))
  /\ (forall s vs r u m,
        parse_items fuel s = Some (vs, r) -> fuel <= m ->
        parse_items m (s ++ u) = Some (vs, r ++ u))
  /\ (forall s kvs r u m,
        parse_members fuel s = Some (kvs, r) -> fuel <= m ->
        parse_members m (s ++ u) = Some (kvs, r ++ u)).
Proof.
  induction fuel as [|n (IHv & IHi & IHm)]; [by repeat split|].
  split; [|split].
  - intros s v r u m Hparse Hsettled Hm.
    destruct m as [|m]; [lia|]. assert (Hnm : n <= m) by lia.
    destruct s as [|c s]; [discriminate|].
    cbn [parse_value] in Hparse. cbn [app parse_value].
    destruct (c =? 34)%N.
    { destruct (scan_string s) as [[str rest]|] eqn:Hstr; [|discriminate].
      injection Hparse as <- <-. by rewrite (scan_string_ext _ u _ _ Hstr). }
    destruct (c =? 123)%N.
    { destruct (skip_ws s) as [|c1 r1] eqn:Hws; [discriminate|].
      rewrite (skip_ws_ext _ u _ _ Hws).
      destruct (c1 =? 125)%N; [by injection Hparse as <- <-|].
      destruct (parse_members n (c1 :: r1)) as [[pairs rest]|] eqn:Hmem; [|discriminate].
      injection Hparse as <- <-.
      change (c1 :: r1 ++ u) with ((c1 :: r1) ++ u). by rewrite (IHm _ _ _ u m Hmem Hnm). }
    destruct (c =? 91)%N.
    { destruct (skip_ws s) as [|c1 r1] eqn:Hws; [discriminate|].
      rewrite (skip_ws_ext _ u _ _ Hws).
      destruct (c1 =? 93)%N; [by injection Hparse as <- <-|].
      destruct (parse_items n (c1 :: r1)) as [[items rest]|] eqn:Hitems; [|discriminate].
      injection Hparse as <- <-.
      change (c1 :: r1 ++ u) with ((c1 :: r1) ++ u). by rewrite (IHi _ _ _ u m Hitems Hnm). }
    destruct (c =? 110)%N; [exact (scan_constant_ext _ _ _ (c :: s) u _ Hparse)|].
    destruct (c =? 116)%N; [exact (scan_constant_ext _ _ _ (c :: s) u _ Hparse)|].
    destruct (c =? 102)%N; [exact (scan_constant_ext _ _ _ (c :: s) u _ Hparse)|].
    destruct (c =? 78)%N; [exact (scan_constant_ext _ _ _ (c :: s) u _ Hparse)|].
    destruct (c =? 73)%N; [exact (scan_constant_ext _ _ _ (c :: s) u _ Hparse)|].
    destruct (scan_constant "-Infinity" (JFloat (py "-Infinity")) (c :: s))
      as [[v' r']|] eqn:Hconst.
    { injection Hparse as <- <-.
      change (c :: s ++ u) with ((c :: s) ++ u).
      by rewrite (scan_constant_ext _ _ _ _ u _ Hconst). }
    change (c :: s ++ u) with ((c :: s) ++ u).
    rewrite (scan_number_not_constant _ u _ _ _ Hparse).
    destruct (scan_number_head _ _ _ Hparse) as (c0 & s' & [= <- <-] & Hhead).
    assert (Hc : (is_digit c || (c =? 45)%N) = true).
    { destruct Hhead as [->|[-> _]]; [reflexivity|by rewrite orb_true_r]. }
    cbn [settled] in Hsettled. rewrite Hc in Hsettled.
    destruct r as [|c' r']; [discriminate|]. by apply scan_number_ext.
  - intros s vs r u m Hparse Hm.
    destruct m as [|m]; [lia|]. assert (Hnm : n <= m) by lia.
    cbn [parse_items] in *.
    destruct (parse_value n s) as [[v r0]|] eqn:Hv; [|discriminate].
    destruct (skip_ws r0) as [|c r1] eqn:Hws; [discriminate|].
    assert (Hc : ((c =? 93) || (c =? 44) || (c =? 125))%N = true).
    { destruct (c =? 93)%N; [reflexivity|]. destruct (c =? 44)%N; [reflexivity|].
      discriminate Hparse. }
    rewrite (IHv _ _ _ u m Hv (settled_before _ _ _ _ Hws Hc) Hnm).
    rewrite (skip_ws_ext _ u _ _ Hws).
    destruct (c =? 93)%N; [by injection Hparse as <- <-|].
    destruct (c =? 44)%N; [|discriminate].
    destruct (skip_ws r1) as [|c2 r2] eqn:Hws2; [by rewrite parse_items_nil in Hparse|].
    rewrite (skip_ws_ext _ u _ _ Hws2).
    destruct (parse_items n (c2 :: r2)) as [[vs' rest]|] eqn:Hitems; [|discriminate].
    injection Hparse as <- <-.
    change (c2 :: r2 ++ u) with ((c2 :: r2) ++ u). by rewrite (IHi _ _ _ u m Hitems Hnm).
  - intros s kvs r u m Hparse Hm.
    destruct m as [|m]; [lia|]. assert (Hnm : n <= m) by lia.
    destruct s as [|q s]; [discriminate|].
    cbn [parse_members] in Hparse. cbn [app parse_members].
    destruct (q =? 34)%N; [|discriminate].
    destruct (scan_string s) as [[key r1]|] eqn:Hkey; [|discriminate].
    rewrite (scan_string_ext _ u _ _ Hkey).
    destruct (skip_ws r1) as [|colon r2] eqn:Hws1; [discriminate|].
    rewrite (skip_ws_ext _ u _ _ Hws1).
    destruct (colon =? 58)%N; [|discriminate].
    destruct (skip_ws r2) as [|c2 r2'] eqn:Hws2; [by rewrite parse_value_nil in Hparse|].
    rewrite (skip_ws_ext _ u _ _ Hws2).
    destruct (parse_value n (c2 :: r2')) as [[v r3]|] eqn:Hv; [|discriminate].
    destruct (skip_ws r3) as [|c r4] eqn:Hws3; [discriminate|].
    assert (Hc : ((c =? 93) || (c =? 44) || (c =? 125))%N = true).
    { destruct (c =? 125)%N; [by rewrite orb_true_r|]. destruct (c =? 44)%N;
        [by rewrite orb_true_r|]. discriminate Hparse. }
    change (c2 :: r2' ++ u) with ((c2 :: r2') ++ u).
    rewrite (IHv _ _ _ u m Hv (settled_before _ _ _ _ Hws3 Hc) Hnm).
    rewrite (skip_ws_ext _ u _ _ Hws3).
    destruct (c =? 125)%N; [by injection Hparse as <- <-|].
    destruct (c =? 44)%N; [|discriminate].
    destruct (skip_ws r4) as [|c5 r5] eqn:Hws4; [by rewrite parse_members_nil in Hparse|].
    rewrite (skip_ws_ext _ u _ _ Hws4).
    destruct (parse_members n (c5 :: r5)) as [[kvs' rest]|] eqn:Hmem; [|discriminate].
    injection Hparse as <- <-.
    change (c5 :: r5 ++ u) with ((c5 :: r5) ++ u). by rewrite (IHm _ _ _ u m Hmem Hnm).
Qed.

(** No proper prefix of the text of a list is JSON text. *)
Lemma torn_text_rejected (items : list json) (n : nat) :
  json_ok (JArr items) = true ->
  n < length (json_dumps (JArr items)) ->
  json_loads (take n (json_dumps (JArr items))) = Raise JSONDecodeError.
Proof.
  intros Hok Hn.
  destruct (json_loads (take n (json_dumps (JArr items)))) as [v|err] eqn:Hloads;
    [|by rewrite (json_loads_raises _ _ Hloads)].
  exfalso. unfold json_loads in Hloads.
  destruct (parse_value _ _) as [[value rest]|] eqn:Hparse; [|discriminate].
  pose proof (parse_value_dumps (JArr items) Hok (S (length (json_dumps (JArr items)))) []
                ltac:(pose proof (weight_le_length _ Hok); lia) eq_refl) as Hfull.
  rewrite app_nil_r in Hfull.
  destruct n as [|n]; [by rewrite take_0, parse_value_nil in Hparse|].
  remember (json_dumps (JArr items)) as text eqn:Htext.
  assert (Hhead : exists body, text = 91%N :: body) by (rewrite Htext; cbn; eauto).
  destruct Hhead as [body ->]. cbn [take skip_ws is_ws N.eqb Pos.eqb orb] in Hparse.
  destruct (parse_ext (S (length (91%N :: take n body)))) as (Hvalue & _).
  assert (Hle : S (length (91%N :: take n body)) <= S (length (91%N :: body)))
    by (cbn [length]; rewrite length_take; lia).
  specialize (Hvalue _ _ _ (drop n body) _ Hparse eq_refl Hle).
  cbn [app] in Hvalue. rewrite take_drop in Hvalue.
  rewrite Hfull in Hvalue. injection Hvalue as _ Hrest. cbn [length] in Hn.
  symmetry in Hrest. apply app_eq_nil in Hrest as [_ Hdrop].
  apply (f_equal length) in Hdrop. rewrite length_drop in Hdrop. cbn [length] in Hdrop. lia.
Qed.

Lemma is_ascii_take (n : nat) (bytes : list N) :
  is_ascii bytes = true -> is_ascii (take n bytes) = true.
Proof.
  unfold is_ascii. rewrite !forallb_forall. intros Hall b Hin. apply Hall.
  apply list_elem_of_In. apply list_elem_of_In in Hin. by apply (subseteq_take n bytes).
Qed.

(** The comprehensions raise nothing but [AttributeError]. *)
Lemma select_raises (keep : option json -> bool) (key : pystr) (items : list json)
    (err : exn) :
  select keep key items = Raise err -> err = AttributeError.
Proof.
  induction items as [|scan rest IH]; [discriminate|]. cbn [select].
  destruct scan; cbn [py_get rbind]; try by intros [= <-].
  destruct (select keep key rest); cbn [rbind]; [discriminate|].
  intros [= <-]. by apply IH.
Qed.

(** A [delete_scan] that ends with an [OSError] had rebound [scans_db] to
    a list and failed at the snapshot. *)
Lemma delete_scan_write_fails (e : env) (scan_id : pystr) (st st' : state) (errno : Z) :
  delete_scan e scan_id st = (Raise (OSError errno), st') ->
  exists kept,
    scans_db st' = JArr kept
    /\ dump_snapshot e (set_scans_db (JArr kept) st) = (Raise (OSError errno), st').
Proof.
  unfold delete_scan, bind, read_db, lift, assign_db.
  destruct (py_len (scans_db st)) as [n|err] eqn:Hlen.
  2: { destruct (scans_db st); try discriminate Hlen; injection Hlen as <-; discriminate. }
  destruct (py_iter (scans_db st)) as [items|err] eqn:Hiter; cbn [rbind].
  2: { destruct (scans_db st); try discriminate Hiter; injection Hiter as <-; discriminate. }
  destruct (select _ (py "id") items) as [kept|err] eqn:Hsel.
  2: { apply select_raises in Hsel as ->. discriminate. }
  destruct (Nat.eqb _ n); [discriminate|].
  destruct (dump_snapshot e (set_scans_db (JArr kept) st)) as [[[]|err] st1] eqn:Hdump;
    [discriminate|].
  intros [= -> ->]. exists kept. split; [|exact Hdump].
  unfold dump_snapshot, bind, read_db, write_file in Hdump.
  cbn [scans_db set_scans_db] in Hdump.
  destruct (write_outcome e SNAPSHOT); by injection Hdump as _ <-.
Qed.

(** What a restart finds after a snapshot write that stopped midway. *)
Lemma torn_snapshot_restart (e' : env) (st : state) (items : list json) (written : nat) :
  decodes_ascii e' ->
  scans_db st = JArr items ->
  json_ok (JArr items) = true ->
  files st !! SNAPSHOT = Some (take written (json_dumps (JArr items))) ->
  written < length (json_dumps (JArr items)) ->
  startup e' st = (Raise JSONDecodeError, st).
Proof.
  intros Hdecode Hdb Hok Hfile Hwritten.
  unfold startup, load_scans_from_db, bind. cbv beta.
  match goal with
  | |- context [match ?found with Some _ => _ | None => _ end] =>
      replace found with (Some (take written (json_dumps (JArr items))))
        by (symmetry; exact Hfile)
  end.
  rewrite (Hdecode _ (is_ascii_take _ _ (json_dumps_ascii _ Hok))). cbn [rbind].
  by rewrite (torn_text_rejected _ _ Hok Hwritten).
Qed.

(** X4.  A snapshot write that stops midway stops the next start.  The
    file is opened for writing, which empties it, before [json.dump]
    writes; when the write fails after part of the text, in a
    [delete_scan] or in an [analyze_occlusion] whose files were written,
    the request ends with an exception, the snapshot holds a proper
    prefix of the text of [scans_db], and no such prefix is JSON text:
    the next startup, in any environment whose encoding extends ASCII,
    ends with [JSONDecodeError]. *)
Theorem torn_snapshot_stops_restart (e e' : env) (st st' : state) (errno : Z)
    (written : nat) :
  reachable st ->
  decodes_ascii e' ->
  write_outcome e SNAPSHOT = IoWriteFails errno written ->
  written < length (json_dumps (scans_db st')) ->
  (exists scan_id, delete_scan e scan_id st = (Raise (OSError errno), st'))
  \/ (exists pre_op_image during_op_image patient_id,
        env_ok e /\ upload_ok pre_op_image /\ upload_ok during_op_image
        /\ text_ok patient_id = true
        /\ blobs_succeed e pre_op_image during_op_image
        /\ is_list (scans_db st) = true
        /\ analyze_occlusion e pre_op_image during_op_image patient_id st
           = (Raise (HTTPException 500 (AnalysisFailed (OSError errno))), st')) ->
  files st' !! SNAPSHOT = Some (take written (json_dumps (scans_db st')))
  /\ startup e' st' = (Raise JSONDecodeError, st').
Proof.
  intros Hreach Hdecode Hwrite Hwritten Hop.
  assert (Hreach' : reachable st').
  { destruct Hop as [[scan_id Hdel]
                    |(pre & during & pid & He & Hpre & Hduring & Hpid & _ & _ & Hrun)].
    - exact (reach_delete _ _ _ _ _ Hreach Hdel).
    - exact (reach_create _ _ _ _ _ _ _ Hreach He Hpre Hduring Hpid Hrun). }
  apply reachable_ok in Hreach' as Hok.
  assert (Hfile : exists items,
            scans_db st' = JArr items
            /\ files st' !! SNAPSHOT = Some (take written (json_dumps (JArr items)))).
  { destruct Hop as [[scan_id Hdel]
                    |(pre & during & pid & He & _ & _ & _ & Hblobs & Hlist & Hrun)].
    - destruct (delete_scan_write_fails _ _ _ _ _ Hdel) as (kept & Hdb' & Hdump).
      exists kept. split; [exact Hdb'|].
      unfold dump_snapshot, bind, read_db, write_file in Hdump.
      cbn [scans_db set_scans_db] in Hdump. rewrite Hwrite in Hdump.
      injection Hdump as <-. cbn [files set_files]. apply lookup_insert_eq.
    - rewrite (analyze_occlusion_blobs _ _ _ _ _ (proj1 He) Hblobs) in Hrun.
      destruct (scan_locals_paths e pre during (proj1 He)) as [Hpre Hduring].
      unfold try_except, save_scan_to_db, dump_snapshot, list_append, read_db, write_file,
        bind in Hrun.
      cbn [scans_db set_files set_scans_db files] in Hrun.
      destruct (scans_db st) as [| | | | |items|]; try discriminate Hlist.
      cbn [scans_db set_files set_scans_db files] in Hrun. rewrite Hwrite in Hrun.
      rewrite cleanup_files, Hpre, Hduring in Hrun. injection Hrun as <-.
      cbn [scans_db set_files set_scans_db files].
      eexists. split; [reflexivity|].
      rewrite !lookup_delete_ne by apply blob_file_not_snapshot.
      apply lookup_insert_eq. }
  destruct Hfile as (items & Hdb' & Hfile). rewrite Hdb' in *.
  split; [exact Hfile|].
  by apply (torn_snapshot_restart e' st' items written).
Qed.

Lemma torn_snapshot_stops_restart_witness :
  delete_scan torn_snapshot_env (uuid4 calm_env) one_scan_store
  = (Raise (OSError 28), snd (delete_scan torn_snapshot_env (uuid4 calm_env) one_scan_store))
  /\ files (snd (delete_scan torn_snapshot_env (uuid4 calm_env) one_scan_store)) !! SNAPSHOT
     = Some (take 1 (json_dumps
                       (scans_db (snd (delete_scan torn_snapshot_env (uuid4 calm_env)
                                         one_scan_store)))))
  /\ startup calm_env (snd (delete_scan torn_snapshot_env (uuid4 calm_env) one_scan_store))
     = (Raise JSONDecodeError,
        snd (delete_scan torn_snapshot_env (uuid4 calm_env) one_scan_store)).
Proof.
  assert (Hdel : delete_scan torn_snapshot_env (uuid4 calm_env) one_scan_store
                 = (Raise (OSError 28),
                    snd (delete_scan torn_snapshot_env (uuid4 calm_env) one_scan_store)))
    by (vm_compute; reflexivity).
  split; [exact Hdel|].
  apply (torn_snapshot_stops_restart torn_snapshot_env calm_env one_scan_store _ 28 1
           one_scan_store_reachable calm_env_decodes_ascii).
  - vm_compute. reflexivity.
  - vm_compute. lia.
  - left. exists (uuid4 calm_env). exact Hdel.
Defined.

(** ** A create request undone *)




(** X24.  A scan created and deleted again leaves the list as it was, and
    its files behind.  After an [analyze_occlusion] in which no step
    failed, in a store none of whose records carries the identifier
    drawn, a [delete_scan] of that identifier returns, [scans_db] is the
    list before the two requests, the snapshot holds its text, and the
    three files of the scan are still on disk. *)
Theorem create_then_delete (e e' : env) (pre_op_image during_op_image : upload)
    (patient_id : pystr) (items : list json) (fs : gmap pystr (list N)) :
  uuid_text (uuid4 e) = true ->
  io_succeeds e pre_op_image during_op_image ->
  write_outcome e' SNAPSHOT = IoDone ->
  Forall (fun scan => is_dict scan = true) items ->
  Forall (fun scan => has_id (uuid4 e) scan = false) items ->
  exists st1 st2 v,
    analyze_occlusion e pre_op_image during_op_image patient_id (store_of items fs)
    = (Ok (mock_analysis (uuid4 e)), st1)
    /\ delete_scan e' (uuid4 e) st1 = (Ok v, st2)
    /\ scans_db st2 = JArr items
    /\ files st2 !! SNAPSHOT = Some (json_dumps (JArr items))
    /\ files st2 !! blob_file e (stored_name "pre_op" pre_op_image)
       = Some (contents pre_op_image)
    /\ files st2 !! blob_file e (stored_name "during_op" during_op_image)
       = Some (contents during_op_image)
    /\ files st2 !! blob_file e (py "analysis_results.json")
       = Some (json_dumps (mock_analysis (uuid4 e))).
Proof.
  intros Huuid Hio Hwrite Hdicts Hids.
  rewrite (analyze_occlusion_ok _ _ _ patient_id items fs Huuid Hio).
  assert (Hnew : has_id (uuid4 e) (new_record e pre_op_image during_op_image patient_id)
                 = true).
  { unfold has_id, field_is, new_record.
    change (dict_get (py "id") _) with (Some (JStr (uuid4 e))).
    cbn [eq_str]. apply pystr_eqb_refl. }
  assert (Hkept : List.filter (fun scan => negb (has_id (uuid4 e) scan))
                    (items ++ [new_record e pre_op_image during_op_image patient_id])
                  = items).
  { rewrite List.filter_app. cbn [List.filter]. rewrite Hnew. cbn [negb].
    rewrite app_nil_r. apply forallb_filter_id, forallb_forall. intros scan Hin.
    rewrite List.Forall_forall in Hids. by rewrite (Hids scan Hin). }
  assert (Hdicts' : Forall (fun scan => is_dict scan = true)
                      (items ++ [new_record e pre_op_image during_op_image patient_id])).
  { apply Forall_app. split; [exact Hdicts|]. by repeat constructor. }
  eexists _, _, _. split; [reflexivity|].
  unfold delete_scan, bind, read_db, lift, assign_db.
  cbn [scans_db store_of py_len py_iter rbind].
  rewrite (select_other_ids _ _ Hdicts'), Hkept.
  assert (Hlen : Nat.eqb (length items)
                   (length (items ++ [new_record e pre_op_image during_op_image patient_id]))
                 = false).
  { apply Nat.eqb_neq. rewrite length_app. cbn [length]. lia. }
  rewrite Hlen. unfold dump_snapshot, bind, read_db, write_file, ret.
  cbn [scans_db set_scans_db files set_files store_of]. rewrite Hwrite.
  split; [reflexivity|]. cbn [scans_db files set_files set_scans_db].
  split; [reflexivity|]. split; [apply lookup_insert_eq|].
  destruct (stored_names_differ pre_op_image during_op_image) as (Hpd & Hpa & Hda).
  pose proof (blob_file_not_snapshot e (stored_name "pre_op" pre_op_image)).
  pose proof (blob_file_not_snapshot e (stored_name "during_op" during_op_image)).
  pose proof (blob_file_not_snapshot e (py "analysis_results.json")).
  assert (blob_file e (py "analysis_results.json")
          <> blob_file e (stored_name "pre_op" pre_op_image))
    by (intros Heq; by apply blob_file_inj in Heq).
  assert (blob_file e (py "analysis_results.json")
          <> blob_file e (stored_name "during_op" during_op_image))
    by (intros Heq; by apply blob_file_inj in Heq).
  assert (blob_file e (stored_name "during_op" during_op_image)
          <> blob_file e (stored_name "pre_op" pre_op_image))
    by (intros Heq; by apply blob_file_inj in Heq).
  split; [|split].
  - rewrite !lookup_insert_ne by done. apply lookup_insert_eq.
  - rewrite !lookup_insert_ne by done. apply lookup_insert_eq.
  - rewrite !lookup_insert_ne by done. apply lookup_insert_eq.
Qed.

Lemma create_then_delete_witness :
  exists st1 st2 v,
    analyze_occlusion calm_env (photo "before.png") (photo "during.jpeg") (py "P1")
      (store_of [] ∅)
    = (Ok (mock_analysis (uuid4 calm_env)), st1)
    /\ delete_scan calm_env (uuid4 calm_env) st1 = (Ok v, st2)
    /\ scans_db st2 = JArr []
    /\ files st2 !! blob_file calm_env (stored_name "pre_op" (photo "before.png"))
       = Some (contents (photo "before.png")).
Proof.
  destruct (create_then_delete calm_env calm_env (photo "before.png") (photo "during.jpeg")
              (py "P1") [] ∅ eq_refl (calm_io_succeeds _ _) eq_refl
              (List.Forall_nil _) (List.Forall_nil _))
    as (st1 & st2 & v & Hrun & Hdel & Hdb & _ & Hpre & _).
  exists st1, st2, v. split; [exact Hrun|]. split; [exact Hdel|]. split; [exact Hdb|exact Hpre].
Defined.
